(** * Exchange base, pair synchronisation and market-data refresh

    A shallow embedding of the exchange base ([package exchange]) and of the
    Bithumb and Huobi wrappers, together with the properties of the
    configuration reconciler, the pair synchroniser and the fetch-or-refresh
    pipeline.

    Conventions.
    - A Go [string] is a [string]; a [[]string] is a [list string] (a nil
      slice and an empty slice are both [[]]).
    - A Go [error] is an [option string]: [None] is [nil], [Some msg] carries
      the message.
    - A nil pointer is [None]; dereferencing it is the outcome [Panics].
    - [time.Duration] and [int64] values are integers in [Z].
    - Calls to [log.Printf] do not change any state and are left out. *)

From Stdlib Require Import Ascii String ZArith.
From stdpp Require Import base strings list gmap pretty.

Open Scope string_scope.

(** ** Outcomes of calls that may dereference a nil pointer *)

Inductive outcome (A : Type) : Type :=
| Returns (a : A)
| Panics.
Arguments Returns {A} a.
Arguments Panics {A}.

#[global] Instance outcome_ret : MRet outcome := fun _ a => Returns a.
#[global] Instance outcome_bind : MBind outcome :=
  fun _ _ f m => match m with Returns a => f a | Panics => Panics end.

(** [deref p] reads through a pointer. *)
Definition deref {A : Type} (p : option A) : outcome A :=
  match p with Some a => Returns a | None => Panics end.

Definition error : Type := option string.

(** ** Package common: string helpers *)

(** Modelled from the spec: package [common] is not among the sources.
    [JoinStrings], [SplitStrings] and [StringToUpper] wrap Go's
    [strings.Join], [strings.Split] and [strings.ToUpper]; the separator is
    the single character every call site passes.  [StringToUpper] maps the
    ASCII letters a-z and leaves every other byte as it is. *)

Definition comma : ascii := ","%char.

Definition JoinStrings (input : list string) (separator : ascii) : string :=
  String.concat (String separator EmptyString) input.

Fixpoint SplitStrings (input : string) (separator : ascii) : list string :=
  match input with
  | EmptyString => [EmptyString]
  | String c rest =>
      match SplitStrings rest separator with
      | [] => [String c EmptyString]
      | w :: ws =>
          if Ascii.eqb c separator then EmptyString :: w :: ws
          else String c w :: ws
      end
  end.

Definition upper_byte (c : ascii) : ascii :=
  let n := nat_of_ascii c in
  if (97 <=? n)%nat && (n <=? 122)%nat then ascii_of_nat (n - 32) else c.

Fixpoint StringToUpper (input : string) : string :=
  match input with
  | EmptyString => EmptyString
  | String c rest => String (upper_byte c) (StringToUpper rest)
  end.

(** [strings.Contains]. *)
Fixpoint StringContains (input substring : string) : bool :=
  String.prefix substring input ||
  match input with
  | EmptyString => false
  | String _ rest => StringContains rest substring
  end.

(** ** Package assets *)

(** Modelled from the spec: package [assets] is not among the sources.  An
    asset class is a named string type with the two distinct constants the
    sources use, spot and futures. *)

Definition AssetType : Type := string.
Definition AssetTypeSpot : AssetType := "Spot".
Definition AssetTypeFutures : AssetType := "Futures".

Definition AssetTypes_Contains (l : list AssetType) (a : AssetType) : bool :=
  existsb (String.eqb a) l.

Definition AssetTypes_JoinToString (l : list AssetType) (separator : ascii) : string :=
  JoinStrings l separator.

(** ** Package pair: pair differences *)

(** Modelled from the spec: [pair.FindPairDifferences] is not among the
    sources.  Section 4.4: [added = fresh - stored], [removed = stored - fresh]. *)

Definition StringDataContains (haystack : list string) (needle : string) : bool :=
  existsb (String.eqb needle) haystack.

Definition FindPairDifferences (oldPairs newPairs : list string)
  : list string * list string :=
  (List.filter (fun x => negb (StringDataContains oldPairs x)) newPairs,
   List.filter (fun x => negb (StringDataContains newPairs x)) oldPairs).

(** ** Package config: the persisted exchange configuration *)

(** Modelled from the spec: the declarations of package [config] are not
    among the sources.  The records hold the fields the exchange base reads
    and writes, with the types its code gives them; a pointer field is an
    [option]. *)

Record CurrencyPairFormatConfig := {
  Uppercase : bool;
  Delimiter : string;
  Separator : string;
  Index : string }.

Record CurrencyPairConfig := {
  cpc_RequestFormat : option CurrencyPairFormatConfig;
  cpc_ConfigFormat : option CurrencyPairFormatConfig;
  cpc_Enabled : string;
  cpc_Available : string }.

Record CurrencyPairsConfig := {
  cps_RequestFormat : option CurrencyPairFormatConfig;
  cps_ConfigFormat : option CurrencyPairFormatConfig;
  cps_AssetTypes : string;
  cps_LastUpdated : Z;
  cps_Spot : option CurrencyPairConfig;
  cps_Futures : option CurrencyPairConfig }.

Record ProtocolFeaturesConfig := {
  pfc_AutoPairUpdates : bool;
  pfc_TickerBatching : bool }.

Record TradingConfig := {
  tc_Spot : bool;
  tc_Futures : bool;
  tc_Margin : bool;
  tc_PerpetualSwaps : bool;
  tc_Index : bool }.

Record FeaturesSupportedConfig := {
  fsc_REST : bool;
  fsc_RESTCapabilities : ProtocolFeaturesConfig;
  fsc_Websocket : bool;
  fsc_Trading : TradingConfig }.

Record FeaturesEnabledConfig := {
  fec_AutoPairUpdates : bool;
  fec_Websocket : bool }.

Record FeaturesConfig := {
  fc_Supports : FeaturesSupportedConfig;
  fc_Enabled : FeaturesEnabledConfig }.

Record APICredentials := {
  Key : string;
  Secret : string;
  ClientID : string;
  PEMKey : string }.

Record APICredentialsValidator := {
  RequiresPEM : bool;
  RequiresKey : bool;
  RequiresSecret : bool;
  RequiresClientID : bool;
  RequiresBase64DecodeSecret : bool }.

Record APIEndpointsConfig := {
  aec_URL : string;
  aec_URLSecondary : string;
  aec_WebsocketURL : string }.

Record APIConfig := {
  ac_AuthenticatedSupport : bool;
  ac_PEMKeySupport : bool;
  ac_Endpoints : APIEndpointsConfig;
  ac_Credentials : APICredentials;
  ac_CredentialsValidator : APICredentialsValidator }.

Record RateLimit := {
  Duration : Z;
  Rate : Z }.

Record HTTPRateLimitConfig := {
  rl_Unauthenticated : RateLimit;
  rl_Authenticated : RateLimit }.

Record ExchangeConfig := {
  ec_Name : string;
  ec_Enabled : bool;
  ec_Verbose : bool;
  ec_HTTPTimeout : Z;
  ec_HTTPUserAgent : string;
  ec_HTTPRateLimiter : option HTTPRateLimitConfig;
  ec_ProxyAddress : string;
  ec_BaseCurrencies : string;
  ec_CurrencyPairs : option CurrencyPairsConfig;
  ec_API : APIConfig;
  ec_Features : option FeaturesConfig;
  ec_SupportsAutoPairUpdates : option bool }.

(** Zero values ([new(T)] and omitted struct fields). *)
Definition zero_CurrencyPairFormatConfig : CurrencyPairFormatConfig :=
  {| Uppercase := false; Delimiter := ""; Separator := ""; Index := "" |}.

Definition zero_CurrencyPairConfig : CurrencyPairConfig :=
  {| cpc_RequestFormat := None; cpc_ConfigFormat := None;
     cpc_Enabled := ""; cpc_Available := "" |}.

Definition zero_CurrencyPairsConfig : CurrencyPairsConfig :=
  {| cps_RequestFormat := None; cps_ConfigFormat := None; cps_AssetTypes := "";
     cps_LastUpdated := 0; cps_Spot := None; cps_Futures := None |}.

Definition zero_RateLimit : RateLimit := {| Duration := 0; Rate := 0 |}.

Definition zero_APICredentials : APICredentials :=
  {| Key := ""; Secret := ""; ClientID := ""; PEMKey := "" |}.

Definition zero_APICredentialsValidator : APICredentialsValidator :=
  {| RequiresPEM := false; RequiresKey := false; RequiresSecret := false;
     RequiresClientID := false; RequiresBase64DecodeSecret := false |}.

Definition zero_APIConfig : APIConfig :=
  {| ac_AuthenticatedSupport := false; ac_PEMKeySupport := false;
     ac_Endpoints := {| aec_URL := ""; aec_URLSecondary := ""; aec_WebsocketURL := "" |};
     ac_Credentials := zero_APICredentials;
     ac_CredentialsValidator := zero_APICredentialsValidator |}.

Definition zero_ExchangeConfig : ExchangeConfig :=
  {| ec_Name := ""; ec_Enabled := false; ec_Verbose := false; ec_HTTPTimeout := 0;
     ec_HTTPUserAgent := ""; ec_HTTPRateLimiter := None; ec_ProxyAddress := "";
     ec_BaseCurrencies := ""; ec_CurrencyPairs := None; ec_API := zero_APIConfig;
     ec_Features := None; ec_SupportsAutoPairUpdates := None |}.

(** ** Package pair: a currency pair *)

(** Modelled from the spec: package [pair] is not among the sources; the
    wrappers read [FirstCurrency] and pass pairs on unchanged. *)

Record CurrencyPair := {
  p_Delimiter : string;
  p_FirstCurrency : string;
  p_SecondCurrency : string }.

(** ** Package request and the websocket handle *)

(** Modelled from the spec: packages [request] and the websocket type are not
    among the sources.  A requester holds what the base reads and writes: the
    HTTP client's timeout and proxy, the user agent and the two rate limits;
    the websocket handle holds its enabled flag and proxy address. *)

Record HTTPClient := {
  hc_Timeout : Z;
  hc_Proxy : option string }.

Record Requester := {
  rq_Name : string;
  rq_UserAgent : string;
  rq_HTTPClient : HTTPClient;
  rq_AuthLimit : RateLimit;
  rq_UnauthLimit : RateLimit }.

Record Websocket := {
  ws_enabled : bool;
  ws_proxyAddr : string }.

Definition NewRateLimit (d : Z) (rate : Z) : RateLimit :=
  {| Duration := d; Rate := rate |}.

Definition new_HTTPClient : HTTPClient := {| hc_Timeout := 0; hc_Proxy := None |}.

Definition NewHTTPClientWithTimeout (t : Z) : HTTPClient :=
  {| hc_Timeout := t; hc_Proxy := None |}.

Definition request_New (name : string) (authLimit unauthLimit : RateLimit)
    (httpRequester : HTTPClient) : Requester :=
  {| rq_Name := name; rq_UserAgent := ""; rq_HTTPClient := httpRequester;
     rq_AuthLimit := authLimit; rq_UnauthLimit := unauthLimit |}.

Definition set_hc_Timeout (t : Z) (h : HTTPClient) : HTTPClient :=
  {| hc_Timeout := t; hc_Proxy := hc_Proxy h |}.

Definition set_hc_Proxy (p : option string) (h : HTTPClient) : HTTPClient :=
  {| hc_Timeout := hc_Timeout h; hc_Proxy := p |}.

Definition set_rq_UserAgent (ua : string) (r : Requester) : Requester :=
  {| rq_Name := rq_Name r; rq_UserAgent := ua; rq_HTTPClient := rq_HTTPClient r;
     rq_AuthLimit := rq_AuthLimit r; rq_UnauthLimit := rq_UnauthLimit r |}.

Definition set_rq_HTTPClient (h : HTTPClient) (r : Requester) : Requester :=
  {| rq_Name := rq_Name r; rq_UserAgent := rq_UserAgent r; rq_HTTPClient := h;
     rq_AuthLimit := rq_AuthLimit r; rq_UnauthLimit := rq_UnauthLimit r |}.

Definition set_rq_AuthLimit (l : RateLimit) (r : Requester) : Requester :=
  {| rq_Name := rq_Name r; rq_UserAgent := rq_UserAgent r;
     rq_HTTPClient := rq_HTTPClient r;
     rq_AuthLimit := l; rq_UnauthLimit := rq_UnauthLimit r |}.

Definition set_rq_UnauthLimit (l : RateLimit) (r : Requester) : Requester :=
  {| rq_Name := rq_Name r; rq_UserAgent := rq_UserAgent r;
     rq_HTTPClient := rq_HTTPClient r;
     rq_AuthLimit := rq_AuthLimit r; rq_UnauthLimit := l |}.

Definition GetRateLimit (r : Requester) (auth : bool) : RateLimit :=
  if auth then rq_AuthLimit r else rq_UnauthLimit r.

Definition SetRateLimit (auth : bool) (d : Z) (rate : Z) (r : Requester) : Requester :=
  if auth then set_rq_AuthLimit (NewRateLimit d rate) r
  else set_rq_UnauthLimit (NewRateLimit d rate) r.

Definition Requester_SetProxy (p : string) (r : Requester) : Requester :=
  set_rq_HTTPClient (set_hc_Proxy (Some p) (rq_HTTPClient r)) r.

Definition Websocket_SetProxyAddress (addr : string) (w : Websocket) : Websocket :=
  {| ws_enabled := ws_enabled w; ws_proxyAddr := addr |}.

Definition Websocket_SetEnabled (enabled : bool) (w : Websocket) : Websocket :=
  {| ws_enabled := enabled; ws_proxyAddr := ws_proxyAddr w |}.

(** ** Package exchange: the exchange base *)

(** Modelled from the spec: the type declarations of package [exchange]
    ([Base], [Features], [CurrencyPairs], [API] and their parts) are not
    among the sources.  The records hold the fields the methods below read
    and write. *)

Record AssetPairs := {
  ap_Enabled : list string;
  ap_Available : list string;
  ap_RequestFormat : CurrencyPairFormatConfig;
  ap_ConfigFormat : CurrencyPairFormatConfig }.

Record CurrencyPairs := {
  cp_UseGlobalPairFormat : bool;
  cp_RequestFormat : CurrencyPairFormatConfig;
  cp_ConfigFormat : CurrencyPairFormatConfig;
  cp_LastUpdated : Z;
  cp_AssetTypes : list AssetType;
  cp_Spot : AssetPairs;
  cp_Futures : AssetPairs }.

Record ProtocolFeatures := {
  pf_AutoPairUpdates : bool;
  pf_TickerBatching : bool }.

Record TradingSupported := {
  ts_Spot : bool;
  ts_Futures : bool;
  ts_Margin : bool;
  ts_PerpetualSwaps : bool;
  ts_Index : bool }.

Record FeaturesSupported := {
  fs_REST : bool;
  fs_RESTCapabilities : ProtocolFeatures;
  fs_Websocket : bool;
  fs_WebsocketCapabilities : ProtocolFeatures;
  fs_Trading : TradingSupported }.

Record FeaturesEnabled := {
  fe_AutoPairUpdates : bool }.

Record Features := {
  f_Supports : FeaturesSupported;
  f_Enabled : FeaturesEnabled }.

Record APIEndpoints := {
  ep_URL : string;
  ep_URLDefault : string;
  ep_URLSecondary : string;
  ep_URLSecondaryDefault : string }.

Record API := {
  api_AuthenticatedSupport : bool;
  api_PEMKeySupport : bool;
  api_Endpoints : APIEndpoints;
  api_Credentials : APICredentials;
  api_CredentialsValidator : APICredentialsValidator }.

(** [b_Config] is the configuration object [e.Config] points to.  After
    [SetupDefaults(exch)] it is the caller's [exch] itself (one shared
    object), so the written-back configuration is read from this field. *)
Record Base := {
  b_Name : string;
  b_Enabled : bool;
  b_Verbose : bool;
  b_LoadedByConfig : bool;
  b_APIWithdrawPermissions : Z;
  b_API : API;
  b_BaseCurrencies : list string;
  b_CurrencyPairs : CurrencyPairs;
  b_Features : Features;
  b_HTTPUserAgent : string;
  b_Requester : option Requester;
  b_Websocket : option Websocket;
  b_Config : option ExchangeConfig }.

Definition zero_AssetPairs : AssetPairs :=
  {| ap_Enabled := []; ap_Available := [];
     ap_RequestFormat := zero_CurrencyPairFormatConfig;
     ap_ConfigFormat := zero_CurrencyPairFormatConfig |}.

Definition zero_ProtocolFeatures : ProtocolFeatures :=
  {| pf_AutoPairUpdates := false; pf_TickerBatching := false |}.

(** *** Field updates ([x.f = v]) *)

Definition set_Key (v : string) (c : APICredentials) : APICredentials :=
  {| Key := v; Secret := Secret c; ClientID := ClientID c; PEMKey := PEMKey c |}.
Definition set_Secret (v : string) (c : APICredentials) : APICredentials :=
  {| Key := Key c; Secret := v; ClientID := ClientID c; PEMKey := PEMKey c |}.
Definition set_ClientID (v : string) (c : APICredentials) : APICredentials :=
  {| Key := Key c; Secret := Secret c; ClientID := v; PEMKey := PEMKey c |}.
Definition set_PEMKey (v : string) (c : APICredentials) : APICredentials :=
  {| Key := Key c; Secret := Secret c; ClientID := ClientID c; PEMKey := v |}.

Definition set_RequiresPEM (v : bool) (c : APICredentialsValidator) :=
  {| RequiresPEM := v; RequiresKey := RequiresKey c; RequiresSecret := RequiresSecret c;
     RequiresClientID := RequiresClientID c;
     RequiresBase64DecodeSecret := RequiresBase64DecodeSecret c |}.
Definition set_RequiresKey (v : bool) (c : APICredentialsValidator) :=
  {| RequiresPEM := RequiresPEM c; RequiresKey := v; RequiresSecret := RequiresSecret c;
     RequiresClientID := RequiresClientID c;
     RequiresBase64DecodeSecret := RequiresBase64DecodeSecret c |}.
Definition set_RequiresSecret (v : bool) (c : APICredentialsValidator) :=
  {| RequiresPEM := RequiresPEM c; RequiresKey := RequiresKey c; RequiresSecret := v;
     RequiresClientID := RequiresClientID c;
     RequiresBase64DecodeSecret := RequiresBase64DecodeSecret c |}.
Definition set_RequiresClientID (v : bool) (c : APICredentialsValidator) :=
  {| RequiresPEM := RequiresPEM c; RequiresKey := RequiresKey c;
     RequiresSecret := RequiresSecret c; RequiresClientID := v;
     RequiresBase64DecodeSecret := RequiresBase64DecodeSecret c |}.
Definition set_RequiresBase64DecodeSecret (v : bool) (c : APICredentialsValidator) :=
  {| RequiresPEM := RequiresPEM c; RequiresKey := RequiresKey c;
     RequiresSecret := RequiresSecret c; RequiresClientID := RequiresClientID c;
     RequiresBase64DecodeSecret := v |}.

Definition set_cpc_RequestFormat (v : option CurrencyPairFormatConfig) (c : CurrencyPairConfig) :=
  {| cpc_RequestFormat := v; cpc_ConfigFormat := cpc_ConfigFormat c;
     cpc_Enabled := cpc_Enabled c; cpc_Available := cpc_Available c |}.
Definition set_cpc_ConfigFormat (v : option CurrencyPairFormatConfig) (c : CurrencyPairConfig) :=
  {| cpc_RequestFormat := cpc_RequestFormat c; cpc_ConfigFormat := v;
     cpc_Enabled := cpc_Enabled c; cpc_Available := cpc_Available c |}.
Definition set_cpc_Enabled (v : string) (c : CurrencyPairConfig) :=
  {| cpc_RequestFormat := cpc_RequestFormat c; cpc_ConfigFormat := cpc_ConfigFormat c;
     cpc_Enabled := v; cpc_Available := cpc_Available c |}.
Definition set_cpc_Available (v : string) (c : CurrencyPairConfig) :=
  {| cpc_RequestFormat := cpc_RequestFormat c; cpc_ConfigFormat := cpc_ConfigFormat c;
     cpc_Enabled := cpc_Enabled c; cpc_Available := v |}.

Definition set_cps_RequestFormat (v : option CurrencyPairFormatConfig) (c : CurrencyPairsConfig) :=
  {| cps_RequestFormat := v; cps_ConfigFormat := cps_ConfigFormat c;
     cps_AssetTypes := cps_AssetTypes c; cps_LastUpdated := cps_LastUpdated c;
     cps_Spot := cps_Spot c; cps_Futures := cps_Futures c |}.
Definition set_cps_ConfigFormat (v : option CurrencyPairFormatConfig) (c : CurrencyPairsConfig) :=
  {| cps_RequestFormat := cps_RequestFormat c; cps_ConfigFormat := v;
     cps_AssetTypes := cps_AssetTypes c; cps_LastUpdated := cps_LastUpdated c;
     cps_Spot := cps_Spot c; cps_Futures := cps_Futures c |}.
Definition set_cps_AssetTypes (v : string) (c : CurrencyPairsConfig) :=
  {| cps_RequestFormat := cps_RequestFormat c; cps_ConfigFormat := cps_ConfigFormat c;
     cps_AssetTypes := v; cps_LastUpdated := cps_LastUpdated c;
     cps_Spot := cps_Spot c; cps_Futures := cps_Futures c |}.
Definition set_cps_LastUpdated (v : Z) (c : CurrencyPairsConfig) :=
  {| cps_RequestFormat := cps_RequestFormat c; cps_ConfigFormat := cps_ConfigFormat c;
     cps_AssetTypes := cps_AssetTypes c; cps_LastUpdated := v;
     cps_Spot := cps_Spot c; cps_Futures := cps_Futures c |}.
Definition set_cps_Spot (v : option CurrencyPairConfig) (c : CurrencyPairsConfig) :=
  {| cps_RequestFormat := cps_RequestFormat c; cps_ConfigFormat := cps_ConfigFormat c;
     cps_AssetTypes := cps_AssetTypes c; cps_LastUpdated := cps_LastUpdated c;
     cps_Spot := v; cps_Futures := cps_Futures c |}.
Definition set_cps_Futures (v : option CurrencyPairConfig) (c : CurrencyPairsConfig) :=
  {| cps_RequestFormat := cps_RequestFormat c; cps_ConfigFormat := cps_ConfigFormat c;
     cps_AssetTypes := cps_AssetTypes c; cps_LastUpdated := cps_LastUpdated c;
     cps_Spot := cps_Spot c; cps_Futures := v |}.

Definition set_pfc_AutoPairUpdates (v : bool) (c : ProtocolFeaturesConfig) :=
  {| pfc_AutoPairUpdates := v; pfc_TickerBatching := pfc_TickerBatching c |}.
Definition set_pfc_TickerBatching (v : bool) (c : ProtocolFeaturesConfig) :=
  {| pfc_AutoPairUpdates := pfc_AutoPairUpdates c; pfc_TickerBatching := v |}.

Definition set_fsc_REST (v : bool) (c : FeaturesSupportedConfig) :=
  {| fsc_REST := v; fsc_RESTCapabilities := fsc_RESTCapabilities c;
     fsc_Websocket := fsc_Websocket c; fsc_Trading := fsc_Trading c |}.
Definition set_fsc_RESTCapabilities (v : ProtocolFeaturesConfig) (c : FeaturesSupportedConfig) :=
  {| fsc_REST := fsc_REST c; fsc_RESTCapabilities := v;
     fsc_Websocket := fsc_Websocket c; fsc_Trading := fsc_Trading c |}.
Definition set_fsc_Websocket (v : bool) (c : FeaturesSupportedConfig) :=
  {| fsc_REST := fsc_REST c; fsc_RESTCapabilities := fsc_RESTCapabilities c;
     fsc_Websocket := v; fsc_Trading := fsc_Trading c |}.
Definition set_fsc_Trading (v : TradingConfig) (c : FeaturesSupportedConfig) :=
  {| fsc_REST := fsc_REST c; fsc_RESTCapabilities := fsc_RESTCapabilities c;
     fsc_Websocket := fsc_Websocket c; fsc_Trading := v |}.

Definition set_fc_Supports (v : FeaturesSupportedConfig) (c : FeaturesConfig) :=
  {| fc_Supports := v; fc_Enabled := fc_Enabled c |}.
Definition set_fc_Enabled (v : FeaturesEnabledConfig) (c : FeaturesConfig) :=
  {| fc_Supports := fc_Supports c; fc_Enabled := v |}.

Definition set_ac_CredentialsValidator (v : APICredentialsValidator) (c : APIConfig) :=
  {| ac_AuthenticatedSupport := ac_AuthenticatedSupport c;
     ac_PEMKeySupport := ac_PEMKeySupport c; ac_Endpoints := ac_Endpoints c;
     ac_Credentials := ac_Credentials c; ac_CredentialsValidator := v |}.

Definition set_ec_HTTPTimeout (v : Z) (c : ExchangeConfig) :=
  {| ec_Name := ec_Name c; ec_Enabled := ec_Enabled c; ec_Verbose := ec_Verbose c;
     ec_HTTPTimeout := v; ec_HTTPUserAgent := ec_HTTPUserAgent c;
     ec_HTTPRateLimiter := ec_HTTPRateLimiter c; ec_ProxyAddress := ec_ProxyAddress c;
     ec_BaseCurrencies := ec_BaseCurrencies c; ec_CurrencyPairs := ec_CurrencyPairs c;
     ec_API := ec_API c; ec_Features := ec_Features c;
     ec_SupportsAutoPairUpdates := ec_SupportsAutoPairUpdates c |}.
Definition set_ec_HTTPRateLimiter (v : option HTTPRateLimitConfig) (c : ExchangeConfig) :=
  {| ec_Name := ec_Name c; ec_Enabled := ec_Enabled c; ec_Verbose := ec_Verbose c;
     ec_HTTPTimeout := ec_HTTPTimeout c; ec_HTTPUserAgent := ec_HTTPUserAgent c;
     ec_HTTPRateLimiter := v; ec_ProxyAddress := ec_ProxyAddress c;
     ec_BaseCurrencies := ec_BaseCurrencies c; ec_CurrencyPairs := ec_CurrencyPairs c;
     ec_API := ec_API c; ec_Features := ec_Features c;
     ec_SupportsAutoPairUpdates := ec_SupportsAutoPairUpdates c |}.
Definition set_ec_CurrencyPairs (v : option CurrencyPairsConfig) (c : ExchangeConfig) :=
  {| ec_Name := ec_Name c; ec_Enabled := ec_Enabled c; ec_Verbose := ec_Verbose c;
     ec_HTTPTimeout := ec_HTTPTimeout c; ec_HTTPUserAgent := ec_HTTPUserAgent c;
     ec_HTTPRateLimiter := ec_HTTPRateLimiter c; ec_ProxyAddress := ec_ProxyAddress c;
     ec_BaseCurrencies := ec_BaseCurrencies c; ec_CurrencyPairs := v;
     ec_API := ec_API c; ec_Features := ec_Features c;
     ec_SupportsAutoPairUpdates := ec_SupportsAutoPairUpdates c |}.
Definition set_ec_API (v : APIConfig) (c : ExchangeConfig) :=
  {| ec_Name := ec_Name c; ec_Enabled := ec_Enabled c; ec_Verbose := ec_Verbose c;
     ec_HTTPTimeout := ec_HTTPTimeout c; ec_HTTPUserAgent := ec_HTTPUserAgent c;
     ec_HTTPRateLimiter := ec_HTTPRateLimiter c; ec_ProxyAddress := ec_ProxyAddress c;
     ec_BaseCurrencies := ec_BaseCurrencies c; ec_CurrencyPairs := ec_CurrencyPairs c;
     ec_API := v; ec_Features := ec_Features c;
     ec_SupportsAutoPairUpdates := ec_SupportsAutoPairUpdates c |}.
Definition set_ec_Features (v : option FeaturesConfig) (c : ExchangeConfig) :=
  {| ec_Name := ec_Name c; ec_Enabled := ec_Enabled c; ec_Verbose := ec_Verbose c;
     ec_HTTPTimeout := ec_HTTPTimeout c; ec_HTTPUserAgent := ec_HTTPUserAgent c;
     ec_HTTPRateLimiter := ec_HTTPRateLimiter c; ec_ProxyAddress := ec_ProxyAddress c;
     ec_BaseCurrencies := ec_BaseCurrencies c; ec_CurrencyPairs := ec_CurrencyPairs c;
     ec_API := ec_API c; ec_Features := v;
     ec_SupportsAutoPairUpdates := ec_SupportsAutoPairUpdates c |}.
Definition set_ec_SupportsAutoPairUpdates (v : option bool) (c : ExchangeConfig) :=
  {| ec_Name := ec_Name c; ec_Enabled := ec_Enabled c; ec_Verbose := ec_Verbose c;
     ec_HTTPTimeout := ec_HTTPTimeout c; ec_HTTPUserAgent := ec_HTTPUserAgent c;
     ec_HTTPRateLimiter := ec_HTTPRateLimiter c; ec_ProxyAddress := ec_ProxyAddress c;
     ec_BaseCurrencies := ec_BaseCurrencies c; ec_CurrencyPairs := ec_CurrencyPairs c;
     ec_API := ec_API c; ec_Features := ec_Features c;
     ec_SupportsAutoPairUpdates := v |}.

Definition set_ap_Enabled (v : list string) (a : AssetPairs) :=
  {| ap_Enabled := v; ap_Available := ap_Available a;
     ap_RequestFormat := ap_RequestFormat a; ap_ConfigFormat := ap_ConfigFormat a |}.
Definition set_ap_Available (v : list string) (a : AssetPairs) :=
  {| ap_Enabled := ap_Enabled a; ap_Available := v;
     ap_RequestFormat := ap_RequestFormat a; ap_ConfigFormat := ap_ConfigFormat a |}.

Definition set_cp_LastUpdated (v : Z) (c : CurrencyPairs) :=
  {| cp_UseGlobalPairFormat := cp_UseGlobalPairFormat c;
     cp_RequestFormat := cp_RequestFormat c; cp_ConfigFormat := cp_ConfigFormat c;
     cp_LastUpdated := v; cp_AssetTypes := cp_AssetTypes c;
     cp_Spot := cp_Spot c; cp_Futures := cp_Futures c |}.
Definition set_cp_Spot (v : AssetPairs) (c : CurrencyPairs) :=
  {| cp_UseGlobalPairFormat := cp_UseGlobalPairFormat c;
     cp_RequestFormat := cp_RequestFormat c; cp_ConfigFormat := cp_ConfigFormat c;
     cp_LastUpdated := cp_LastUpdated c; cp_AssetTypes := cp_AssetTypes c;
     cp_Spot := v; cp_Futures := cp_Futures c |}.
Definition set_cp_Futures (v : AssetPairs) (c : CurrencyPairs) :=
  {| cp_UseGlobalPairFormat := cp_UseGlobalPairFormat c;
     cp_RequestFormat := cp_RequestFormat c; cp_ConfigFormat := cp_ConfigFormat c;
     cp_LastUpdated := cp_LastUpdated c; cp_AssetTypes := cp_AssetTypes c;
     cp_Spot := cp_Spot c; cp_Futures := v |}.

Definition set_f_Enabled (v : FeaturesEnabled) (f : Features) :=
  {| f_Supports := f_Supports f; f_Enabled := v |}.

Definition set_ep_URL (v : string) (p : APIEndpoints) :=
  {| ep_URL := v; ep_URLDefault := ep_URLDefault p;
     ep_URLSecondary := ep_URLSecondary p;
     ep_URLSecondaryDefault := ep_URLSecondaryDefault p |}.
Definition set_ep_URLSecondary (v : string) (p : APIEndpoints) :=
  {| ep_URL := ep_URL p; ep_URLDefault := ep_URLDefault p;
     ep_URLSecondary := v;
     ep_URLSecondaryDefault := ep_URLSecondaryDefault p |}.

Definition set_api_AuthenticatedSupport (v : bool) (a : API) :=
  {| api_AuthenticatedSupport := v; api_PEMKeySupport := api_PEMKeySupport a;
     api_Endpoints := api_Endpoints a; api_Credentials := api_Credentials a;
     api_CredentialsValidator := api_CredentialsValidator a |}.
Definition set_api_Endpoints (v : APIEndpoints) (a : API) :=
  {| api_AuthenticatedSupport := api_AuthenticatedSupport a;
     api_PEMKeySupport := api_PEMKeySupport a;
     api_Endpoints := v; api_Credentials := api_Credentials a;
     api_CredentialsValidator := api_CredentialsValidator a |}.
Definition set_api_Credentials (v : APICredentials) (a : API) :=
  {| api_AuthenticatedSupport := api_AuthenticatedSupport a;
     api_PEMKeySupport := api_PEMKeySupport a;
     api_Endpoints := api_Endpoints a; api_Credentials := v;
     api_CredentialsValidator := api_CredentialsValidator a |}.

Definition set_b_Enabled (v : bool) (e : Base) :=
  {| b_Name := b_Name e; b_Enabled := v; b_Verbose := b_Verbose e;
     b_LoadedByConfig := b_LoadedByConfig e;
     b_APIWithdrawPermissions := b_APIWithdrawPermissions e; b_API := b_API e;
     b_BaseCurrencies := b_BaseCurrencies e; b_CurrencyPairs := b_CurrencyPairs e;
     b_Features := b_Features e; b_HTTPUserAgent := b_HTTPUserAgent e;
     b_Requester := b_Requester e; b_Websocket := b_Websocket e;
     b_Config := b_Config e |}.
Definition set_b_Verbose (v : bool) (e : Base) :=
  {| b_Name := b_Name e; b_Enabled := b_Enabled e; b_Verbose := v;
     b_LoadedByConfig := b_LoadedByConfig e;
     b_APIWithdrawPermissions := b_APIWithdrawPermissions e; b_API := b_API e;
     b_BaseCurrencies := b_BaseCurrencies e; b_CurrencyPairs := b_CurrencyPairs e;
     b_Features := b_Features e; b_HTTPUserAgent := b_HTTPUserAgent e;
     b_Requester := b_Requester e; b_Websocket := b_Websocket e;
     b_Config := b_Config e |}.
Definition set_b_LoadedByConfig (v : bool) (e : Base) :=
  {| b_Name := b_Name e; b_Enabled := b_Enabled e; b_Verbose := b_Verbose e;
     b_LoadedByConfig := v;
     b_APIWithdrawPermissions := b_APIWithdrawPermissions e; b_API := b_API e;
     b_BaseCurrencies := b_BaseCurrencies e; b_CurrencyPairs := b_CurrencyPairs e;
     b_Features := b_Features e; b_HTTPUserAgent := b_HTTPUserAgent e;
     b_Requester := b_Requester e; b_Websocket := b_Websocket e;
     b_Config := b_Config e |}.
Definition set_b_API (v : API) (e : Base) :=
  {| b_Name := b_Name e; b_Enabled := b_Enabled e; b_Verbose := b_Verbose e;
     b_LoadedByConfig := b_LoadedByConfig e;
     b_APIWithdrawPermissions := b_APIWithdrawPermissions e; b_API := v;
     b_BaseCurrencies := b_BaseCurrencies e; b_CurrencyPairs := b_CurrencyPairs e;
     b_Features := b_Features e; b_HTTPUserAgent := b_HTTPUserAgent e;
     b_Requester := b_Requester e; b_Websocket := b_Websocket e;
     b_Config := b_Config e |}.
Definition set_b_BaseCurrencies (v : list string) (e : Base) :=
  {| b_Name := b_Name e; b_Enabled := b_Enabled e; b_Verbose := b_Verbose e;
     b_LoadedByConfig := b_LoadedByConfig e;
     b_APIWithdrawPermissions := b_APIWithdrawPermissions e; b_API := b_API e;
     b_BaseCurrencies := v; b_CurrencyPairs := b_CurrencyPairs e;
     b_Features := b_Features e; b_HTTPUserAgent := b_HTTPUserAgent e;
     b_Requester := b_Requester e; b_Websocket := b_Websocket e;
     b_Config := b_Config e |}.
Definition set_b_CurrencyPairs (v : CurrencyPairs) (e : Base) :=
  {| b_Name := b_Name e; b_Enabled := b_Enabled e; b_Verbose := b_Verbose e;
     b_LoadedByConfig := b_LoadedByConfig e;
     b_APIWithdrawPermissions := b_APIWithdrawPermissions e; b_API := b_API e;
     b_BaseCurrencies := b_BaseCurrencies e; b_CurrencyPairs := v;
     b_Features := b_Features e; b_HTTPUserAgent := b_HTTPUserAgent e;
     b_Requester := b_Requester e; b_Websocket := b_Websocket e;
     b_Config := b_Config e |}.
Definition set_b_Features (v : Features) (e : Base) :=
  {| b_Name := b_Name e; b_Enabled := b_Enabled e; b_Verbose := b_Verbose e;
     b_LoadedByConfig := b_LoadedByConfig e;
     b_APIWithdrawPermissions := b_APIWithdrawPermissions e; b_API := b_API e;
     b_BaseCurrencies := b_BaseCurrencies e; b_CurrencyPairs := b_CurrencyPairs e;
     b_Features := v; b_HTTPUserAgent := b_HTTPUserAgent e;
     b_Requester := b_Requester e; b_Websocket := b_Websocket e;
     b_Config := b_Config e |}.
Definition set_b_HTTPUserAgent (v : string) (e : Base) :=
  {| b_Name := b_Name e; b_Enabled := b_Enabled e; b_Verbose := b_Verbose e;
     b_LoadedByConfig := b_LoadedByConfig e;
     b_APIWithdrawPermissions := b_APIWithdrawPermissions e; b_API := b_API e;
     b_BaseCurrencies := b_BaseCurrencies e; b_CurrencyPairs := b_CurrencyPairs e;
     b_Features := b_Features e; b_HTTPUserAgent := v;
     b_Requester := b_Requester e; b_Websocket := b_Websocket e;
     b_Config := b_Config e |}.
Definition set_b_Requester (v : option Requester) (e : Base) :=
  {| b_Name := b_Name e; b_Enabled := b_Enabled e; b_Verbose := b_Verbose e;
     b_LoadedByConfig := b_LoadedByConfig e;
     b_APIWithdrawPermissions := b_APIWithdrawPermissions e; b_API := b_API e;
     b_BaseCurrencies := b_BaseCurrencies e; b_CurrencyPairs := b_CurrencyPairs e;
     b_Features := b_Features e; b_HTTPUserAgent := b_HTTPUserAgent e;
     b_Requester := v; b_Websocket := b_Websocket e;
     b_Config := b_Config e |}.
Definition set_b_Websocket (v : option Websocket) (e : Base) :=
  {| b_Name := b_Name e; b_Enabled := b_Enabled e; b_Verbose := b_Verbose e;
     b_LoadedByConfig := b_LoadedByConfig e;
     b_APIWithdrawPermissions := b_APIWithdrawPermissions e; b_API := b_API e;
     b_BaseCurrencies := b_BaseCurrencies e; b_CurrencyPairs := b_CurrencyPairs e;
     b_Features := b_Features e; b_HTTPUserAgent := b_HTTPUserAgent e;
     b_Requester := b_Requester e; b_Websocket := v;
     b_Config := b_Config e |}.
Definition set_b_Config (v : option ExchangeConfig) (e : Base) :=
  {| b_Name := b_Name e; b_Enabled := b_Enabled e; b_Verbose := b_Verbose e;
     b_LoadedByConfig := b_LoadedByConfig e;
     b_APIWithdrawPermissions := b_APIWithdrawPermissions e; b_API := b_API e;
     b_BaseCurrencies := b_BaseCurrencies e; b_CurrencyPairs := b_CurrencyPairs e;
     b_Features := b_Features e; b_HTTPUserAgent := b_HTTPUserAgent e;
     b_Requester := b_Requester e; b_Websocket := b_Websocket e;
     b_Config := v |}.

(** ** Methods of the exchange base *)

Section ExchangeBase.

(** Declarations the base uses whose definitions are outside the sources:
    the sentinel constants of package [config], [common.Base64Decode],
    Go's [url.Parse], the requester's [RequiresRateLimiter] and the pair
    formatter of package [pair].  They are parameters of the development. *)
Variable DefaultAPIKey DefaultAPISecret DefaultAPIClientID : string.
Variable APIURLNonDefaultMessage : string.
Variable Base64Decode : string -> string * error.
Variable url_Parse : string -> string * error.
Variable RequiresRateLimiter : Requester -> bool.
Variable FormatPairs : list string -> string -> string -> list CurrencyPair.
Variable Display : CurrencyPair -> string -> bool -> string.

(** [time.Second * 15], in nanoseconds. *)
Definition DefaultHTTPTimeout : Z := 15 * 1000000000.

Definition checkAndInitRequester (e : Base) : Base :=
  match b_Requester e with
  | None =>
      set_b_Requester
        (Some (request_New (b_Name e)
                 (NewRateLimit 1000000000 0)
                 (NewRateLimit 1000000000 0)
                 new_HTTPClient)) e
  | Some _ => e
  end.

Definition SetHTTPClientTimeout (t : Z) (e : Base) : outcome Base :=
  let e := checkAndInitRequester e in
  r ← deref (b_Requester e);
  mret (set_b_Requester
          (Some (set_rq_HTTPClient (set_hc_Timeout t (rq_HTTPClient r)) r)) e).

Definition SetHTTPClientUserAgent (ua : string) (e : Base) : outcome Base :=
  let e := checkAndInitRequester e in
  r ← deref (b_Requester e);
  let e := set_b_Requester (Some (set_rq_UserAgent ua r)) e in
  mret (set_b_HTTPUserAgent ua e).

Definition GetHTTPClientUserAgent (e : Base) : string := b_HTTPUserAgent e.

Definition SetClientProxyAddress (addr : string) (e : Base) : outcome (error * Base) :=
  if negb (addr =? "") then
    let '(proxy, err) := url_Parse addr in
    match err with
    | Some msg => mret (Some ("exchange.go - setting proxy address error " ++ msg), e)
    | None =>
        r ← deref (b_Requester e);
        let e := set_b_Requester (Some (Requester_SetProxy proxy r)) e in
        match b_Websocket e with
        | Some w =>
            mret (None, set_b_Websocket (Some (Websocket_SetProxyAddress addr w)) e)
        | None => mret (None, e)
        end
    end
  else mret (None, e).

Definition IsAssetTypeSupported (e : Base) (asset : AssetType) : bool :=
  AssetTypes_Contains (cp_AssetTypes (b_CurrencyPairs e)) asset.

Definition SetFeatureDefaults (now : Z) (e : Base) : outcome Base :=
  c ← deref (b_Config e);
  let sup := f_Supports (b_Features e) in
  let trading :=
    {| tc_Spot := ts_Spot (fs_Trading sup);
       tc_Futures := ts_Futures (fs_Trading sup);
       tc_Margin := ts_Margin (fs_Trading sup);
       tc_PerpetualSwaps := ts_PerpetualSwaps (fs_Trading sup);
       tc_Index := ts_Index (fs_Trading sup) |} in
  match ec_Features c with
  | None =>
      let s :=
        {| fc_Supports :=
             {| fsc_Websocket := fs_Websocket sup;
                fsc_REST := fs_REST sup;
                fsc_RESTCapabilities :=
                  {| pfc_AutoPairUpdates := pf_AutoPairUpdates (fs_RESTCapabilities sup);
                     pfc_TickerBatching := false |};
                fsc_Trading := trading |};
           fc_Enabled := {| fec_AutoPairUpdates := false; fec_Websocket := false |} |} in
      let with_auto (v : bool) (s : FeaturesConfig) : FeaturesConfig :=
        {| fc_Supports :=
             set_fsc_RESTCapabilities
               (set_pfc_AutoPairUpdates v (fsc_RESTCapabilities (fc_Supports s)))
               (fc_Supports s);
           fc_Enabled :=
             {| fec_AutoPairUpdates := v;
                fec_Websocket := fec_Websocket (fc_Enabled s) |} |} in
      '(s, c, e) ←
        match ec_SupportsAutoPairUpdates c with
        | Some v => mret (with_auto v s, c, e)
        | None =>
            let s := with_auto (pf_AutoPairUpdates (fs_RESTCapabilities sup)) s in
            if negb (pfc_AutoPairUpdates (fsc_RESTCapabilities (fc_Supports s))) then
              cp ← deref (ec_CurrencyPairs c);
              let c := set_ec_CurrencyPairs (Some (set_cps_LastUpdated now cp)) c in
              let e := set_b_CurrencyPairs
                         (set_cp_LastUpdated now (b_CurrencyPairs e)) e in
              mret (s, c, e)
            else mret (s, c, e)
        end;
      let c := set_ec_Features (Some s) c in
      let c := set_ec_SupportsAutoPairUpdates None c in
      mret (set_b_Config (Some c) e)
  | Some f =>
      let f := set_fc_Supports (set_fsc_Trading trading (fc_Supports f)) f in
      let caps := fs_RESTCapabilities sup in
      '(f, c) ←
        if negb (Bool.eqb (pf_AutoPairUpdates caps)
                   (pfc_AutoPairUpdates (fsc_RESTCapabilities (fc_Supports f)))) then
          let f := set_fc_Supports
                     (set_fsc_RESTCapabilities
                        (set_pfc_AutoPairUpdates (pf_AutoPairUpdates caps)
                           (fsc_RESTCapabilities (fc_Supports f)))
                        (fc_Supports f)) f in
          if negb (pfc_AutoPairUpdates (fsc_RESTCapabilities (fc_Supports f))) then
            cp ← deref (ec_CurrencyPairs c);
            mret (f, set_ec_CurrencyPairs (Some (set_cps_LastUpdated now cp)) c)
          else mret (f, c)
        else mret (f, c);
      let f :=
        if negb (Bool.eqb (fs_REST sup) (fsc_REST (fc_Supports f))) then
          set_fc_Supports (set_fsc_REST (fs_REST sup) (fc_Supports f)) f
        else f in
      let f :=
        if negb (Bool.eqb (pf_AutoPairUpdates caps)
                   (pfc_TickerBatching (fsc_RESTCapabilities (fc_Supports f)))) then
          set_fc_Supports
            (set_fsc_RESTCapabilities
               (set_pfc_TickerBatching (pf_AutoPairUpdates caps)
                  (fsc_RESTCapabilities (fc_Supports f)))
               (fc_Supports f)) f
        else f in
      let f :=
        if negb (Bool.eqb (fs_Websocket sup) (fsc_Websocket (fc_Supports f))) then
          set_fc_Supports (set_fsc_Websocket (fs_Websocket sup) (fc_Supports f)) f
        else f in
      let e := set_b_Features
                 (set_f_Enabled
                    {| fe_AutoPairUpdates := fec_AutoPairUpdates (fc_Enabled f) |}
                    (b_Features e)) e in
      mret (set_b_Config (Some (set_ec_Features (Some f) c)) e)
  end.

Definition SetAPICredentialDefaults (e : Base) : outcome Base :=
  c ← deref (b_Config e);
  let own := api_CredentialsValidator (b_API e) in
  let v := ac_CredentialsValidator (ec_API c) in
  let v := if negb (Bool.eqb (RequiresKey v) (RequiresKey own))
           then set_RequiresKey (RequiresKey own) v else v in
  let v := if negb (Bool.eqb (RequiresSecret v) (RequiresSecret own))
           then set_RequiresSecret (RequiresSecret own) v else v in
  let v := if negb (Bool.eqb (RequiresBase64DecodeSecret v) (RequiresBase64DecodeSecret own))
           then set_RequiresBase64DecodeSecret (RequiresBase64DecodeSecret own) v else v in
  let v := if negb (Bool.eqb (RequiresClientID v) (RequiresClientID own))
           then set_RequiresClientID (RequiresClientID own) v else v in
  let v := if negb (Bool.eqb (RequiresPEM v) (RequiresPEM own))
           then set_RequiresPEM (RequiresPEM own) v else v in
  mret (set_b_Config (Some (set_ec_API (set_ac_CredentialsValidator v (ec_API c)) c)) e).

Definition SetHTTPRateLimiter (e : Base) : outcome Base :=
  let e := checkAndInitRequester e in
  r ← deref (b_Requester e);
  if RequiresRateLimiter r then
    c ← deref (b_Config e);
    match ec_HTTPRateLimiter c with
    | None =>
        let l :=
          {| rl_Unauthenticated :=
               {| Duration := Duration (GetRateLimit r false);
                  Rate := Rate (GetRateLimit r false) |};
             rl_Authenticated :=
               {| Duration := Duration (GetRateLimit r true);
                  Rate := Rate (GetRateLimit r true) |} |} in
        mret (set_b_Config (Some (set_ec_HTTPRateLimiter (Some l) c)) e)
    | Some l =>
        let r := SetRateLimit true (Duration (rl_Authenticated l))
                   (Rate (rl_Authenticated l)) r in
        let r := SetRateLimit false (Duration (rl_Unauthenticated l))
                   (Rate (rl_Unauthenticated l)) r in
        mret (set_b_Requester (Some r) e)
    end
  else mret e.

Definition SupportsRESTTickerBatchUpdates (e : Base) : bool :=
  pf_TickerBatching (fs_RESTCapabilities (f_Supports (b_Features e))).

Definition SupportsAutoPairUpdates (e : Base) : bool :=
  if pf_AutoPairUpdates (fs_RESTCapabilities (f_Supports (b_Features e)))
     || pf_AutoPairUpdates (fs_WebsocketCapabilities (f_Supports (b_Features e)))
  then true else false.

Definition SetAssetTypes (e : Base) : outcome Base :=
  c ← deref (b_Config e);
  cp ← deref (ec_CurrencyPairs c);
  let joined := AssetTypes_JoinToString (cp_AssetTypes (b_CurrencyPairs e)) comma in
  if cps_AssetTypes cp =? "" then
    mret (set_b_Config (Some (set_ec_CurrencyPairs
                                (Some (set_cps_AssetTypes joined cp)) c)) e)
  else if negb (cps_AssetTypes cp =? joined) then
    let cp := set_cps_AssetTypes joined cp in
    let cp := if IsAssetTypeSupported e AssetTypeFutures
              then set_cps_Futures (Some zero_CurrencyPairConfig) cp else cp in
    mret (set_b_Config (Some (set_ec_CurrencyPairs (Some cp) c)) e)
  else mret e.

Definition copy_format (f : CurrencyPairFormatConfig) : CurrencyPairFormatConfig :=
  {| Delimiter := Delimiter f; Uppercase := Uppercase f;
     Separator := Separator f; Index := Index f |}.

Definition SetCurrencyPairFormat (e : Base) : outcome Base :=
  c ← deref (b_Config e);
  let cp := match ec_CurrencyPairs c with
            | None => zero_CurrencyPairsConfig
            | Some cp => cp
            end in
  let spot := ts_Spot (fs_Trading (f_Supports (b_Features e))) in
  let cp := if spot then
              match cps_Spot cp with
              | None => set_cps_Spot (Some zero_CurrencyPairConfig) cp
              | Some _ => cp
              end
            else cp in
  let own := b_CurrencyPairs e in
  cp ←
    if cp_UseGlobalPairFormat own then
      let cp := match cps_RequestFormat cp with
                | None => set_cps_RequestFormat
                            (Some (copy_format (cp_RequestFormat own))) cp
                | Some _ => cp
                end in
      let cp := match cps_ConfigFormat cp with
                | None => set_cps_ConfigFormat
                            (Some (copy_format (cp_ConfigFormat own))) cp
                | Some _ => cp
                end in
      mret cp
    else if spot then
      sp ← deref (cps_Spot cp);
      let sp := match cpc_ConfigFormat sp with
                | None => set_cpc_ConfigFormat
                            (Some (copy_format (ap_ConfigFormat (cp_Spot own)))) sp
                | Some _ => sp
                end in
      let sp := match cpc_RequestFormat sp with
                | None => set_cpc_RequestFormat
                            (Some (copy_format (ap_RequestFormat (cp_Spot own)))) sp
                | Some _ => sp
                end in
      mret (set_cps_Spot (Some sp) cp)
    else mret cp;
  mret (set_b_Config (Some (set_ec_CurrencyPairs (Some cp) c)) e).

Definition GetAuthenticatedAPISupport (e : Base) : bool :=
  api_AuthenticatedSupport (b_API e).

Definition GetName (e : Base) : string := b_Name e.

Definition GetPairFormat (e : Base) (assetType : AssetType) (requestFormat : bool)
  : CurrencyPairFormatConfig :=
  if cp_UseGlobalPairFormat (b_CurrencyPairs e) then
    if requestFormat then cp_RequestFormat (b_CurrencyPairs e)
    else cp_ConfigFormat (b_CurrencyPairs e)
  else if assetType =? AssetTypeSpot then
    if requestFormat then ap_RequestFormat (cp_Spot (b_CurrencyPairs e))
    else ap_ConfigFormat (cp_Spot (b_CurrencyPairs e))
  else
    if requestFormat then ap_RequestFormat (cp_Futures (b_CurrencyPairs e))
    else ap_ConfigFormat (cp_Futures (b_CurrencyPairs e)).

Definition GetEnabledPairs (e : Base) (assetType : AssetType) : list CurrencyPair :=
  let format := GetPairFormat e assetType false in
  if assetType =? AssetTypeSpot then
    FormatPairs (ap_Enabled (cp_Spot (b_CurrencyPairs e)))
      (Delimiter format) (Index format)
  else
    FormatPairs (ap_Enabled (cp_Futures (b_CurrencyPairs e)))
      (Delimiter format) (Index format).

Definition GetAvailablePairs (e : Base) (assetType : AssetType) : list CurrencyPair :=
  let format := GetPairFormat e assetType false in
  if assetType =? AssetTypeSpot then
    FormatPairs (ap_Available (cp_Spot (b_CurrencyPairs e)))
      (Delimiter format) (Index format)
  else
    FormatPairs (ap_Available (cp_Futures (b_CurrencyPairs e)))
      (Delimiter format) (Index format).

Definition FormatExchangeCurrency (e : Base) (p : CurrencyPair) (assetType : AssetType)
  : string :=
  let pairFmt := GetPairFormat e assetType true in
  Display p (Delimiter pairFmt) (Uppercase pairFmt).

Definition SetEnabled (enabled : bool) (e : Base) : Base := set_b_Enabled enabled e.

Definition IsEnabled (e : Base) : bool := b_Enabled e.

Definition SetAPIKeys (APIKey APISecret ClientID : string) (e : Base) : Base :=
  let e := set_b_API (set_api_Credentials
                        (set_Key APIKey (api_Credentials (b_API e))) (b_API e)) e in
  let e := set_b_API (set_api_Credentials
                        (set_ClientID ClientID (api_Credentials (b_API e))) (b_API e)) e in
  if RequiresBase64DecodeSecret (api_CredentialsValidator (b_API e)) then
    let '(result, err) := Base64Decode APISecret in
    let e := match err with
             | Some _ => set_b_API (set_api_AuthenticatedSupport false (b_API e)) e
             | None => e
             end in
    set_b_API (set_api_Credentials
                 (set_Secret result (api_Credentials (b_API e))) (b_API e)) e
  else
    set_b_API (set_api_Credentials
                 (set_Secret APISecret (api_Credentials (b_API e))) (b_API e)) e.

Definition SetAPIURL (e : Base) : outcome (error * Base) :=
  c ← deref (b_Config e);
  let ends := ac_Endpoints (ec_API c) in
  if (aec_URL ends =? "") || (aec_URLSecondary ends =? "") then
    mret (Some ("exchange " ++ b_Name e ++ ": SetAPIURL error. URL vals are empty"), e)
  else
    let e := if negb (aec_URL ends =? APIURLNonDefaultMessage) then
               set_b_API (set_api_Endpoints
                            (set_ep_URL (aec_URL ends) (api_Endpoints (b_API e)))
                            (b_API e)) e
             else e in
    let e := if negb (aec_URLSecondary ends =? APIURLNonDefaultMessage) then
               set_b_API (set_api_Endpoints
                            (set_ep_URLSecondary (aec_URLSecondary ends)
                               (api_Endpoints (b_API e)))
                            (b_API e)) e
             else e in
    mret (None, e).

Definition GetAPIURL (e : Base) : string := ep_URL (api_Endpoints (b_API e)).

Definition GetSecondaryAPIURL (e : Base) : string :=
  ep_URLSecondary (api_Endpoints (b_API e)).

(** [exch] is the object behind the pointer argument; it becomes [e.Config],
    and every later read of [exch] goes to that shared object.  [now] is the
    reading of [time.Now().Unix()]. *)
Definition SetupDefaults (now : Z) (e : Base) (exch : ExchangeConfig)
  : outcome (error * Base) :=
  let e := set_b_Enabled true e in
  let e := set_b_LoadedByConfig true e in
  let e := set_b_Config (Some exch) e in
  let e := set_b_Verbose (ec_Verbose exch) e in
  let e := set_b_API (set_api_AuthenticatedSupport
                        (ac_AuthenticatedSupport (ec_API exch)) (b_API e)) e in
  let e := if api_AuthenticatedSupport (b_API e) then
             SetAPIKeys (Key (ac_Credentials (ec_API exch)))
               (Secret (ac_Credentials (ec_API exch)))
               (ClientID (api_Credentials (b_API e))) e
           else e in
  e ← (if (ec_HTTPTimeout exch <=? 0)%Z then
         mret (set_b_Config (Some (set_ec_HTTPTimeout DefaultHTTPTimeout exch)) e)
       else SetHTTPClientTimeout (ec_HTTPTimeout exch) e);
  exch ← deref (b_Config e);
  e ← SetHTTPClientUserAgent (ec_HTTPUserAgent exch) e;
  e ← SetHTTPRateLimiter e;
  e ← SetCurrencyPairFormat e;
  e ← SetAssetTypes e;
  e ← SetFeatureDefaults now e;
  '(_, e) ← SetAPIURL e;
  e ← SetAPICredentialDefaults e;
  exch ← deref (b_Config e);
  '(_, e) ← SetClientProxyAddress (ec_ProxyAddress exch) e;
  e ← SetHTTPRateLimiter e;
  exch ← deref (b_Config e);
  let e := set_b_BaseCurrencies (SplitStrings (ec_BaseCurrencies exch) comma) e in
  e ← (if ts_Spot (fs_Trading (f_Supports (b_Features e))) then
         cp ← deref (ec_CurrencyPairs exch);
         sp ← deref (cps_Spot cp);
         let e := set_b_CurrencyPairs
                    (set_cp_Spot
                       (set_ap_Available (SplitStrings (cpc_Available sp) comma)
                          (cp_Spot (b_CurrencyPairs e))) (b_CurrencyPairs e)) e in
         mret (set_b_CurrencyPairs
                 (set_cp_Spot
                    (set_ap_Enabled (SplitStrings (cpc_Enabled sp) comma)
                       (cp_Spot (b_CurrencyPairs e))) (b_CurrencyPairs e)) e)
       else mret e);
  e ← (if ts_Futures (fs_Trading (f_Supports (b_Features e))) then
         cp ← deref (ec_CurrencyPairs exch);
         fu ← deref (cps_Futures cp);
         let e := set_b_CurrencyPairs
                    (set_cp_Futures
                       (set_ap_Available (SplitStrings (cpc_Available fu) comma)
                          (cp_Futures (b_CurrencyPairs e))) (b_CurrencyPairs e)) e in
         mret (set_b_CurrencyPairs
                 (set_cp_Futures
                    (set_ap_Enabled (SplitStrings (cpc_Enabled fu) comma)
                       (cp_Futures (b_CurrencyPairs e))) (b_CurrencyPairs e)) e)
       else mret e);
  e ← (if fs_Websocket (f_Supports (b_Features e)) then
         f ← deref (ec_Features exch);
         w ← deref (b_Websocket e);
         mret (set_b_Websocket
                 (Some (Websocket_SetEnabled (fec_Websocket (fc_Enabled f)) w)) e)
       else mret e);
  mret (None, e).

Definition ValidateAPICredentials (e : Base) : bool :=
  let v := api_CredentialsValidator (b_API e) in
  let cr := api_Credentials (b_API e) in
  if RequiresKey v && ((Key cr =? "") || (Key cr =? DefaultAPIKey)) then false
  else if RequiresSecret v && ((Secret cr =? "") || (Secret cr =? DefaultAPISecret))
  then false
  else if RequiresPEM v && ((PEMKey cr =? "") || StringContains (PEMKey cr) "JUSTADUMMY")
  then false
  else if RequiresClientID v
          && ((ClientID cr =? "") || (ClientID cr =? DefaultAPIClientID))
  then false
  else if RequiresBase64DecodeSecret v
          && (match snd (Base64Decode (Secret cr)) with Some _ => true | None => false end)
  then false
  else true.

Definition AllowAuthenticatedRequest (e : Base) : bool :=
  if (negb (api_AuthenticatedSupport (b_API e)) && b_LoadedByConfig e)
     || (negb (b_LoadedByConfig e) && negb (ValidateAPICredentials e))
  then false
  else true.

(** The pair list selected by the first [switch] of [UpdatePairs]. *)
Definition targetPairs (e : Base) (assetType : AssetType) (enabled : bool)
  : list string :=
  if assetType =? AssetTypeSpot then
    if enabled then ap_Enabled (cp_Spot (b_CurrencyPairs e))
    else ap_Available (cp_Spot (b_CurrencyPairs e))
  else if assetType =? AssetTypeFutures then
    if enabled then ap_Enabled (cp_Futures (b_CurrencyPairs e))
    else ap_Available (cp_Futures (b_CurrencyPairs e))
  else [].

(** The normalisation at the head of [UpdatePairs]: join on commas, upper-case,
    split on commas, drop the empty entries. *)
Definition normalizeProducts (exchangeProducts : list string) : list string :=
  let exchangeProducts :=
    SplitStrings (StringToUpper (JoinStrings exchangeProducts comma)) comma in
  List.filter (fun x => negb (x =? "")) exchangeProducts.

(** The second [switch] of [UpdatePairs]: store [products] in the config
    (comma-joined) and in the base. *)
Definition storePairs (e : Base) (assetType : AssetType) (enabled : bool)
    (products : list string) : outcome Base :=
  if assetType =? AssetTypeSpot then
    c ← deref (b_Config e);
    cp ← deref (ec_CurrencyPairs c);
    sp ← deref (cps_Spot cp);
    if enabled then
      let sp := set_cpc_Enabled (JoinStrings products comma) sp in
      let e := set_b_Config (Some (set_ec_CurrencyPairs
                                     (Some (set_cps_Spot (Some sp) cp)) c)) e in
      mret (set_b_CurrencyPairs
              (set_cp_Spot (set_ap_Enabled products (cp_Spot (b_CurrencyPairs e)))
                 (b_CurrencyPairs e)) e)
    else
      let sp := set_cpc_Available (JoinStrings products comma) sp in
      let e := set_b_Config (Some (set_ec_CurrencyPairs
                                     (Some (set_cps_Spot (Some sp) cp)) c)) e in
      mret (set_b_CurrencyPairs
              (set_cp_Spot (set_ap_Available products (cp_Spot (b_CurrencyPairs e)))
                 (b_CurrencyPairs e)) e)
  else if assetType =? AssetTypeFutures then
    c ← deref (b_Config e);
    cp ← deref (ec_CurrencyPairs c);
    fu ← deref (cps_Futures cp);
    if enabled then
      let fu := set_cpc_Enabled (JoinStrings products comma) fu in
      let e := set_b_Config (Some (set_ec_CurrencyPairs
                                     (Some (set_cps_Futures (Some fu) cp)) c)) e in
      mret (set_b_CurrencyPairs
              (set_cp_Futures (set_ap_Enabled products (cp_Futures (b_CurrencyPairs e)))
                 (b_CurrencyPairs e)) e)
    else
      let fu := set_cpc_Available (JoinStrings products comma) fu in
      let e := set_b_Config (Some (set_ec_CurrencyPairs
                                     (Some (set_cps_Futures (Some fu) cp)) c)) e in
      mret (set_b_CurrencyPairs
              (set_cp_Futures (set_ap_Available products (cp_Futures (b_CurrencyPairs e)))
                 (b_CurrencyPairs e)) e)
  else mret e.

Definition UpdatePairs (e : Base) (exchangeProducts : list string)
    (assetType : AssetType) (enabled force : bool) : outcome (error * Base) :=
  if (length exchangeProducts =? 0)%nat then
    mret (Some (b_Name e ++ " UpdatePairs error - exchangeProducts is empty"), e)
  else
    let products := normalizeProducts exchangeProducts in
    let targetPairs := targetPairs e assetType enabled in
    let '(newPairs, removedPairs) :=
      if enabled then FindPairDifferences targetPairs products
      else FindPairDifferences targetPairs products in
    if force || (0 <? length newPairs)%nat || (0 <? length removedPairs)%nat then
      e ← storePairs e assetType enabled products;
      mret (None, e)
    else mret (None, e).

End ExchangeBase.

(** ** The market-data cache (packages ticker and orderbook) *)

(** Modelled from the spec: packages [ticker] and [orderbook] are not among
    the sources.  Section 3 and 4.5: a process-wide store keyed by (venue
    name, canonical pair, asset class); the read returns the snapshot or a
    cache miss and never calls the network; the process step creates or
    overwrites the entry of its key.  A [float64] is only copied by the
    wrappers and is carried as its IEEE-754 bit pattern (zero value 0). *)

Definition float64 : Type := Z.

Definition cache_key : Type := string * (string * string) * AssetType.

Definition key_of (exchangeName : string) (p : CurrencyPair) (a : AssetType) : cache_key :=
  (exchangeName, (p_FirstCurrency p, p_SecondCurrency p), a).

Definition zero_CurrencyPair : CurrencyPair :=
  {| p_Delimiter := ""; p_FirstCurrency := ""; p_SecondCurrency := "" |}.

Module ticker.

Record Price := {
  Pair : CurrencyPair;
  Last : float64;
  High : float64;
  Low : float64;
  Bid : float64;
  Ask : float64;
  Volume : float64 }.

Definition zero_Price : Price :=
  {| Pair := zero_CurrencyPair; Last := 0%Z; High := 0%Z; Low := 0%Z;
     Bid := 0%Z; Ask := 0%Z; Volume := 0%Z |}.

Definition ErrTickerNotFound : string := "ticker: no snapshot for the requested key".

Definition GetTicker (store : gmap cache_key Price) (exchangeName : string)
    (p : CurrencyPair) (tickerType : AssetType) : Price * error :=
  match store !! key_of exchangeName p tickerType with
  | Some t => (t, None)
  | None => (zero_Price, Some ErrTickerNotFound)
  end.

Definition ProcessTicker (store : gmap cache_key Price) (exchangeName : string)
    (p : CurrencyPair) (tickerNew : Price) (tickerType : AssetType)
  : gmap cache_key Price :=
  <[key_of exchangeName p tickerType := tickerNew]> store.

End ticker.

Module orderbook.

Record Item := {
  Amount : float64;
  Price : float64 }.

Record Base := {
  Bids : list Item;
  Asks : list Item }.

Definition zero_Base : Base := {| Bids := []; Asks := [] |}.

Definition ErrOrderbookNotFound : string := "orderbook: no snapshot for the requested key".

Definition GetOrderbook (store : gmap cache_key Base) (exchangeName : string)
    (p : CurrencyPair) (orderbookType : AssetType) : Base * error :=
  match store !! key_of exchangeName p orderbookType with
  | Some o => (o, None)
  | None => (zero_Base, Some ErrOrderbookNotFound)
  end.

Definition ProcessOrderbook (store : gmap cache_key Base) (exchangeName : string)
    (p : CurrencyPair) (orderbookNew : Base) (orderbookType : AssetType)
  : gmap cache_key Base :=
  <[key_of exchangeName p orderbookType := orderbookNew]> store.

End orderbook.

(** ** The world a wrapper runs in

    The two caches are process-wide; the venue is reached through the
    transport.  [w_Log] records every venue call in order, and the answer of
    the venue to a call may depend on all the calls made before it. *)

Inductive Call : Type :=
| CallGetAllTickers
| CallGetOrderBook (currency : string)
| CallGetOrders (orderID transactionType count after currency : string)
| CallCancelTrade (transactionType orderID currency : string)
| CallGetMarketDetailMerged (symbol : string)
| CallGetDepth (symbol type : string)
| CallCancelOpenOrdersBatch (accountID symbol : string).

Record World := {
  w_Tickers : gmap cache_key ticker.Price;
  w_Orderbooks : gmap cache_key orderbook.Base;
  w_Log : list Call }.

Definition set_w_Tickers (v : gmap cache_key ticker.Price) (w : World) : World :=
  {| w_Tickers := v; w_Orderbooks := w_Orderbooks w; w_Log := w_Log w |}.
Definition set_w_Orderbooks (v : gmap cache_key orderbook.Base) (w : World) : World :=
  {| w_Tickers := w_Tickers w; w_Orderbooks := v; w_Log := w_Log w |}.

(** A venue call: the call is recorded after the calls made so far. *)
Definition called (c : Call) (w : World) : World :=
  {| w_Tickers := w_Tickers w; w_Orderbooks := w_Orderbooks w;
     w_Log := (w_Log w ++ [c])%list |}.

(** Package exchange: order cancellation request and response. *)
Record OrderCancellation := {
  oc_OrderID : string;
  oc_AccountID : string;
  oc_Side : string;
  oc_CurrencyPair : CurrencyPair }.

Record CancelAllOrdersResponse := {
  OrderStatus : gmap string string }.

(** ** The Bithumb wrapper *)

Module Bithumb.

(** The parts of the venue's wire types that the wrapper reads. *)
Record Ticker := {
  SellPrice : float64;
  BuyPrice : float64;
  MinPrice : float64;
  ClosingPrice : float64;
  Volume1Day : float64;
  MaxPrice : float64 }.

Definition zero_Ticker : Ticker :=
  {| SellPrice := 0%Z; BuyPrice := 0%Z; MinPrice := 0%Z; ClosingPrice := 0%Z;
     Volume1Day := 0%Z; MaxPrice := 0%Z |}.

Record Level := {
  Quantity : float64;
  Price : float64 }.

Record Orderbook := {
  Data_Bids : list Level;
  Data_Asks : list Level }.

Record OrderData := {
  OrderID : string }.

Record Orders := {
  Data : list OrderData }.

Section Defaults.

(** Constants declared outside the sources. *)
Variable AutoWithdrawCrypto AutoWithdrawFiat : Z.
Variable bithumbAuthRate bithumbUnauthRate : Z.
Variable apiURL : string.

Definition SetDefaults (b : Base) : Base :=
  {| b_Name := "Bithumb";
     b_Enabled := true;
     b_Verbose := true;
     b_LoadedByConfig := b_LoadedByConfig b;
     b_APIWithdrawPermissions := Z.lor AutoWithdrawCrypto AutoWithdrawFiat;
     b_API :=
       {| api_AuthenticatedSupport := api_AuthenticatedSupport (b_API b);
          api_PEMKeySupport := api_PEMKeySupport (b_API b);
          api_Endpoints :=
            {| ep_URL := apiURL; ep_URLDefault := apiURL;
               ep_URLSecondary := ep_URLSecondary (api_Endpoints (b_API b));
               ep_URLSecondaryDefault :=
                 ep_URLSecondaryDefault (api_Endpoints (b_API b)) |};
          api_Credentials := api_Credentials (b_API b);
          api_CredentialsValidator :=
            set_RequiresSecret true
              (set_RequiresKey true (api_CredentialsValidator (b_API b))) |};
     b_BaseCurrencies := b_BaseCurrencies b;
     b_CurrencyPairs :=
       {| cp_UseGlobalPairFormat := true;
          cp_RequestFormat :=
            {| Uppercase := true; Delimiter := ""; Separator := ""; Index := "" |};
          cp_ConfigFormat :=
            {| Uppercase := true; Delimiter := ""; Separator := ""; Index := "KRW" |};
          cp_LastUpdated := 0;
          cp_AssetTypes := [AssetTypeSpot];
          cp_Spot := zero_AssetPairs;
          cp_Futures := zero_AssetPairs |};
     b_Features :=
       {| f_Supports :=
            {| fs_REST := true;
               fs_RESTCapabilities :=
                 {| pf_AutoPairUpdates := true; pf_TickerBatching := true |};
               fs_Websocket := false;
               fs_WebsocketCapabilities := zero_ProtocolFeatures;
               fs_Trading :=
                 {| ts_Spot := true; ts_Futures := false; ts_Margin := false;
                    ts_PerpetualSwaps := false; ts_Index := false |} |};
          f_Enabled := {| fe_AutoPairUpdates := true |} |};
     b_HTTPUserAgent := b_HTTPUserAgent b;
     b_Requester :=
       Some (request_New "Bithumb"
               (NewRateLimit 1000000000 bithumbAuthRate)
               (NewRateLimit 1000000000 bithumbUnauthRate)
               (NewHTTPClientWithTimeout DefaultHTTPTimeout));
     b_Websocket := b_Websocket b;
     b_Config := b_Config b |}.

End Defaults.

Section Wrapper.

Variable FormatPairs : list string -> string -> string -> list CurrencyPair.

(** The venue's REST calls; the argument of type [list Call] is the history
    of calls made so far. *)
Variable GetAllTickers : list Call -> gmap string Ticker * error.
Variable GetOrderBook : list Call -> string -> Orderbook * error.
Variable GetOrders :
  list Call -> string -> string -> string -> string -> string -> Orders * error.
Variable CancelTrade : list Call -> string -> string -> string -> error.

Definition tickerOf (tickers : gmap string Ticker) (x : CurrencyPair) : ticker.Price :=
  let currency := p_FirstCurrency x in
  let t := default zero_Ticker (tickers !! currency) in
  {| ticker.Pair := x;
     ticker.Ask := SellPrice t;
     ticker.Bid := BuyPrice t;
     ticker.Low := MinPrice t;
     ticker.Last := ClosingPrice t;
     ticker.Volume := Volume1Day t;
     ticker.High := MaxPrice t |}.

Definition UpdateTicker (b : Base) (w : World) (p : CurrencyPair) (assetType : AssetType)
  : (ticker.Price * error) * World :=
  let tickerPrice := ticker.zero_Price in
  let '(tickers, err) := GetAllTickers (w_Log w) in
  let w := called CallGetAllTickers w in
  match err with
  | Some _ => ((tickerPrice, err), w)
  | None =>
      let w :=
        fold_left
          (fun w x =>
             set_w_Tickers
               (ticker.ProcessTicker (w_Tickers w) (b_Name b) x (tickerOf tickers x)
                  assetType) w)
          (GetEnabledPairs FormatPairs b assetType) w in
      (ticker.GetTicker (w_Tickers w) (b_Name b) p assetType, w)
  end.

Definition FetchTicker (b : Base) (w : World) (p : CurrencyPair) (assetType : AssetType)
  : (ticker.Price * error) * World :=
  let '(tickerNew, err) := ticker.GetTicker (w_Tickers w) (GetName b) p assetType in
  match err with
  | Some _ => UpdateTicker b w p assetType
  | None => ((tickerNew, None), w)
  end.

Definition UpdateOrderbook (b : Base) (w : World) (p : CurrencyPair)
    (assetType : AssetType) : (orderbook.Base * error) * World :=
  let orderBook := orderbook.zero_Base in
  let currency := p_FirstCurrency p in
  let '(orderbookNew, err) := GetOrderBook (w_Log w) currency in
  let w := called (CallGetOrderBook currency) w in
  match err with
  | Some _ => ((orderBook, err), w)
  | None =>
      let bids :=
        fold_left
          (fun acc bids =>
             (acc ++ [{| orderbook.Amount := Quantity bids;
                         orderbook.Price := Price bids |}])%list)
          (Data_Bids orderbookNew) (orderbook.Bids orderBook) in
      let asks :=
        fold_left
          (fun acc asks =>
             (acc ++ [{| orderbook.Amount := Quantity asks;
                         orderbook.Price := Price asks |}])%list)
          (Data_Asks orderbookNew) (orderbook.Asks orderBook) in
      let orderBook := {| orderbook.Bids := bids; orderbook.Asks := asks |} in
      let w := set_w_Orderbooks
                 (orderbook.ProcessOrderbook (w_Orderbooks w) (GetName b) p orderBook
                    assetType) w in
      (orderbook.GetOrderbook (w_Orderbooks w) (b_Name b) p assetType, w)
  end.

Definition FetchOrderbook (b : Base) (w : World) (currency : CurrencyPair)
    (assetType : AssetType) : (orderbook.Base * error) * World :=
  let '(ob, err) := orderbook.GetOrderbook (w_Orderbooks w) (GetName b) currency assetType in
  match err with
  | Some _ => UpdateOrderbook b w currency assetType
  | None => ((ob, None), w)
  end.

(** First loop of [CancelAllOrders]: the open orders of every enabled pair,
    or the first fetch error. *)
Fixpoint collectOrders (side : string) (pairs : list CurrencyPair)
    (allOrders : list OrderData) (w : World) : (list OrderData + string) * World :=
  match pairs with
  | [] => (inl allOrders, w)
  | currency :: rest =>
      let '(orders, err) :=
        GetOrders (w_Log w) "" side "100" "" (p_FirstCurrency currency) in
      let w := called (CallGetOrders "" side "100" "" (p_FirstCurrency currency)) w in
      match err with
      | Some msg => (inr msg, w)
      | None => collectOrders side rest (allOrders ++ Data orders)%list w
      end
  end.

(** Second loop of [CancelAllOrders]: one cancellation per collected order;
    a failure is recorded under the order's ID and the loop goes on. *)
Fixpoint cancelEach (side currency : string) (orders : list OrderData)
    (status : gmap string string) (w : World) : gmap string string * World :=
  match orders with
  | [] => (status, w)
  | order :: rest =>
      let err := CancelTrade (w_Log w) side (OrderID order) currency in
      let w := called (CallCancelTrade side (OrderID order) currency) w in
      let status := match err with
                    | Some msg => <[OrderID order := msg]> status
                    | None => status
                    end in
      cancelEach side currency rest status w
  end.

Definition CancelAllOrders (b : Base) (w : World) (orderCancellation : OrderCancellation)
  : (CancelAllOrdersResponse * error) * World :=
  let cancelAllOrdersResponse := {| OrderStatus := ∅ |} in
  match collectOrders (oc_Side orderCancellation)
          (GetEnabledPairs FormatPairs b AssetTypeSpot) [] w with
  | (inr msg, w) => ((cancelAllOrdersResponse, Some msg), w)
  | (inl allOrders, w) =>
      let '(status, w) :=
        cancelEach (oc_Side orderCancellation)
          (p_FirstCurrency (oc_CurrencyPair orderCancellation))
          allOrders (OrderStatus cancelAllOrdersResponse) w in
      (({| OrderStatus := status |}, None), w)
  end.

End Wrapper.

End Bithumb.

(** ** The Huobi wrapper *)

Module Huobi.

Record DetailMerged := {
  Low : float64;
  Close : float64;
  Volume : float64;
  High : float64;
  Ask : list float64;
  Bid : list float64 }.

Record Orderbook := {
  Bids : list (list float64);
  Asks : list (list float64) }.

Record CancelOpenOrdersBatchResponse := {
  Data_FailedCount : Z }.

Section Defaults.

(** Constants and the websocket constructor declared outside the sources. *)
Variable AutoWithdrawCryptoWithSetup : Z.
Variable huobiAuthRate huobiUnauthRate : Z.
Variable huobiAPIURL : string.
Variable WebsocketInit : Base -> Base.

Definition SetDefaults (h : Base) : Base :=
  WebsocketInit
  {| b_Name := "Huobi";
     b_Enabled := true;
     b_Verbose := true;
     b_LoadedByConfig := b_LoadedByConfig h;
     b_APIWithdrawPermissions := AutoWithdrawCryptoWithSetup;
     b_API :=
       {| api_AuthenticatedSupport := api_AuthenticatedSupport (b_API h);
          api_PEMKeySupport := api_PEMKeySupport (b_API h);
          api_Endpoints :=
            {| ep_URL := huobiAPIURL; ep_URLDefault := huobiAPIURL;
               ep_URLSecondary := ep_URLSecondary (api_Endpoints (b_API h));
               ep_URLSecondaryDefault :=
                 ep_URLSecondaryDefault (api_Endpoints (b_API h)) |};
          api_Credentials := api_Credentials (b_API h);
          api_CredentialsValidator :=
            set_RequiresSecret true
              (set_RequiresKey true (api_CredentialsValidator (b_API h))) |};
     b_BaseCurrencies := b_BaseCurrencies h;
     b_CurrencyPairs :=
       {| cp_UseGlobalPairFormat := true;
          cp_RequestFormat := zero_CurrencyPairFormatConfig;
          cp_ConfigFormat :=
            {| Uppercase := true; Delimiter := "-"; Separator := ""; Index := "" |};
          cp_LastUpdated := 0;
          cp_AssetTypes := [AssetTypeSpot];
          cp_Spot := zero_AssetPairs;
          cp_Futures := zero_AssetPairs |};
     b_Features :=
       {| f_Supports :=
            {| fs_REST := true;
               fs_RESTCapabilities :=
                 {| pf_AutoPairUpdates := true; pf_TickerBatching := false |};
               fs_Websocket := true;
               fs_WebsocketCapabilities := zero_ProtocolFeatures;
               fs_Trading :=
                 {| ts_Spot := true; ts_Futures := false; ts_Margin := false;
                    ts_PerpetualSwaps := false; ts_Index := false |} |};
          f_Enabled := {| fe_AutoPairUpdates := true |} |};
     b_HTTPUserAgent := b_HTTPUserAgent h;
     b_Requester :=
       Some (request_New "Huobi"
               (NewRateLimit (10 * 1000000000) huobiAuthRate)
               (NewRateLimit (10 * 1000000000) huobiUnauthRate)
               (NewHTTPClientWithTimeout DefaultHTTPTimeout));
     b_Websocket := b_Websocket h;
     b_Config := b_Config h |}.

End Defaults.

Section Wrapper.

Variable FormatPairs : list string -> string -> string -> list CurrencyPair.
Variable Display : CurrencyPair -> string -> bool -> string.
Variable OrderBookDataRequestParamsTypeStep1 : string.

Variable GetMarketDetailMerged : list Call -> string -> DetailMerged * error.
Variable GetDepth : list Call -> string -> string -> Orderbook * error.
Variable CancelOpenOrdersBatch :
  list Call -> string -> string -> CancelOpenOrdersBatchResponse * error.

Definition UpdateTicker (h : Base) (w : World) (p : CurrencyPair) (assetType : AssetType)
  : (ticker.Price * error) * World :=
  let tickerPrice := ticker.zero_Price in
  let symbol := FormatExchangeCurrency Display h p assetType in
  let '(tick, err) := GetMarketDetailMerged (w_Log w) symbol in
  let w := called (CallGetMarketDetailMerged symbol) w in
  match err with
  | Some _ => ((tickerPrice, err), w)
  | None =>
      let tickerPrice :=
        {| ticker.Pair := p;
           ticker.Low := Low tick;
           ticker.Last := Close tick;
           ticker.Volume := Volume tick;
           ticker.High := High tick;
           ticker.Ask := match Ask tick with a :: _ => a | [] => ticker.Ask tickerPrice end;
           ticker.Bid := match Bid tick with b :: _ => b | [] => ticker.Bid tickerPrice end
        |} in
      let w := set_w_Tickers
                 (ticker.ProcessTicker (w_Tickers w) (GetName h) p tickerPrice assetType)
                 w in
      (ticker.GetTicker (w_Tickers w) (b_Name h) p assetType, w)
  end.

Definition FetchTicker (h : Base) (w : World) (p : CurrencyPair) (assetType : AssetType)
  : (ticker.Price * error) * World :=
  let '(tickerNew, err) := ticker.GetTicker (w_Tickers w) (GetName h) p assetType in
  match err with
  | Some _ => UpdateTicker h w p assetType
  | None => ((tickerNew, None), w)
  end.

(** One loop of [UpdateOrderbook]; [data[1]] and [data[0]] panic on a level
    with fewer than two numbers. *)
Fixpoint appendLevels (levels : list (list float64)) (acc : list orderbook.Item)
  : outcome (list orderbook.Item) :=
  match levels with
  | [] => mret acc
  | data :: rest =>
      amount ← deref (data !! 1%nat);
      price ← deref (data !! 0%nat);
      appendLevels rest
        (acc ++ [{| orderbook.Amount := amount; orderbook.Price := price |}])%list
  end.

Definition UpdateOrderbook (h : Base) (w : World) (p : CurrencyPair)
    (assetType : AssetType) : outcome ((orderbook.Base * error) * World) :=
  let orderBook := orderbook.zero_Base in
  let symbol := FormatExchangeCurrency Display h p assetType in
  let '(orderbookNew, err) :=
    GetDepth (w_Log w) symbol OrderBookDataRequestParamsTypeStep1 in
  let w := called (CallGetDepth symbol OrderBookDataRequestParamsTypeStep1) w in
  match err with
  | Some _ => mret ((orderBook, err), w)
  | None =>
      bids ← appendLevels (Bids orderbookNew) (orderbook.Bids orderBook);
      asks ← appendLevels (Asks orderbookNew) (orderbook.Asks orderBook);
      let orderBook := {| orderbook.Bids := bids; orderbook.Asks := asks |} in
      let w := set_w_Orderbooks
                 (orderbook.ProcessOrderbook (w_Orderbooks w) (GetName h) p orderBook
                    assetType) w in
      mret (orderbook.GetOrderbook (w_Orderbooks w) (b_Name h) p assetType, w)
  end.

Definition FetchOrderbook (h : Base) (w : World) (p : CurrencyPair) (assetType : AssetType)
  : outcome ((orderbook.Base * error) * World) :=
  let '(ob, err) := orderbook.GetOrderbook (w_Orderbooks w) (GetName h) p assetType in
  match err with
  | Some _ => UpdateOrderbook h w p assetType
  | None => mret ((ob, None), w)
  end.

(** The loop of [CancelAllOrders]: one batch cancellation per enabled pair;
    the first transport error or non-zero failed count ends the call. *)
Fixpoint cancelBatches (h : Base) (accountID : string) (pairs : list CurrencyPair)
    (w : World) : error * World :=
  match pairs with
  | [] => (None, w)
  | currency :: rest =>
      let symbol := FormatExchangeCurrency Display h currency AssetTypeSpot in
      let '(resp, err) := CancelOpenOrdersBatch (w_Log w) accountID symbol in
      let w := called (CallCancelOpenOrdersBatch accountID symbol) w in
      match err with
      | Some _ => (err, w)
      | None =>
          if (0 <? Data_FailedCount resp)%Z then
            (Some (pretty (Data_FailedCount resp) ++ " orders failed to cancel"), w)
          else cancelBatches h accountID rest w
      end
  end.

Definition CancelAllOrders (h : Base) (w : World) (orderCancellation : OrderCancellation)
  : (CancelAllOrdersResponse * error) * World :=
  let cancelAllOrdersResponse := {| OrderStatus := ∅ |} in
  let '(err, w) :=
    cancelBatches h (oc_AccountID orderCancellation)
      (GetEnabledPairs FormatPairs h AssetTypeSpot) w in
  ((cancelAllOrdersResponse, err), w).

End Wrapper.

End Huobi.

(** ** Vocabulary of the statements *)

(** The persisted copy of a pair list: the config record of an asset class
    and the comma-joined list of a role in it. *)
Definition configSlot (e : Base) (assetType : AssetType) : option CurrencyPairConfig :=
  c ← b_Config e;
  cp ← ec_CurrencyPairs c;
  if assetType =? AssetTypeSpot then cps_Spot cp
  else if assetType =? AssetTypeFutures then cps_Futures cp
  else None.

Definition configPairs (e : Base) (assetType : AssetType) (enabled : bool)
  : option string :=
  sl ← configSlot e assetType;
  Some (if enabled then cpc_Enabled sl else cpc_Available sl).

(** No byte of [s] is a comma. *)
Fixpoint comma_free (s : string) : bool :=
  match s with
  | EmptyString => true
  | String c rest => negb (Ascii.eqb c comma) && comma_free rest
  end.

(** The normalisation in the words of the specification: every entry
    upper-cased, empty entries dropped. *)
Definition uppercased_nonempty (fetched : list string) : list string :=
  List.filter (fun x => negb (x =? "")) (map StringToUpper fetched).

(** The pair list of the slot and its persisted copy both hold [products]. *)
Definition replacedWith (e : Base) (assetType : AssetType) (enabled : bool)
    (products : list string) : Prop :=
  targetPairs e assetType enabled = products ∧
  configPairs e assetType enabled = Some (JoinStrings products comma).

(** Both caches of [w'] are those of [w], so every read gives what it gave. *)
Definition cacheUntouched (w w' : World) : Prop :=
  w_Tickers w' = w_Tickers w ∧ w_Orderbooks w' = w_Orderbooks w ∧
  (∀ n p a, ticker.GetTicker (w_Tickers w') n p a = ticker.GetTicker (w_Tickers w) n p a) ∧
  (∀ n p a, orderbook.GetOrderbook (w_Orderbooks w') n p a
            = orderbook.GetOrderbook (w_Orderbooks w) n p a).

(** A price level of Huobi's order book with both its numbers. *)
Definition two_numbers (data : list float64) : Prop := (2 <= List.length data)%nat.

(** The cancellation calls of the second loop of Bithumb's [CancelAllOrders],
    and a failed attempt for an order ID: the venue's answer to the [i]-th
    cancellation, given the calls made before it, is an error. *)
Definition cancelCalls (side currency : string) (orders : list Bithumb.OrderData)
  : list Call :=
  map (fun o => CallCancelTrade side (Bithumb.OrderID o) currency) orders.

Definition attemptFails (CancelTrade : list Call -> string -> string -> string -> error)
    (side currency : string) (orders : list Bithumb.OrderData)
    (before : list Call) (id msg : string) : Prop :=
  ∃ (i : nat) (o : Bithumb.OrderData),
    orders !! i = Some o ∧ Bithumb.OrderID o = id ∧
    CancelTrade (before ++ cancelCalls side currency (take i orders))%list
      side id currency = Some msg.

(** Several venue calls in a row. *)
Definition calledAll (cs : list Call) (w : World) : World :=
  {| w_Tickers := w_Tickers w; w_Orderbooks := w_Orderbooks w;
     w_Log := (w_Log w ++ cs)%list |}.

(** The [GetOrders] calls of Bithumb's [CancelAllOrders], one per pair; the
    venue's answer for the [i]-th pair, given after the calls for the pairs
    before it; and every open order the venue reports, pair after pair. *)
Definition fetchCalls (side : string) (pairs : list CurrencyPair) : list Call :=
  map (fun p => CallGetOrders "" side "100" "" (p_FirstCurrency p)) pairs.

Definition fetchAnswer
    (GetOrders : list Call -> string -> string -> string -> string -> string
                 -> Bithumb.Orders * error)
    (side : string) (pairs : list CurrencyPair) (before : list Call)
    (i : nat) (p : CurrencyPair) : Bithumb.Orders * error :=
  GetOrders (before ++ fetchCalls side (take i pairs))%list
    "" side "100" "" (p_FirstCurrency p).

Definition openOrders
    (GetOrders : list Call -> string -> string -> string -> string -> string
                 -> Bithumb.Orders * error)
    (side : string) (pairs : list CurrencyPair) (before : list Call)
  : list Bithumb.OrderData :=
  concat (imap (fun i p => Bithumb.Data (fst (fetchAnswer GetOrders side pairs before i p)))
            pairs).

(** The batch cancellations of Huobi's [CancelAllOrders], one per pair, and
    the venue's answer for the [i]-th pair. *)
Definition batchCalls (Display : CurrencyPair -> string -> bool -> string) (h : Base)
    (accountID : string) (pairs : list CurrencyPair) : list Call :=
  map (fun p => CallCancelOpenOrdersBatch accountID
                  (FormatExchangeCurrency Display h p AssetTypeSpot)) pairs.

Definition batchAnswer (Display : CurrencyPair -> string -> bool -> string)
    (CancelOpenOrdersBatch :
       list Call -> string -> string -> Huobi.CancelOpenOrdersBatchResponse * error)
    (h : Base) (accountID : string) (pairs : list CurrencyPair) (before : list Call)
    (i : nat) (p : CurrencyPair) : Huobi.CancelOpenOrdersBatchResponse * error :=
  CancelOpenOrdersBatch (before ++ batchCalls Display h accountID (take i pairs))%list
    accountID (FormatExchangeCurrency Display h p AssetTypeSpot).







(** [P] holds of the value a call returned (and the call did not panic). *)
Definition returned {A : Type} (r : outcome A) (P : A → Prop) : Prop :=
  match r with
  | Returns a => P a
  | Panics => False
  end.

(** The written-back configuration after a call on the base. *)
Definition writtenBack (e : Base) : option ExchangeConfig := b_Config e.

(** The support flags of a feature section agree with the adapter's own. *)
Definition supportsMatch (sup : FeaturesSupported) (f : FeaturesConfig) : Prop :=
  fsc_REST (fc_Supports f) = fs_REST sup ∧
  fsc_Websocket (fc_Supports f) = fs_Websocket sup ∧
  tc_Spot (fsc_Trading (fc_Supports f)) = ts_Spot (fs_Trading sup) ∧
  tc_Futures (fsc_Trading (fc_Supports f)) = ts_Futures (fs_Trading sup) ∧
  tc_Margin (fsc_Trading (fc_Supports f)) = ts_Margin (fs_Trading sup) ∧
  tc_PerpetualSwaps (fsc_Trading (fc_Supports f)) = ts_PerpetualSwaps (fs_Trading sup) ∧
  tc_Index (fsc_Trading (fc_Supports f)) = ts_Index (fs_Trading sup) ∧
  pfc_AutoPairUpdates (fsc_RESTCapabilities (fc_Supports f))
    = pf_AutoPairUpdates (fs_RESTCapabilities sup) ∧
  pfc_TickerBatching (fsc_RESTCapabilities (fc_Supports f))
    = pf_TickerBatching (fs_RESTCapabilities sup).

(** *** Blocks of [SetupDefaults]

    The first and the last block of [SetupDefaults], named so that the proofs
    can follow the call step by step ([SetupDefaults_steps] below). *)

Section SetupBlocks.

Variable Base64Decode : string -> string * error.

(** From [e.Enabled = true] to the call of [SetAPIKeys]. *)
Definition setupHead (e : Base) (exch : ExchangeConfig) : Base :=
  let e := set_b_Enabled true e in
  let e := set_b_LoadedByConfig true e in
  let e := set_b_Config (Some exch) e in
  let e := set_b_Verbose (ec_Verbose exch) e in
  let e := set_b_API (set_api_AuthenticatedSupport
                        (ac_AuthenticatedSupport (ec_API exch)) (b_API e)) e in
  if api_AuthenticatedSupport (b_API e) then
    SetAPIKeys Base64Decode (Key (ac_Credentials (ec_API exch)))
      (Secret (ac_Credentials (ec_API exch)))
      (ClientID (api_Credentials (b_API e))) e
  else e.

(** The test on [exch.HTTPTimeout]. *)
Definition setupTimeout (exch : ExchangeConfig) (e : Base) : outcome Base :=
  if (ec_HTTPTimeout exch <=? 0)%Z then
    mret (set_b_Config (Some (set_ec_HTTPTimeout DefaultHTTPTimeout exch)) e)
  else SetHTTPClientTimeout (ec_HTTPTimeout exch) e.

(** From the base currencies to the end. *)
Definition setupTail (e : Base) (exch : ExchangeConfig) : outcome (error * Base) :=
  let e := set_b_BaseCurrencies (SplitStrings (ec_BaseCurrencies exch) comma) e in
  e ← (if ts_Spot (fs_Trading (f_Supports (b_Features e))) then
         cp ← deref (ec_CurrencyPairs exch);
         sp ← deref (cps_Spot cp);
         let e := set_b_CurrencyPairs
                    (set_cp_Spot
                       (set_ap_Available (SplitStrings (cpc_Available sp) comma)
                          (cp_Spot (b_CurrencyPairs e))) (b_CurrencyPairs e)) e in
         mret (set_b_CurrencyPairs
                 (set_cp_Spot
                    (set_ap_Enabled (SplitStrings (cpc_Enabled sp) comma)
                       (cp_Spot (b_CurrencyPairs e))) (b_CurrencyPairs e)) e)
       else mret e);
  e ← (if ts_Futures (fs_Trading (f_Supports (b_Features e))) then
         cp ← deref (ec_CurrencyPairs exch);
         fu ← deref (cps_Futures cp);
         let e := set_b_CurrencyPairs
                    (set_cp_Futures
                       (set_ap_Available (SplitStrings (cpc_Available fu) comma)
                          (cp_Futures (b_CurrencyPairs e))) (b_CurrencyPairs e)) e in
         mret (set_b_CurrencyPairs
                 (set_cp_Futures
                    (set_ap_Enabled (SplitStrings (cpc_Enabled fu) comma)
                       (cp_Futures (b_CurrencyPairs e))) (b_CurrencyPairs e)) e)
       else mret e);
  e ← (if fs_Websocket (f_Supports (b_Features e)) then
         f ← deref (ec_Features exch);
         w ← deref (b_Websocket e);
         mret (set_b_Websocket
                 (Some (Websocket_SetEnabled (fec_Websocket (fc_Enabled f)) w)) e)
       else mret e);
  mret (None, e).

End SetupBlocks.

(** *** Closed forms of the reconciliation steps

    Each step of a [SetupDefaults] call that found a feature section and a
    positive timeout is written once more as one record update whose fields
    carry the tests; the lemmas [*_closed] prove them equal to the steps. *)

Definition cfg (e : Base) : ExchangeConfig :=
  default zero_ExchangeConfig (b_Config e).

Definition cpairs (c : ExchangeConfig) : CurrencyPairsConfig :=
  default zero_CurrencyPairsConfig (ec_CurrencyPairs c).

Definition features (c : ExchangeConfig) : FeaturesConfig :=
  default
    {| fc_Supports :=
         {| fsc_REST := false;
            fsc_RESTCapabilities :=
              {| pfc_AutoPairUpdates := false; pfc_TickerBatching := false |};
            fsc_Websocket := false;
            fsc_Trading :=
              {| tc_Spot := false; tc_Futures := false; tc_Margin := false;
                 tc_PerpetualSwaps := false; tc_Index := false |} |};
       fc_Enabled := {| fec_AutoPairUpdates := false; fec_Websocket := false |} |}
    (ec_Features c).

Definition fill {A : Type} (slot : option A) (v : A) : option A :=
  match slot with None => Some v | Some _ => slot end.

Definition initRequester (e : Base) : Requester :=
  match b_Requester e with
  | None => request_New (b_Name e) (NewRateLimit 1000000000 0)
              (NewRateLimit 1000000000 0) new_HTTPClient
  | Some r => r
  end.

Section ClosedForms.

Variable APIURLNonDefaultMessage : string.
Variable Base64Decode : string -> string * error.
Variable url_Parse : string -> string * error.
Variable RequiresRateLimiter : Requester -> bool.

Definition after_setupHead (e : Base) (exch : ExchangeConfig) : Base :=
  let auth := ac_AuthenticatedSupport (ec_API exch) in
  let b64 := RequiresBase64DecodeSecret (api_CredentialsValidator (b_API e)) in
  let dec := Base64Decode (Secret (ac_Credentials (ec_API exch))) in
  {| b_Name := b_Name e; b_Enabled := true; b_Verbose := ec_Verbose exch;
     b_LoadedByConfig := true;
     b_APIWithdrawPermissions := b_APIWithdrawPermissions e;
     b_API :=
       {| api_AuthenticatedSupport :=
            auth && negb (b64 && match snd dec with Some _ => true | None => false end);
          api_PEMKeySupport := api_PEMKeySupport (b_API e);
          api_Endpoints := api_Endpoints (b_API e);
          api_Credentials :=
            if auth then
              {| Key := Key (ac_Credentials (ec_API exch));
                 Secret := if b64 then fst dec
                           else Secret (ac_Credentials (ec_API exch));
                 ClientID := ClientID (api_Credentials (b_API e));
                 PEMKey := PEMKey (api_Credentials (b_API e)) |}
            else api_Credentials (b_API e);
          api_CredentialsValidator := api_CredentialsValidator (b_API e) |};
     b_BaseCurrencies := b_BaseCurrencies e;
     b_CurrencyPairs := b_CurrencyPairs e;
     b_Features := b_Features e;
     b_HTTPUserAgent := b_HTTPUserAgent e;
     b_Requester := b_Requester e;
     b_Websocket := b_Websocket e;
     b_Config := Some exch |}.

Definition after_SetHTTPClientTimeout (t : Z) (e : Base) : Base :=
  let r := initRequester e in
  set_b_Requester
    (Some (set_rq_HTTPClient (set_hc_Timeout t (rq_HTTPClient r)) r)) e.

Definition after_SetHTTPClientUserAgent (e : Base) : Base :=
  let ua := ec_HTTPUserAgent (cfg e) in
  set_b_HTTPUserAgent ua
    (set_b_Requester (Some (set_rq_UserAgent ua (initRequester e))) e).

Definition after_SetHTTPRateLimiter (e : Base) : Base :=
  let c := cfg e in
  let r := initRequester e in
  let lim := ec_HTTPRateLimiter c in
  let req := RequiresRateLimiter r in
  set_b_Config
    (Some (set_ec_HTTPRateLimiter
             (if req then
                Some (match lim with
                      | None => {| rl_Unauthenticated := rq_UnauthLimit r;
                                   rl_Authenticated := rq_AuthLimit r |}
                      | Some l => l
                      end)
              else lim) c))
    (set_b_Requester
       (Some (if req then
                match lim with
                | None => r
                | Some l =>
                    set_rq_UnauthLimit (rl_Unauthenticated l)
                      (set_rq_AuthLimit (rl_Authenticated l) r)
                end
              else r)) e).

Definition after_SetCurrencyPairFormat (e : Base) : Base :=
  let c := cfg e in
  let cp := cpairs c in
  let spot := ts_Spot (fs_Trading (f_Supports (b_Features e))) in
  let own := b_CurrencyPairs e in
  let glob := cp_UseGlobalPairFormat own in
  set_b_Config
    (Some (set_ec_CurrencyPairs
             (Some
                {| cps_RequestFormat :=
                     if glob then fill (cps_RequestFormat cp) (cp_RequestFormat own)
                     else cps_RequestFormat cp;
                   cps_ConfigFormat :=
                     if glob then fill (cps_ConfigFormat cp) (cp_ConfigFormat own)
                     else cps_ConfigFormat cp;
                   cps_AssetTypes := cps_AssetTypes cp;
                   cps_LastUpdated := cps_LastUpdated cp;
                   cps_Spot :=
                     if spot then
                       let sp := default zero_CurrencyPairConfig (cps_Spot cp) in
                       Some
                         {| cpc_RequestFormat :=
                              if glob then cpc_RequestFormat sp
                              else fill (cpc_RequestFormat sp)
                                     (ap_RequestFormat (cp_Spot own));
                            cpc_ConfigFormat :=
                              if glob then cpc_ConfigFormat sp
                              else fill (cpc_ConfigFormat sp)
                                     (ap_ConfigFormat (cp_Spot own));
                            cpc_Enabled := cpc_Enabled sp;
                            cpc_Available := cpc_Available sp |}
                     else cps_Spot cp;
                   cps_Futures := cps_Futures cp |}) c)) e.

Definition after_SetAssetTypes (e : Base) : Base :=
  let c := cfg e in
  let cp := cpairs c in
  let joined := AssetTypes_JoinToString (cp_AssetTypes (b_CurrencyPairs e)) comma in
  let old := cps_AssetTypes cp in
  set_b_Config
    (Some (set_ec_CurrencyPairs
             (Some
                {| cps_RequestFormat := cps_RequestFormat cp;
                   cps_ConfigFormat := cps_ConfigFormat cp;
                   cps_AssetTypes := joined;
                   cps_LastUpdated := cps_LastUpdated cp;
                   cps_Spot := cps_Spot cp;
                   cps_Futures :=
                     if negb (old =? "") && negb (old =? joined)
                        && IsAssetTypeSupported e AssetTypeFutures
                     then Some zero_CurrencyPairConfig else cps_Futures cp |}) c)) e.

Definition after_SetFeatureDefaults (now : Z) (e : Base) : Base :=
  let c := cfg e in
  let f := features c in
  let cp := cpairs c in
  let sup := f_Supports (b_Features e) in
  let auto := pf_AutoPairUpdates (fs_RESTCapabilities sup) in
  let stale := pfc_AutoPairUpdates (fsc_RESTCapabilities (fc_Supports f)) in
  set_b_Features
    (set_f_Enabled {| fe_AutoPairUpdates := fec_AutoPairUpdates (fc_Enabled f) |}
       (b_Features e))
    (set_b_Config
       (Some
          (set_ec_Features
             (Some
                {| fc_Supports :=
                     {| fsc_REST := fs_REST sup;
                        fsc_RESTCapabilities :=
                          {| pfc_AutoPairUpdates := auto; pfc_TickerBatching := auto |};
                        fsc_Websocket := fs_Websocket sup;
                        fsc_Trading :=
                          {| tc_Spot := ts_Spot (fs_Trading sup);
                             tc_Futures := ts_Futures (fs_Trading sup);
                             tc_Margin := ts_Margin (fs_Trading sup);
                             tc_PerpetualSwaps := ts_PerpetualSwaps (fs_Trading sup);
                             tc_Index := ts_Index (fs_Trading sup) |} |};
                   fc_Enabled := fc_Enabled f |})
             (set_ec_CurrencyPairs
                (Some (set_cps_LastUpdated
                         (if negb (Bool.eqb auto stale) && negb auto then now
                          else cps_LastUpdated cp) cp)) c))) e).

Definition after_SetAPIURL (e : Base) : Base :=
  let ends := ac_Endpoints (ec_API (cfg e)) in
  let bad := (aec_URL ends =? "") || (aec_URLSecondary ends =? "") in
  let own := api_Endpoints (b_API e) in
  set_b_API
    (set_api_Endpoints
       {| ep_URL := if bad || (aec_URL ends =? APIURLNonDefaultMessage)
                    then ep_URL own else aec_URL ends;
          ep_URLDefault := ep_URLDefault own;
          ep_URLSecondary :=
            if bad || (aec_URLSecondary ends =? APIURLNonDefaultMessage)
            then ep_URLSecondary own else aec_URLSecondary ends;
          ep_URLSecondaryDefault := ep_URLSecondaryDefault own |} (b_API e)) e.

Definition after_SetAPICredentialDefaults (e : Base) : Base :=
  let c := cfg e in
  set_b_Config
    (Some (set_ec_API
             (set_ac_CredentialsValidator (api_CredentialsValidator (b_API e))
                (ec_API c)) c)) e.

Definition after_SetClientProxyAddress (e : Base) : Base :=
  let addr := ec_ProxyAddress (cfg e) in
  let r := initRequester e in
  let parsed := url_Parse addr in
  let applies :=
    negb (addr =? "") && match snd parsed with Some _ => false | None => true end in
  set_b_Websocket
    (if applies then Websocket_SetProxyAddress addr <$> b_Websocket e
     else b_Websocket e)
    (set_b_Requester
       (Some (if applies then Requester_SetProxy (fst parsed) r else r)) e).

(** The adapter after every step of [SetupDefaults] but the last block. *)
Definition after_reconcile (now : Z) (e : Base) (exch : ExchangeConfig) : Base :=
  let e := after_setupHead e exch in
  let e := after_SetHTTPClientTimeout (ec_HTTPTimeout exch) e in
  let e := after_SetHTTPClientUserAgent e in
  let e := after_SetHTTPRateLimiter e in
  let e := after_SetCurrencyPairFormat e in
  let e := after_SetAssetTypes e in
  let e := after_SetFeatureDefaults now e in
  let e := after_SetAPIURL e in
  let e := after_SetAPICredentialDefaults e in
  let e := after_SetClientProxyAddress e in
  after_SetHTTPRateLimiter e.

(** The same state field by field.  The requester, the persisted rate
    limits and the websocket handle go through the steps that touch them: *)
Definition limited (r : Requester) (lim : option HTTPRateLimitConfig)
  : Requester * option HTTPRateLimitConfig :=
  let req := RequiresRateLimiter r in
  (if req then
     match lim with
     | None => r
     | Some l =>
         set_rq_UnauthLimit (rl_Unauthenticated l)
           (set_rq_AuthLimit (rl_Authenticated l) r)
     end
   else r,
   if req then
     Some (match lim with
           | None => {| rl_Unauthenticated := rq_UnauthLimit r;
                        rl_Authenticated := rq_AuthLimit r |}
           | Some l => l
           end)
   else lim).

Definition proxyApplies (addr : string) : bool :=
  negb (addr =? "") && match snd (url_Parse addr) with Some _ => false | None => true end.

Definition proxied (addr : string) (r : Requester) : Requester :=
  if proxyApplies addr then Requester_SetProxy (fst (url_Parse addr)) r else r.

Definition proxiedSocket (addr : string) (w : option Websocket) : option Websocket :=
  if proxyApplies addr then Websocket_SetProxyAddress addr <$> w else w.

Definition transportOf (e : Base) (exch : ExchangeConfig)
  : Requester * option HTTPRateLimitConfig * option Websocket :=
  let r := initRequester e in
  let r := set_rq_HTTPClient (set_hc_Timeout (ec_HTTPTimeout exch) (rq_HTTPClient r)) r in
  let r := set_rq_UserAgent (ec_HTTPUserAgent exch) r in
  let l := limited r (ec_HTTPRateLimiter exch) in
  let addr := ec_ProxyAddress exch in
  (limited (proxied addr (fst l)) (snd l), proxiedSocket addr (b_Websocket e)).

(** the persisted pair section goes through [SetCurrencyPairFormat],
    [SetAssetTypes] and [SetFeatureDefaults]: *)
Definition pairsOf (now : Z) (e : Base) (exch : ExchangeConfig) : CurrencyPairsConfig :=
  let cp := cpairs exch in
  let spot := ts_Spot (fs_Trading (f_Supports (b_Features e))) in
  let own := b_CurrencyPairs e in
  let glob := cp_UseGlobalPairFormat own in
  let joined := AssetTypes_JoinToString (cp_AssetTypes own) comma in
  let old := cps_AssetTypes cp in
  let auto := pf_AutoPairUpdates (fs_RESTCapabilities (f_Supports (b_Features e))) in
  let stale := pfc_AutoPairUpdates (fsc_RESTCapabilities (fc_Supports (features exch))) in
  {| cps_RequestFormat :=
       if glob then fill (cps_RequestFormat cp) (cp_RequestFormat own)
       else cps_RequestFormat cp;
     cps_ConfigFormat :=
       if glob then fill (cps_ConfigFormat cp) (cp_ConfigFormat own)
       else cps_ConfigFormat cp;
     cps_AssetTypes := joined;
     cps_LastUpdated :=
       if negb (Bool.eqb auto stale) && negb auto then now else cps_LastUpdated cp;
     cps_Spot :=
       if spot then
         let sp := default zero_CurrencyPairConfig (cps_Spot cp) in
         Some
           {| cpc_RequestFormat :=
                if glob then cpc_RequestFormat sp
                else fill (cpc_RequestFormat sp) (ap_RequestFormat (cp_Spot own));
              cpc_ConfigFormat :=
                if glob then cpc_ConfigFormat sp
                else fill (cpc_ConfigFormat sp) (ap_ConfigFormat (cp_Spot own));
              cpc_Enabled := cpc_Enabled sp;
              cpc_Available := cpc_Available sp |}
       else cps_Spot cp;
     cps_Futures :=
       if negb (old =? "") && negb (old =? joined)
          && IsAssetTypeSupported e AssetTypeFutures
       then Some zero_CurrencyPairConfig else cps_Futures cp |}.

Definition featuresOf (e : Base) (exch : ExchangeConfig) : FeaturesConfig :=
  let sup := f_Supports (b_Features e) in
  let auto := pf_AutoPairUpdates (fs_RESTCapabilities sup) in
  {| fc_Supports :=
       {| fsc_REST := fs_REST sup;
          fsc_RESTCapabilities :=
            {| pfc_AutoPairUpdates := auto; pfc_TickerBatching := auto |};
          fsc_Websocket := fs_Websocket sup;
          fsc_Trading :=
            {| tc_Spot := ts_Spot (fs_Trading sup);
               tc_Futures := ts_Futures (fs_Trading sup);
               tc_Margin := ts_Margin (fs_Trading sup);
               tc_PerpetualSwaps := ts_PerpetualSwaps (fs_Trading sup);
               tc_Index := ts_Index (fs_Trading sup) |} |};
     fc_Enabled := fc_Enabled (features exch) |}.

Definition apiOf (e : Base) (exch : ExchangeConfig) : API :=
  let auth := ac_AuthenticatedSupport (ec_API exch) in
  let b64 := RequiresBase64DecodeSecret (api_CredentialsValidator (b_API e)) in
  let dec := Base64Decode (Secret (ac_Credentials (ec_API exch))) in
  let ends := ac_Endpoints (ec_API exch) in
  let bad := (aec_URL ends =? "") || (aec_URLSecondary ends =? "") in
  let own := api_Endpoints (b_API e) in
  {| api_AuthenticatedSupport :=
       auth && negb (b64 && match snd dec with Some _ => true | None => false end);
     api_PEMKeySupport := api_PEMKeySupport (b_API e);
     api_Endpoints :=
       {| ep_URL := if bad || (aec_URL ends =? APIURLNonDefaultMessage)
                    then ep_URL own else aec_URL ends;
          ep_URLDefault := ep_URLDefault own;
          ep_URLSecondary :=
            if bad || (aec_URLSecondary ends =? APIURLNonDefaultMessage)
            then ep_URLSecondary own else aec_URLSecondary ends;
          ep_URLSecondaryDefault := ep_URLSecondaryDefault own |};
     api_Credentials :=
       if auth then
         {| Key := Key (ac_Credentials (ec_API exch));
            Secret := if b64 then fst dec else Secret (ac_Credentials (ec_API exch));
            ClientID := ClientID (api_Credentials (b_API e));
            PEMKey := PEMKey (api_Credentials (b_API e)) |}
       else api_Credentials (b_API e);
     api_CredentialsValidator := api_CredentialsValidator (b_API e) |}.

Definition reconciled (now : Z) (e : Base) (exch : ExchangeConfig) : Base :=
  let t := transportOf e exch in
  {| b_Name := b_Name e;
     b_Enabled := true;
     b_Verbose := ec_Verbose exch;
     b_LoadedByConfig := true;
     b_APIWithdrawPermissions := b_APIWithdrawPermissions e;
     b_API := apiOf e exch;
     b_BaseCurrencies := b_BaseCurrencies e;
     b_CurrencyPairs := b_CurrencyPairs e;
     b_Features :=
       set_f_Enabled
         {| fe_AutoPairUpdates := fec_AutoPairUpdates (fc_Enabled (features exch)) |}
         (b_Features e);
     b_HTTPUserAgent := ec_HTTPUserAgent exch;
     b_Requester := Some (fst (fst t));
     b_Websocket := snd t;
     b_Config :=
       Some
         {| ec_Name := ec_Name exch;
            ec_Enabled := ec_Enabled exch;
            ec_Verbose := ec_Verbose exch;
            ec_HTTPTimeout := ec_HTTPTimeout exch;
            ec_HTTPUserAgent := ec_HTTPUserAgent exch;
            ec_HTTPRateLimiter := snd (fst t);
            ec_ProxyAddress := ec_ProxyAddress exch;
            ec_BaseCurrencies := ec_BaseCurrencies exch;
            ec_CurrencyPairs := Some (pairsOf now e exch);
            ec_API :=
              set_ac_CredentialsValidator (api_CredentialsValidator (b_API e))
                (ec_API exch);
            ec_Features := Some (featuresOf e exch);
            ec_SupportsAutoPairUpdates := ec_SupportsAutoPairUpdates exch |} |}.

(** The last block of [SetupDefaults] when it returns. *)
Definition tailOf (e : Base) (exch : ExchangeConfig) : Base :=
  let sup := f_Supports (b_Features e) in
  let sp := default zero_CurrencyPairConfig (cps_Spot (cpairs exch)) in
  let fu := default zero_CurrencyPairConfig (cps_Futures (cpairs exch)) in
  {| b_Name := b_Name e;
     b_Enabled := b_Enabled e;
     b_Verbose := b_Verbose e;
     b_LoadedByConfig := b_LoadedByConfig e;
     b_APIWithdrawPermissions := b_APIWithdrawPermissions e;
     b_API := b_API e;
     b_BaseCurrencies := SplitStrings (ec_BaseCurrencies exch) comma;
     b_CurrencyPairs :=
       let own := b_CurrencyPairs e in
       let spot := ts_Spot (fs_Trading sup) in
       let futures := ts_Futures (fs_Trading sup) in
       {| cp_UseGlobalPairFormat := cp_UseGlobalPairFormat own;
          cp_RequestFormat := cp_RequestFormat own;
          cp_ConfigFormat := cp_ConfigFormat own;
          cp_LastUpdated := cp_LastUpdated own;
          cp_AssetTypes := cp_AssetTypes own;
          cp_Spot :=
            {| ap_Enabled :=
                 if spot then SplitStrings (cpc_Enabled sp) comma
                 else ap_Enabled (cp_Spot own);
               ap_Available :=
                 if spot then SplitStrings (cpc_Available sp) comma
                 else ap_Available (cp_Spot own);
               ap_RequestFormat := ap_RequestFormat (cp_Spot own);
               ap_ConfigFormat := ap_ConfigFormat (cp_Spot own) |};
          cp_Futures :=
            {| ap_Enabled :=
                 if futures then SplitStrings (cpc_Enabled fu) comma
                 else ap_Enabled (cp_Futures own);
               ap_Available :=
                 if futures then SplitStrings (cpc_Available fu) comma
                 else ap_Available (cp_Futures own);
               ap_RequestFormat := ap_RequestFormat (cp_Futures own);
               ap_ConfigFormat := ap_ConfigFormat (cp_Futures own) |} |};
     b_Features := b_Features e;
     b_HTTPUserAgent := b_HTTPUserAgent e;
     b_Requester := b_Requester e;
     b_Websocket :=
       if fs_Websocket sup then
         Websocket_SetEnabled (fec_Websocket (fc_Enabled (features exch)))
           <$> b_Websocket e
       else b_Websocket e;
     b_Config := b_Config e |}.

End ClosedForms.

(** What the steps around [SetAPIURL] leave alone: the adapter's endpoints
    and the endpoints of the configuration it points to. *)
Definition endpointsView (e : Base) : APIEndpoints * option APIEndpointsConfig :=
  (api_Endpoints (b_API e), (fun c => ac_Endpoints (ec_API c)) <$> b_Config e).

(** ** Concrete collaborators and adapters used in the examples *)

Module Demo.

Definition DefaultAPIKey : string := "Key".
Definition DefaultAPISecret : string := "Secret".
Definition DefaultAPIClientID : string := "ClientID".
Definition APIURLNonDefaultMessage : string := "NON_DEFAULT_HTTP_LINK_TO_EXCHANGE_API".

Definition Base64Decode (s : string) : string * error := (s, None).
Definition url_Parse (s : string) : string * error := (s, None).

Definition RequiresRateLimiter (r : Requester) : bool :=
  negb (Rate (rq_AuthLimit r) =? 0)%Z || negb (Rate (rq_UnauthLimit r) =? 0)%Z.

Definition FormatPairs (pairs : list string) (delimiter index : string)
  : list CurrencyPair :=
  map (fun x => {| p_Delimiter := delimiter; p_FirstCurrency := x;
                   p_SecondCurrency := index |})
    (List.filter (fun x => negb (x =? "")) pairs).

Definition Display (p : CurrencyPair) (delimiter : string) (uppercase : bool) : string :=
  let s := p_FirstCurrency p ++ delimiter ++ p_SecondCurrency p in
  if uppercase then StringToUpper s else s.

Definition zero_Base : Base :=
  {| b_Name := ""; b_Enabled := false; b_Verbose := false; b_LoadedByConfig := false;
     b_APIWithdrawPermissions := 0;
     b_API :=
       {| api_AuthenticatedSupport := false; api_PEMKeySupport := false;
          api_Endpoints :=
            {| ep_URL := ""; ep_URLDefault := ""; ep_URLSecondary := "";
               ep_URLSecondaryDefault := "" |};
          api_Credentials := zero_APICredentials;
          api_CredentialsValidator := zero_APICredentialsValidator |};
     b_BaseCurrencies := [];
     b_CurrencyPairs :=
       {| cp_UseGlobalPairFormat := false;
          cp_RequestFormat := zero_CurrencyPairFormatConfig;
          cp_ConfigFormat := zero_CurrencyPairFormatConfig;
          cp_LastUpdated := 0; cp_AssetTypes := [];
          cp_Spot := zero_AssetPairs; cp_Futures := zero_AssetPairs |};
     b_Features :=
       {| f_Supports :=
            {| fs_REST := false; fs_RESTCapabilities := zero_ProtocolFeatures;
               fs_Websocket := false; fs_WebsocketCapabilities := zero_ProtocolFeatures;
               fs_Trading :=
                 {| ts_Spot := false; ts_Futures := false; ts_Margin := false;
                    ts_PerpetualSwaps := false; ts_Index := false |} |};
          f_Enabled := {| fe_AutoPairUpdates := false |} |};
     b_HTTPUserAgent := ""; b_Requester := None; b_Websocket := None;
     b_Config := None |}.

(** The Bithumb and Huobi adapters right after [SetDefaults]. *)
Definition bithumb : Base :=
  Bithumb.SetDefaults 1 256 20 20 "https://api.bithumb.com" zero_Base.

Definition WebsocketInit (h : Base) : Base :=
  set_b_Websocket (Some {| ws_enabled := false; ws_proxyAddr := "" |}) h.

Definition huobi : Base :=
  Huobi.SetDefaults 4 100 100 "https://api.huobi.pro" WebsocketInit zero_Base.

(** A spot-only adapter with its own (non-global) spot format. *)
Definition spot_only : Base :=
  set_b_CurrencyPairs
    {| cp_UseGlobalPairFormat := false;
       cp_RequestFormat := zero_CurrencyPairFormatConfig;
       cp_ConfigFormat := zero_CurrencyPairFormatConfig;
       cp_LastUpdated := 0;
       cp_AssetTypes := [AssetTypeSpot];
       cp_Spot :=
         {| ap_Enabled := ["BTC-USD"]; ap_Available := ["BTC-USD"; "ETH-USD"];
            ap_RequestFormat :=
              {| Uppercase := true; Delimiter := "-"; Separator := ","; Index := "" |};
            ap_ConfigFormat :=
              {| Uppercase := true; Delimiter := "-"; Separator := ""; Index := "" |} |};
       cp_Futures := zero_AssetPairs |}
    bithumb.

(** The configuration [GetDefaultConfig] starts from: [new(config.ExchangeConfig)]
    with the name, the default timeout and the joined base currencies. *)
Definition fresh_config (e : Base) : ExchangeConfig :=
  {| ec_Name := b_Name e; ec_Enabled := false; ec_Verbose := false;
     ec_HTTPTimeout := DefaultHTTPTimeout; ec_HTTPUserAgent := "";
     ec_HTTPRateLimiter := None; ec_ProxyAddress := "";
     ec_BaseCurrencies := JoinStrings (b_BaseCurrencies e) comma;
     ec_CurrencyPairs := None; ec_API := zero_APIConfig;
     ec_Features := None; ec_SupportsAutoPairUpdates := None |}.

Definition with_urls (url secondary : string) (c : ExchangeConfig) : ExchangeConfig :=
  set_ec_API
    {| ac_AuthenticatedSupport := ac_AuthenticatedSupport (ec_API c);
       ac_PEMKeySupport := ac_PEMKeySupport (ec_API c);
       ac_Endpoints :=
         {| aec_URL := url; aec_URLSecondary := secondary;
            aec_WebsocketURL := aec_WebsocketURL (ac_Endpoints (ec_API c)) |};
       ac_Credentials := ac_Credentials (ec_API c);
       ac_CredentialsValidator := ac_CredentialsValidator (ec_API c) |} c.

(** A persisted config with a custom primary URL and no secondary URL, and
    one with a custom primary URL and the marker as secondary URL. *)
Definition config_primary_only : ExchangeConfig :=
  with_urls "https://custom.example" "" (fresh_config bithumb).

Definition config_both_urls : ExchangeConfig :=
  with_urls "https://custom.example" APIURLNonDefaultMessage (fresh_config bithumb).

(** [SetupDefaults] with the concrete collaborators. *)
Definition setup (now : Z) (e : Base) (exch : ExchangeConfig) : outcome (error * Base) :=
  SetupDefaults APIURLNonDefaultMessage Base64Decode url_Parse RequiresRateLimiter
    now e exch.

(** A persisted config that went through a setup before: it has a pair
    section and a Features section. *)
Definition stored_features : FeaturesConfig :=
  {| fc_Supports :=
       {| fsc_REST := true;
          fsc_RESTCapabilities :=
            {| pfc_AutoPairUpdates := true; pfc_TickerBatching := false |};
          fsc_Websocket := true;
          fsc_Trading :=
            {| tc_Spot := true; tc_Futures := false; tc_Margin := false;
               tc_PerpetualSwaps := false; tc_Index := false |} |};
     fc_Enabled := {| fec_AutoPairUpdates := true; fec_Websocket := true |} |}.

Definition config_with_features (e : Base) : ExchangeConfig :=
  set_ec_Features (Some stored_features)
    (set_ec_CurrencyPairs (Some zero_CurrencyPairsConfig) (fresh_config e)).

(** Huobi holding such a config, as [SetupDefaults] leaves it before the
    call of [SetFeatureDefaults]. *)
Definition huobi_loaded : Base :=
  set_b_Config (Some (config_with_features huobi)) huobi.

(** Bithumb after one setup against such a config. *)
Definition settled : Base :=
  match setup 0 bithumb (config_with_features bithumb) with
  | Returns (_, F) => F
  | Panics => bithumb
  end.

(** The persisted ticker-batching flag. *)
Definition persistedTickerBatching (e : Base) : option bool :=
  c ← b_Config e;
  f ← ec_Features c;
  Some (pfc_TickerBatching (fsc_RESTCapabilities (fc_Supports f))).

(** Worlds and venues. *)
Definition btc_krw : CurrencyPair :=
  {| p_Delimiter := ""; p_FirstCurrency := "BTC"; p_SecondCurrency := "KRW" |}.

Definition cached_price : ticker.Price :=
  {| ticker.Pair := btc_krw; ticker.Last := 5%Z; ticker.High := 7%Z; ticker.Low := 3%Z;
     ticker.Bid := 4%Z; ticker.Ask := 6%Z; ticker.Volume := 100%Z |}.

Definition cached_book : orderbook.Base :=
  {| orderbook.Bids := [{| orderbook.Amount := 1%Z; orderbook.Price := 4%Z |}];
     orderbook.Asks := [{| orderbook.Amount := 2%Z; orderbook.Price := 6%Z |}] |}.

Definition empty_world : World :=
  {| w_Tickers := ∅; w_Orderbooks := ∅; w_Log := [] |}.

Definition cached_world : World :=
  {| w_Tickers :=
       <[key_of "Huobi" btc_krw AssetTypeSpot := cached_price]>
         {[ key_of "Bithumb" btc_krw AssetTypeSpot := cached_price ]};
     w_Orderbooks :=
       <[key_of "Huobi" btc_krw AssetTypeSpot := cached_book]>
         {[ key_of "Bithumb" btc_krw AssetTypeSpot := cached_book ]};
     w_Log := [] |}.


Definition Step1 : string := "step1".

(** A venue that is down. *)
Definition GetAllTickers_down (_ : list Call) : gmap string Bithumb.Ticker * error :=
  (∅, Some "timeout").
Definition GetOrderBook_down (_ : list Call) (_ : string) : Bithumb.Orderbook * error :=
  ({| Bithumb.Data_Bids := []; Bithumb.Data_Asks := [] |}, Some "timeout").
Definition GetMarketDetailMerged_down (_ : list Call) (_ : string)
  : Huobi.DetailMerged * error :=
  ({| Huobi.Low := 0%Z; Huobi.Close := 0%Z; Huobi.Volume := 0%Z; Huobi.High := 0%Z;
      Huobi.Ask := []; Huobi.Bid := [] |}, Some "timeout").
Definition GetDepth_down (_ : list Call) (_ _ : string) : Huobi.Orderbook * error :=
  ({| Huobi.Bids := []; Huobi.Asks := [] |}, Some "timeout").


(** Three open orders; the venue refuses to cancel the second. *)
Definition open_orders : list Bithumb.OrderData :=
  [{| Bithumb.OrderID := "1" |}; {| Bithumb.OrderID := "2" |};
   {| Bithumb.OrderID := "3" |}].

Definition GetOrders (_ : list Call) (_ _ _ _ _ : string) : Bithumb.Orders * error :=
  ({| Bithumb.Data := open_orders |}, None).

Definition CancelTrade (_ : list Call) (_ orderID _ : string) : error :=
  if orderID =? "2" then Some "order not found" else None.

Definition CancelOpenOrdersBatch (_ : list Call) (_ _ : string)
  : Huobi.CancelOpenOrdersBatchResponse * error :=
  ({| Huobi.Data_FailedCount := 1%Z |}, None).

(** A venue whose first batch cancellation is clean and whose later ones
    report two failed orders. *)
Definition CancelOpenOrdersBatch_late (before : list Call) (_ _ : string)
  : Huobi.CancelOpenOrdersBatchResponse * error :=
  ({| Huobi.Data_FailedCount := match before with [] => 0%Z | _ => 2%Z end |}, None).

Definition with_enabled (pairs : list string) (e : Base) : Base :=
  set_b_CurrencyPairs
    (set_cp_Spot (set_ap_Enabled pairs (cp_Spot (b_CurrencyPairs e)))
       (b_CurrencyPairs e)) e.

Definition bithumb_live : Base := with_enabled ["BTC"] bithumb.
Definition huobi_live : Base := with_enabled ["BTC"; "ETH"] huobi.
Definition huobi_three : Base := with_enabled ["BTC"; "ETH"; "LTC"] huobi.

Definition cancel_all : OrderCancellation :=
  {| oc_OrderID := ""; oc_AccountID := "42"; oc_Side := "bid";
     oc_CurrencyPair := btc_krw |}.

End Demo.

(** * Properties *)

(** ** Joining, splitting and upper-casing *)

Lemma upper_byte_comma (c : ascii) :
  Ascii.eqb (upper_byte c) comma = Ascii.eqb c comma.
Proof.
  destruct c as [[] [] [] [] [] [] [] []]; reflexivity.
Qed.

Lemma StringToUpper_app (s t : string) :
  StringToUpper (s ++ t) = StringToUpper s ++ StringToUpper t.
Proof.
  induction s as [|c s IH]; simpl; [reflexivity|]. by rewrite IH.
Qed.

Lemma comma_free_upper (s : string) :
  comma_free (StringToUpper s) = comma_free s.
Proof.
  induction s as [|c s IH]; simpl; [reflexivity|].
  by rewrite upper_byte_comma, IH.
Qed.

Lemma JoinStrings_cons (x y : string) (l : list string) :
  JoinStrings (x :: y :: l) comma = x ++ String comma (JoinStrings (y :: l) comma).
Proof. reflexivity. Qed.

Lemma StringToUpper_join (l : list string) :
  StringToUpper (JoinStrings l comma) = JoinStrings (map StringToUpper l) comma.
Proof.
  induction l as [|x l IH]; [reflexivity|].
  destruct l as [|y l]; [reflexivity|].
  rewrite JoinStrings_cons, StringToUpper_app. cbn [StringToUpper].
  rewrite IH. reflexivity.
Qed.

Lemma SplitStrings_nonnil (s : string) (sep : ascii) : SplitStrings s sep ≠ [].
Proof.
  destruct s as [|c s]; simpl; [discriminate|].
  destruct (SplitStrings s sep); [discriminate|].
  destruct (Ascii.eqb c sep); discriminate.
Qed.

Lemma SplitStrings_comma_free (s : string) :
  comma_free s = true → SplitStrings s comma = [s].
Proof.
  induction s as [|c s IH]; simpl; [reflexivity|].
  intros [Hc Hs]%andb_prop. rewrite (IH Hs).
  apply negb_true_iff in Hc. by rewrite Hc.
Qed.

Lemma SplitStrings_app (s t : string) :
  comma_free s = true →
  SplitStrings (s ++ String comma t) comma = s :: SplitStrings t comma.
Proof.
  induction s as [|c s IH]; simpl.
  - intros _. destruct (SplitStrings t comma) eqn:E.
    + by destruct (SplitStrings_nonnil t comma).
    + reflexivity.
  - intros [Hc Hs]%andb_prop. rewrite (IH Hs).
    apply negb_true_iff in Hc. by rewrite Hc.
Qed.

Lemma SplitStrings_join (l : list string) :
  l ≠ [] → forallb comma_free l = true →
  SplitStrings (JoinStrings l comma) comma = l.
Proof.
  induction l as [|x l IH]; [done|].
  destruct l as [|y l].
  - intros _ [Hx _]%andb_prop. by apply SplitStrings_comma_free.
  - intros _ [Hx Hl]%andb_prop.
    rewrite JoinStrings_cons, SplitStrings_app by done. f_equal. by apply IH.
Qed.

(** On comma-free entries the normalisation of [UpdatePairs] is the entry-wise
    one: upper-case every entry and drop the empty ones. *)
Lemma normalizeProducts_comma_free (l : list string) :
  forallb comma_free l = true → normalizeProducts l = uppercased_nonempty l.
Proof.
  intros Hl. unfold normalizeProducts, uppercased_nonempty.
  destruct l as [|x l]; [reflexivity|].
  rewrite StringToUpper_join, SplitStrings_join; [reflexivity|done|].
  rewrite forallb_forall in *. intros y [z [<- Hz]]%in_map_iff.
  rewrite comma_free_upper. by apply Hl.
Qed.

Lemma normalizeProducts_nonempty_entries (l : list string) (x : string) :
  In x (normalizeProducts l) → x ≠ "".
Proof.
  unfold normalizeProducts. intros [_ H]%filter_In ->. discriminate.
Qed.

(** ** Pair differences *)

Lemma StringDataContains_In (l : list string) (x : string) :
  StringDataContains l x = true ↔ In x l.
Proof.
  unfold StringDataContains. rewrite existsb_exists. split.
  - intros [y [Hy ->%String.eqb_eq]]. done.
  - intros H. exists x. by rewrite String.eqb_refl.
Qed.

Lemma filter_nil_iff {A : Type} (f : A → bool) (l : list A) :
  List.filter f l = [] ↔ ∀ x, In x l → f x = false.
Proof.
  induction l as [|a l IH]; simpl; [naive_solver|].
  destruct (f a) eqn:E; split.
  - discriminate.
  - intros H. specialize (H a (or_introl eq_refl)). congruence.
  - intros H x [<-|Hx]; [done|]. by apply IH.
  - intros H. apply IH. intros x Hx. apply H. by right.
Qed.

(** Both differences are empty exactly when the two lists have the same
    members. *)
Lemma FindPairDifferences_nil (oldPairs newPairs : list string) :
  (fst (FindPairDifferences oldPairs newPairs) = [] ∧
   snd (FindPairDifferences oldPairs newPairs) = [])
  ↔ (∀ x, In x newPairs ↔ In x oldPairs).
Proof.
  unfold FindPairDifferences. simpl. rewrite !filter_nil_iff. split.
  - intros [H1 H2] x. split; intros Hx.
    + specialize (H1 x Hx). apply negb_false_iff in H1.
      by apply StringDataContains_In.
    + specialize (H2 x Hx). apply negb_false_iff in H2.
      by apply StringDataContains_In.
  - intros H. split; intros x Hx; apply negb_false_iff, StringDataContains_In;
      by apply H.
Qed.

(** ** Pair synchroniser *)

Lemma storePairs_replaces (e : Base) (assetType : AssetType) (enabled : bool)
    (products : list string) :
  assetType = AssetTypeSpot ∨ assetType = AssetTypeFutures →
  is_Some (configSlot e assetType) →
  ∃ e', storePairs e assetType enabled products = Returns e' ∧
        replacedWith e' assetType enabled products.
Proof.
  intros Ha [sl Hsl]. unfold configSlot in Hsl.
  destruct (b_Config e) as [c|] eqn:Hc; [|done]. simpl in Hsl.
  destruct (ec_CurrencyPairs c) as [cp|] eqn:Hcp; [|done]. simpl in Hsl.
  unfold storePairs, replacedWith, configPairs, configSlot.
  destruct Ha as [-> | ->]; simpl in Hsl |- *;
    rewrite Hc; simpl; rewrite Hcp; simpl; rewrite Hsl; simpl;
    destruct enabled; eexists; (split; [reflexivity|]); split; reflexivity.
Qed.

Lemma UpdatePairs_nonempty (e : Base) (fetched : list string) (assetType : AssetType)
    (enabled force : bool) :
  fetched ≠ [] →
  UpdatePairs e fetched assetType enabled force =
    let products := normalizeProducts fetched in
    let d := FindPairDifferences (targetPairs e assetType enabled) products in
    if force || (0 <? length (fst d))%nat || (0 <? length (snd d))%nat then
      e' ← storePairs e assetType enabled products; mret (None, e')
    else mret (None, e).
Proof.
  intros Hf. unfold UpdatePairs. destruct fetched as [|x l]; [done|].
  cbn [length Nat.eqb]. cbv zeta.
  destruct enabled; destruct (FindPairDifferences _ _); reflexivity.
Qed.

Lemma length_pos_false {A : Type} (l : list A) : (0 <? length l)%nat = false ↔ l = [].
Proof. destruct l; simpl; split; done. Qed.

(** C1. Pair sync convergence.  For a stored pair list [S] of an asset class
    and role and a non-empty fetched sequence [F], [UpdatePairs] succeeds;
    with [force] the stored list (and its persisted copy) becomes the
    normalised [F]; without [force] it becomes the normalised [F] when the
    normalised [F] and [S] differ as sets, and the whole adapter state is left
    as it was when they have the same members.  The normalised [F] is [F]
    upper-cased with the empty entries dropped (entries are split at commas). *)
Theorem UpdatePairs_convergence (e : Base) (fetched : list string)
    (assetType : AssetType) (enabled force : bool) :
  fetched ≠ [] →
  assetType = AssetTypeSpot ∨ assetType = AssetTypeFutures →
  is_Some (configSlot e assetType) →
  ∃ e',
    UpdatePairs e fetched assetType enabled force = Returns (None, e') ∧
    (force = true → replacedWith e' assetType enabled (normalizeProducts fetched)) ∧
    (force = false →
     ¬ (∀ x, x ∈ normalizeProducts fetched ↔ x ∈ targetPairs e assetType enabled) →
     replacedWith e' assetType enabled (normalizeProducts fetched)) ∧
    (force = false →
     (∀ x, x ∈ normalizeProducts fetched ↔ x ∈ targetPairs e assetType enabled) →
     e' = e) ∧
    (forallb comma_free fetched = true →
     normalizeProducts fetched = uppercased_nonempty fetched).
Proof.
  intros Hf Ha Hsl. rewrite UpdatePairs_nonempty by done. cbv zeta.
  destruct (storePairs_replaces e assetType enabled (normalizeProducts fetched) Ha Hsl)
    as (e1 & Hst & Hrep).
  pose proof (FindPairDifferences_nil (targetPairs e assetType enabled)
                (normalizeProducts fetched)) as Hd.
  destruct (FindPairDifferences _ _) as [newPairs removedPairs]. simpl in Hd |- *.
  assert (Hsame : (newPairs = [] ∧ removedPairs = []) ↔
            (∀ x, x ∈ normalizeProducts fetched ↔ x ∈ targetPairs e assetType enabled)).
  { rewrite Hd. split; intros H x; specialize (H x);
      rewrite ?list_elem_of_In in *; done. }
  destruct (force || (0 <? length newPairs)%nat || (0 <? length removedPairs)%nat)
    eqn:Hc.
  - rewrite Hst. exists e1. split; [reflexivity|].
    split; [intros _; exact Hrep|]. split; [intros _ _; exact Hrep|].
    split; [|apply normalizeProducts_comma_free].
    intros -> Hs. apply (proj2 Hsame) in Hs. destruct Hs as [-> ->].
    simpl in Hc. discriminate.
  - apply orb_false_iff in Hc as [Hc Hr]. apply orb_false_iff in Hc as [Hfo Hn].
    apply length_pos_false in Hn, Hr. subst.
    exists e. split; [reflexivity|].
    split; [done|]. split; [|split; [done|apply normalizeProducts_comma_free]].
    intros _ Hs. destruct Hs. by apply Hsame.
Qed.

(** C10. [UpdatePairs] reports the empty-product-list error exactly on an
    input of length zero.  A non-empty input made of empty strings only is
    accepted; its normalised product list is empty, and a non-empty stored
    pair list and its persisted copy are replaced by the empty list. *)
Theorem UpdatePairs_empty_entries (e : Base) (fetched : list string)
    (assetType : AssetType) (enabled force : bool) :
  UpdatePairs e [] assetType enabled force =
    Returns (Some (b_Name e ++ " UpdatePairs error - exchangeProducts is empty"), e) ∧
  (fetched ≠ [] →
   ∀ msg e', UpdatePairs e fetched assetType enabled force ≠ Returns (Some msg, e')) ∧
  (fetched ≠ [] → Forall (λ x, x = "") fetched →
   assetType = AssetTypeSpot ∨ assetType = AssetTypeFutures →
   is_Some (configSlot e assetType) →
   targetPairs e assetType enabled ≠ [] →
   normalizeProducts fetched = [] ∧
   ∃ e', UpdatePairs e fetched assetType enabled force = Returns (None, e') ∧
         targetPairs e' assetType enabled = [] ∧
         configPairs e' assetType enabled = Some "").
Proof.
  split; [reflexivity|]. split.
  - intros Hf msg e'. rewrite UpdatePairs_nonempty by done. cbv zeta.
    destruct (_ || _ || _); [|discriminate].
    destruct (storePairs _ _ _ _); simpl; discriminate.
  - intros Hf Hall Ha Hsl Hst.
    assert (Hn : normalizeProducts fetched = []).
    { rewrite normalizeProducts_comma_free.
      - unfold uppercased_nonempty. clear -Hall.
        induction Hall as [|x l -> _ IH]; [reflexivity|]. simpl. exact IH.
      - clear -Hall. induction Hall as [|x l -> _ IH]; [reflexivity|]. exact IH. }
    split; [exact Hn|].
    rewrite UpdatePairs_nonempty by done. cbv zeta. rewrite Hn.
    destruct (storePairs_replaces e assetType enabled [] Ha Hsl) as (e1 & Hs1 & Hrep).
    destruct (force || _ || _) eqn:Hc.
    + rewrite Hs1. exists e1. split; [reflexivity|exact Hrep].
    + apply orb_false_iff in Hc as [Hc Hr]. apply orb_false_iff in Hc as [_ Hnw].
      apply length_pos_false in Hnw, Hr.
      pose proof (proj1 (FindPairDifferences_nil _ _) (conj Hnw Hr)) as Hs.
      destruct (targetPairs e assetType enabled) as [|y l]; [done|].
      destruct (proj2 (Hs y)). left; reflexivity.
Qed.

Lemma UpdatePairs_empty_entries_witness :
  ∃ e', UpdatePairs
          (set_b_CurrencyPairs
             (set_cp_Spot (set_ap_Available ["BTCKRW"; "ETHKRW"] zero_AssetPairs)
                (b_CurrencyPairs Demo.bithumb))
             (set_b_Config
                (Some (set_ec_CurrencyPairs
                         (Some (set_cps_Spot (Some zero_CurrencyPairConfig)
                                  zero_CurrencyPairsConfig))
                         zero_ExchangeConfig)) Demo.bithumb))
          [""; ""] AssetTypeSpot false false = Returns (None, e') ∧
        targetPairs e' AssetTypeSpot false = [] ∧
        configPairs e' AssetTypeSpot false = Some "".
Proof.
  eapply (UpdatePairs_empty_entries _ [""; ""] AssetTypeSpot false false).
  - discriminate.
  - repeat constructor.
  - left; reflexivity.
  - eexists; reflexivity.
  - discriminate.
Defined.

Lemma UpdatePairs_convergence_witness :
  ∃ e', UpdatePairs
          (set_b_Config
             (Some (set_ec_CurrencyPairs
                      (Some (set_cps_Spot (Some zero_CurrencyPairConfig)
                               zero_CurrencyPairsConfig))
                      zero_ExchangeConfig)) Demo.bithumb)
          ["btckrw"; ""; "ethkrw"] AssetTypeSpot false false = Returns (None, e') ∧
        targetPairs e' AssetTypeSpot false = ["BTCKRW"; "ETHKRW"].
Proof.
  destruct (UpdatePairs_convergence
              (set_b_Config
                 (Some (set_ec_CurrencyPairs
                          (Some (set_cps_Spot (Some zero_CurrencyPairConfig)
                                   zero_CurrencyPairsConfig))
                          zero_ExchangeConfig)) Demo.bithumb)
              ["btckrw"; ""; "ethkrw"] AssetTypeSpot false false)
    as (e' & Hup & _ & Hdiff & _ & _).
  - discriminate.
  - left; reflexivity.
  - eexists; reflexivity.
  - exists e'. split; [exact Hup|]. apply Hdiff; [reflexivity|].
    intros Hs. specialize (Hs "BTCKRW"). vm_compute in Hs.
    destruct Hs as [Hs _]. specialize (Hs ltac:(left)). inversion Hs.
Defined.

(** ** Credential validator *)

Section Credentials.

Variable DefaultAPIKey DefaultAPISecret DefaultAPIClientID : string.
Variable Base64Decode : string -> string * error.

(** C5. Authenticated-request gate: an authenticated request is allowed
    exactly when the adapter was loaded by config and its
    authenticated-support flag is set, or it was not loaded by config and
    its credentials validate. *)
Theorem AllowAuthenticatedRequest_gate (e : Base) :
  AllowAuthenticatedRequest DefaultAPIKey DefaultAPISecret DefaultAPIClientID
    Base64Decode e = true
  ↔ (b_LoadedByConfig e = true ∧ api_AuthenticatedSupport (b_API e) = true)
    ∨ (b_LoadedByConfig e = false ∧
       ValidateAPICredentials DefaultAPIKey DefaultAPISecret DefaultAPIClientID
         Base64Decode e = true).
Proof.
  unfold AllowAuthenticatedRequest.
  destruct (b_LoadedByConfig e), (api_AuthenticatedSupport (b_API e)),
    (ValidateAPICredentials _ _ _ _ e); simpl; intuition discriminate.
Qed.

End Credentials.

(** ** Pair-format resolver *)

(** C9 (as amended).  [GetPairFormat] has no failure path.  For an adapter
    that does not use the global format and an asset class it does not
    support, the call returns the rule stored in the slot it indexes: the
    spot slot for spot, the futures slot for any other class. *)
Theorem GetPairFormat_unsupported (e : Base) (assetType : AssetType)
    (requestFormat : bool) :
  cp_UseGlobalPairFormat (b_CurrencyPairs e) = false →
  IsAssetTypeSupported e assetType = false →
  GetPairFormat e assetType requestFormat =
    let slot := if assetType =? AssetTypeSpot then cp_Spot (b_CurrencyPairs e)
                else cp_Futures (b_CurrencyPairs e) in
    if requestFormat then ap_RequestFormat slot else ap_ConfigFormat slot.
Proof.
  intros Hg _. unfold GetPairFormat. rewrite Hg.
  destruct (assetType =? AssetTypeSpot), requestFormat; reflexivity.
Qed.

(** Futures requested on a spot-only adapter: the call returns the zero rule
    of the unused futures slot instead of failing. *)
Lemma GetPairFormat_futures_on_spot_only :
  cp_UseGlobalPairFormat (b_CurrencyPairs Demo.spot_only) = false ∧
  IsAssetTypeSupported Demo.spot_only AssetTypeSpot = true ∧
  IsAssetTypeSupported Demo.spot_only AssetTypeFutures = false ∧
  GetPairFormat Demo.spot_only AssetTypeFutures true = zero_CurrencyPairFormatConfig ∧
  GetPairFormat Demo.spot_only AssetTypeFutures false = zero_CurrencyPairFormatConfig.
Proof. repeat split. Qed.

Lemma GetPairFormat_unsupported_witness :
  GetPairFormat Demo.spot_only AssetTypeFutures true =
    ap_RequestFormat (cp_Futures (b_CurrencyPairs Demo.spot_only)).
Proof.
  apply (GetPairFormat_unsupported Demo.spot_only AssetTypeFutures true);
    reflexivity.
Defined.

(** ** Market-data refresh *)

Section Refresh.

Variable FormatPairs : list string -> string -> string -> list CurrencyPair.
Variable Display : CurrencyPair -> string -> bool -> string.
Variable Step1 : string.
Variable GetAllTickers : list Call -> gmap string Bithumb.Ticker * error.
Variable GetOrderBook : list Call -> string -> Bithumb.Orderbook * error.
Variable GetMarketDetailMerged : list Call -> string -> Huobi.DetailMerged * error.
Variable GetDepth : list Call -> string -> string -> Huobi.Orderbook * error.

Lemma cacheUntouched_called (c : Call) (w : World) : cacheUntouched w (called c w).
Proof. repeat split. Qed.


(** C7. Failed refresh leaves the cache untouched: when the venue fetch
    inside [UpdateTicker] or [UpdateOrderbook] (of either wrapper) returns a
    transport error, the operation returns that error with the zero
    snapshot, the process step is not run, and both caches - hence every
    later cache read - are as before. *)
Theorem failed_refresh_leaves_cache (b h : Base) (w : World) (p : CurrencyPair)
    (assetType : AssetType) (msg : string) :
  (snd (GetAllTickers (w_Log w)) = Some msg →
   ∃ w', Bithumb.UpdateTicker FormatPairs GetAllTickers b w p assetType
           = ((ticker.zero_Price, Some msg), w') ∧ cacheUntouched w w') ∧
  (snd (GetOrderBook (w_Log w) (p_FirstCurrency p)) = Some msg →
   ∃ w', Bithumb.UpdateOrderbook GetOrderBook b w p assetType
           = ((orderbook.zero_Base, Some msg), w') ∧ cacheUntouched w w') ∧
  (snd (GetMarketDetailMerged (w_Log w) (FormatExchangeCurrency Display h p assetType))
     = Some msg →
   ∃ w', Huobi.UpdateTicker Display GetMarketDetailMerged h w p assetType
           = ((ticker.zero_Price, Some msg), w') ∧ cacheUntouched w w') ∧
  (snd (GetDepth (w_Log w) (FormatExchangeCurrency Display h p assetType) Step1)
     = Some msg →
   ∃ w', Huobi.UpdateOrderbook Display Step1 GetDepth h w p assetType
           = Returns ((orderbook.zero_Base, Some msg), w') ∧ cacheUntouched w w').
Proof.
  repeat split.
  - unfold Bithumb.UpdateTicker. destruct (GetAllTickers _) as [t err]. simpl.
    intros ->. eexists. split; [reflexivity|apply cacheUntouched_called].
  - unfold Bithumb.UpdateOrderbook. destruct (GetOrderBook _ _) as [t err]. simpl.
    intros ->. eexists. split; [reflexivity|apply cacheUntouched_called].
  - unfold Huobi.UpdateTicker. destruct (GetMarketDetailMerged _ _) as [t err]. simpl.
    intros ->. eexists. split; [reflexivity|apply cacheUntouched_called].
  - unfold Huobi.UpdateOrderbook. destruct (GetDepth _ _ _) as [t err]. simpl.
    intros ->. eexists. split; [reflexivity|apply cacheUntouched_called].
Qed.





(** A level with fewer than two numbers makes the loop panic. *)
Lemma appendLevels_short (levels : list (list float64)) (acc : list orderbook.Item) :
  ¬ Forall two_numbers levels → Huobi.appendLevels levels acc = Panics.
Proof.
  revert acc. induction levels as [|data levels IH]; intros acc Hn; simpl.
  - destruct Hn. constructor.
  - destruct data as [|x [|y data]]; simpl; [reflexivity..|].
    apply IH. intros Hl. apply Hn. constructor; [|exact Hl].
    unfold two_numbers. simpl. lia.
Qed.









End Refresh.

(** ** Cancelling all orders *)

Section CancelAll.

Variable FormatPairs : list string -> string -> string -> list CurrencyPair.
Variable Display : CurrencyPair -> string -> bool -> string.
Variable GetOrders :
  list Call -> string -> string -> string -> string -> string -> Bithumb.Orders * error.
Variable CancelTrade : list Call -> string -> string -> string -> error.
Variable CancelOpenOrdersBatch :
  list Call -> string -> string -> Huobi.CancelOpenOrdersBatchResponse * error.

Lemma attemptFails_cons (side currency : string) (o : Bithumb.OrderData)
    (orders : list Bithumb.OrderData) (before : list Call) (id msg : string) :
  attemptFails CancelTrade side currency (o :: orders) before id msg ↔
  (Bithumb.OrderID o = id ∧ CancelTrade before side id currency = Some msg) ∨
  attemptFails CancelTrade side currency orders
    (before ++ [CallCancelTrade side (Bithumb.OrderID o) currency])%list id msg.
Proof.
  unfold attemptFails. split.
  - intros ([|i] & o' & Hl & Hid & Hc); simpl in *.
    + left. injection Hl as <-. rewrite app_nil_r in Hc. done.
    + right. exists i, o'. rewrite <- app_assoc. done.
  - intros [[Hid Hc] | (i & o' & Hl & Hid & Hc)].
    + exists 0%nat, o. simpl. rewrite app_nil_r. done.
    + exists (S i), o'. simpl. rewrite <- app_assoc in Hc. done.
Qed.

Lemma cancelEach_spec (side currency : string) (orders : list Bithumb.OrderData)
    (status : gmap string string) (w : World) :
  let r := Bithumb.cancelEach CancelTrade side currency orders status w in
  w_Log (snd r) = (w_Log w ++ cancelCalls side currency orders)%list ∧
  cacheUntouched w (snd r) ∧
  (∀ id, is_Some (fst r !! id) ↔
         is_Some (status !! id) ∨
         ∃ msg, attemptFails CancelTrade side currency orders (w_Log w) id msg) ∧
  (∀ id msg, fst r !! id = Some msg →
             status !! id = Some msg ∨
             attemptFails CancelTrade side currency orders (w_Log w) id msg).
Proof.
  revert status w. induction orders as [|o orders IH]; intros status w; simpl.
  - split; [by rewrite app_nil_r|]. split; [repeat split|]. split.
    + intros id. split; [by left|]. intros [H|(msg & i & o & Hl & _)]; done.
    + intros id msg H. by left.
  - set (w1 := called (CallCancelTrade side (Bithumb.OrderID o) currency) w).
    set (status1 := match CancelTrade (w_Log w) side (Bithumb.OrderID o) currency with
                    | Some msg => <[Bithumb.OrderID o := msg]> status
                    | None => status
                    end).
    destruct (IH status1 w1) as (Hlog & Hcache & Hdom & Hval).
    split; [rewrite Hlog; simpl; by rewrite <- app_assoc|].
    split; [exact Hcache|]. split.
    + intros id. rewrite Hdom. setoid_rewrite attemptFails_cons. simpl.
      subst status1.
      destruct (CancelTrade (w_Log w) side (Bithumb.OrderID o) currency) as [m|] eqn:Hc.
      * destruct (decide (Bithumb.OrderID o = id)) as [<-|Hne].
        -- rewrite lookup_insert_eq. split; [|by eauto].
           intros _. right. exists m. by left.
        -- rewrite lookup_insert_ne by done. split.
           ++ intros [H|[msg H]]; [by left|right; exists msg; by right].
           ++ intros [H|[msg [[H _]|H]]]; [by left|done|right; by exists msg].
      * split.
        -- intros [H|[msg H]]; [by left|right; exists msg; by right].
        -- intros [H|[msg [[<- H]|H]]]; [by left|congruence|right; by exists msg].
    + intros id msg Hs. rewrite attemptFails_cons. simpl.
      destruct (Hval id msg Hs) as [H|H]; [|by right; right].
      subst status1.
      destruct (CancelTrade (w_Log w) side (Bithumb.OrderID o) currency) as [m|] eqn:Hc;
        [|by left].
      destruct (decide (Bithumb.OrderID o = id)) as [<-|Hne].
      * rewrite lookup_insert_eq in H. injection H as ->. right. left. done.
      * rewrite lookup_insert_ne in H by done. by left.
Qed.

Lemma calledAll_called (c : Call) (cs : list Call) (w : World) :
  calledAll cs (called c w) = calledAll (c :: cs) w.
Proof. unfold calledAll, called. simpl. by rewrite <- app_assoc. Qed.

Lemma calledAll_nil (w : World) : calledAll [] w = w.
Proof. destruct w. unfold calledAll. simpl. by rewrite app_nil_r. Qed.

(** After the call for the first pair, the answers for the other pairs are
    the later answers of the venue. *)
Lemma fetchAnswer_cons (side : string) (x : CurrencyPair) (pairs : list CurrencyPair)
    (before : list Call) (i : nat) (p : CurrencyPair) :
  fetchAnswer GetOrders side (x :: pairs) before (S i) p
  = fetchAnswer GetOrders side pairs
      (before ++ [CallGetOrders "" side "100" "" (p_FirstCurrency x)])%list i p.
Proof. unfold fetchAnswer. simpl. by rewrite <- app_assoc. Qed.

(** The first loop of Bithumb's [CancelAllOrders]: when the venue answers
    for every pair, the loop collects every order the venue reported. *)
Lemma collectOrders_spec (side : string) (pairs : list CurrencyPair)
    (acc : list Bithumb.OrderData) (w : World) :
  (∀ i p, pairs !! i = Some p →
          snd (fetchAnswer GetOrders side pairs (w_Log w) i p) = None) →
  Bithumb.collectOrders GetOrders side pairs acc w
  = (inl (acc ++ openOrders GetOrders side pairs (w_Log w))%list,
     calledAll (fetchCalls side pairs) w).
Proof.
  revert acc w. induction pairs as [|x pairs IH]; intros acc w Hok; simpl.
  - unfold openOrders. simpl. by rewrite app_nil_r, calledAll_nil.
  - pose proof (Hok 0%nat x eq_refl) as H0. unfold fetchAnswer in H0. simpl in H0.
    rewrite app_nil_r in H0.
    destruct (GetOrders (w_Log w) "" side "100" "" (p_FirstCurrency x))
      as [orders err] eqn:Hg. simpl in H0. subst err.
    rewrite IH.
    + rewrite calledAll_called. f_equal. f_equal. rewrite <- app_assoc. f_equal.
      unfold openOrders. rewrite imap_cons. simpl. f_equal.
      * unfold fetchAnswer. simpl. by rewrite app_nil_r, Hg.
      * f_equal. apply imap_ext. intros i p _. simpl. by rewrite fetchAnswer_cons.
    + intros i p Hi. simpl. rewrite <- fetchAnswer_cons. by apply (Hok (S i)).
Qed.

Lemma batchAnswer_cons (h : Base) (accountID : string) (x : CurrencyPair)
    (pairs : list CurrencyPair) (before : list Call) (i : nat) (p : CurrencyPair) :
  batchAnswer Display CancelOpenOrdersBatch h accountID (x :: pairs) before (S i) p
  = batchAnswer Display CancelOpenOrdersBatch h accountID pairs
      (before ++ [CallCancelOpenOrdersBatch accountID
                    (FormatExchangeCurrency Display h x AssetTypeSpot)])%list i p.
Proof. unfold batchAnswer. simpl. by rewrite <- app_assoc. Qed.

(** The loop of Huobi's [CancelAllOrders] goes past the pairs whose batch
    reports neither a transport error nor a failed order. *)
Lemma cancelBatches_clean (h : Base) (accountID : string)
    (pre rest : list CurrencyPair) (w : World) :
  (∀ i p, pre !! i = Some p →
          ∃ r, batchAnswer Display CancelOpenOrdersBatch h accountID pre (w_Log w) i p
                 = (r, None) ∧ (Huobi.Data_FailedCount r ≤ 0)%Z) →
  Huobi.cancelBatches Display CancelOpenOrdersBatch h accountID (pre ++ rest) w
  = Huobi.cancelBatches Display CancelOpenOrdersBatch h accountID rest
      (calledAll (batchCalls Display h accountID pre) w).
Proof.
  revert w. induction pre as [|x pre IH]; intros w Hok; simpl.
  - by rewrite calledAll_nil.
  - destruct (Hok 0%nat x eq_refl) as (r & Hr & Hle).
    unfold batchAnswer in Hr. simpl in Hr. rewrite app_nil_r in Hr. rewrite Hr.
    apply Z.ltb_ge in Hle. rewrite Hle.
    rewrite IH.
    + by rewrite calledAll_called.
    + intros i p Hi. simpl. rewrite <- batchAnswer_cons. by apply (Hok (S i)).
Qed.

(** C6 (as amended).  Bithumb's [CancelAllOrders] is best-effort: when the
    venue answers the open-order request of every enabled pair, the call
    attempts the cancellation of every order the venue reported, in order,
    whatever the earlier attempts returned; the order-status map has an
    entry for an order ID exactly when an attempt for that ID failed, holding
    the reason of such an attempt; and the overall result is not an error.
    Huobi's [CancelAllOrders] instead returns an overall error and an empty
    map at the first enabled pair whose batch cancellation reports a failed
    order, wherever that pair stands in the list; the pairs after it are not
    attempted. *)
Theorem CancelAllOrders_best_effort (b h : Base) (w : World)
    (orderCancellation : OrderCancellation) :
  (let side := oc_Side orderCancellation in
   let currency := p_FirstCurrency (oc_CurrencyPair orderCancellation) in
   let pairs := GetEnabledPairs FormatPairs b AssetTypeSpot in
   let allOrders := openOrders GetOrders side pairs (w_Log w) in
   let before := (w_Log w ++ fetchCalls side pairs)%list in
   (∀ i p, pairs !! i = Some p →
           snd (fetchAnswer GetOrders side pairs (w_Log w) i p) = None) →
   ∃ status w2,
     Bithumb.CancelAllOrders FormatPairs GetOrders CancelTrade b w orderCancellation
       = (({| OrderStatus := status |}, None), w2) ∧
     w_Log w2 = (before ++ cancelCalls side currency allOrders)%list ∧
     (∀ id, is_Some (status !! id) ↔
            ∃ msg, attemptFails CancelTrade side currency allOrders before id msg) ∧
     (∀ id msg, status !! id = Some msg →
                attemptFails CancelTrade side currency allOrders before id msg)) ∧
  (∀ pre currency rest resp,
     let accountID := oc_AccountID orderCancellation in
     GetEnabledPairs FormatPairs h AssetTypeSpot = (pre ++ currency :: rest)%list →
     (∀ i p, pre !! i = Some p →
             ∃ r, batchAnswer Display CancelOpenOrdersBatch h accountID pre (w_Log w) i p
                    = (r, None) ∧ (Huobi.Data_FailedCount r ≤ 0)%Z) →
     CancelOpenOrdersBatch (w_Log w ++ batchCalls Display h accountID pre)%list accountID
       (FormatExchangeCurrency Display h currency AssetTypeSpot) = (resp, None) →
     (0 < Huobi.Data_FailedCount resp)%Z →
     Huobi.CancelAllOrders FormatPairs Display CancelOpenOrdersBatch h w orderCancellation
       = (({| OrderStatus := ∅ |},
           Some (pretty (Huobi.Data_FailedCount resp) ++ " orders failed to cancel")),
          calledAll (batchCalls Display h accountID (pre ++ [currency])) w)).
Proof.
  split.
  - intros side currency pairs allOrders before Hok.
    unfold Bithumb.CancelAllOrders. fold side pairs.
    rewrite (collectOrders_spec side pairs [] w Hok). cbn [OrderStatus app].
    fold allOrders.
    pose proof (cancelEach_spec side currency allOrders ∅
                  (calledAll (fetchCalls side pairs) w)) as Hspec.
    fold currency.
    destruct (Bithumb.cancelEach CancelTrade side currency allOrders ∅
                (calledAll (fetchCalls side pairs) w)) as [status w2].
    simpl in Hspec. fold before in Hspec.
    destruct Hspec as (Hlog & _ & Hdom & Hval).
    exists status, w2. split; [reflexivity|]. split; [exact Hlog|]. split.
    + intros id. rewrite Hdom. rewrite lookup_empty. split.
      * intros [[x Hx]|H]; [discriminate|done].
      * intros H. by right.
    + intros id msg Hs. destruct (Hval id msg Hs) as [H|H]; [|done].
      rewrite lookup_empty in H. discriminate.
  - intros pre currency rest resp accountID Hp Hclean Hb Hf.
    unfold Huobi.CancelAllOrders. fold accountID. rewrite Hp.
    rewrite (cancelBatches_clean h accountID pre (currency :: rest) w Hclean).
    cbn [Huobi.cancelBatches].
    change (w_Log (calledAll (batchCalls Display h accountID pre) w))
      with (w_Log w ++ batchCalls Display h accountID pre)%list.
    rewrite Hb. apply Z.ltb_lt in Hf. rewrite Hf.
    f_equal. unfold called, calledAll, batchCalls. simpl.
    by rewrite map_app, app_assoc.
Qed.

End CancelAll.

(** ** Config reconciler: feature flags and endpoint URLs *)

Section Reconciler.

Variable APIURLNonDefaultMessage : string.
Variable Base64Decode : string -> string * error.
Variable url_Parse : string -> string * error.
Variable RequiresRateLimiter : Requester -> bool.

Lemma SetHTTPClientTimeout_endpoints (t : Z) (e e' : Base) :
  SetHTTPClientTimeout t e = Returns e' → endpointsView e' = endpointsView e.
Proof.
  unfold SetHTTPClientTimeout, checkAndInitRequester. intros H.
  destruct (b_Requester e) eqn:Er; simpl in H; rewrite ?Er in H; simpl in H;
    injection H as <-; reflexivity.
Qed.

Lemma SetHTTPClientUserAgent_endpoints (ua : string) (e e' : Base) :
  SetHTTPClientUserAgent ua e = Returns e' → endpointsView e' = endpointsView e.
Proof.
  unfold SetHTTPClientUserAgent, checkAndInitRequester. intros H.
  destruct (b_Requester e) eqn:Er; simpl in H; rewrite ?Er in H; simpl in H;
    injection H as <-; reflexivity.
Qed.

Lemma SetHTTPRateLimiter_endpoints (e e' : Base) :
  SetHTTPRateLimiter RequiresRateLimiter e = Returns e' →
  endpointsView e' = endpointsView e.
Proof.
  unfold SetHTTPRateLimiter, checkAndInitRequester, endpointsView. intros H.
  destruct (b_Requester e) as [r|] eqn:Er; simpl in H; rewrite ?Er in H; simpl in H;
    (destruct (RequiresRateLimiter _); simpl in H;
     [destruct (b_Config e) as [c|] eqn:Ec; simpl in H; [|discriminate];
      destruct (ec_HTTPRateLimiter c); simpl in H;
      injection H as <-; simpl; rewrite ?Ec; reflexivity
     |injection H as <-; reflexivity]).
Qed.

Lemma SetCurrencyPairFormat_endpoints (e e' : Base) :
  SetCurrencyPairFormat e = Returns e' → endpointsView e' = endpointsView e.
Proof.
  unfold SetCurrencyPairFormat, endpointsView. intros H.
  destruct (b_Config e) as [c|] eqn:Ec; simpl in H; [|discriminate].
  match type of H with
  | (?m ≫= _) = _ => destruct m as [cp|]; simpl in H; [|discriminate]
  end.
  injection H as <-. reflexivity.
Qed.

Lemma SetAssetTypes_endpoints (e e' : Base) :
  SetAssetTypes e = Returns e' → endpointsView e' = endpointsView e.
Proof.
  unfold SetAssetTypes, endpointsView. intros H.
  destruct (b_Config e) as [c|] eqn:Ec; simpl in H; [|discriminate].
  destruct (ec_CurrencyPairs c) as [cp|]; simpl in H; [|discriminate].
  destruct (cps_AssetTypes cp =? ""); [injection H as <-; reflexivity|].
  destruct (negb _); injection H as <-; simpl; rewrite ?Ec; reflexivity.
Qed.

Lemma SetFeatureDefaults_endpoints (now : Z) (e e' : Base) :
  SetFeatureDefaults now e = Returns e' → endpointsView e' = endpointsView e.
Proof.
  unfold SetFeatureDefaults, endpointsView. intros H.
  destruct (b_Config e) as [c|] eqn:Ec; simpl in H; [|discriminate].
  destruct (ec_Features c) as [f|].
  - match type of H with
    | (?m ≫= _) = _ => destruct m as [[f' c']|] eqn:Em; simpl in H; [|discriminate]
    end.
    injection H as <-. simpl.
    assert (ec_API c' = ec_API c) as ->; [|reflexivity].
    destruct (negb (Bool.eqb _ _)); simpl in Em; [|by injection Em as _ <-].
    destruct (negb _); simpl in Em; [|by injection Em as _ <-].
    destruct (ec_CurrencyPairs c); simpl in Em; [|discriminate].
    by injection Em as _ <-.
  - match type of H with
    | (?m ≫= _) = _ => destruct m as [[[s c'] e1]|] eqn:Em; simpl in H; [|discriminate]
    end.
    injection H as <-. simpl.
    assert (ec_API c' = ec_API c ∧ b_API e1 = b_API e) as [-> ->]; [|reflexivity].
    destruct (ec_SupportsAutoPairUpdates c); simpl in Em;
      [by injection Em as _ <- <-|].
    destruct (negb _); simpl in Em; [|by injection Em as _ <- <-].
    destruct (ec_CurrencyPairs c); simpl in Em; [|discriminate].
    by injection Em as _ <- <-.
Qed.

(** The endpoint step on its own. *)
Lemma SetAPIURL_spec (e : Base) (c : ExchangeConfig) :
  b_Config e = Some c →
  let ends := ac_Endpoints (ec_API c) in
  ∃ err e',
    SetAPIURL APIURLNonDefaultMessage e = Returns (err, e') ∧
    (aec_URL ends = "" ∨ aec_URLSecondary ends = "" →
     err = Some ("exchange " ++ b_Name e ++ ": SetAPIURL error. URL vals are empty")
     ∧ e' = e) ∧
    (aec_URL ends ≠ "" → aec_URLSecondary ends ≠ "" →
     err = None ∧
     GetAPIURL e' = (if aec_URL ends =? APIURLNonDefaultMessage
                     then GetAPIURL e else aec_URL ends) ∧
     GetSecondaryAPIURL e' = (if aec_URLSecondary ends =? APIURLNonDefaultMessage
                              then GetSecondaryAPIURL e else aec_URLSecondary ends) ∧
     ep_URLDefault (api_Endpoints (b_API e')) = ep_URLDefault (api_Endpoints (b_API e)) ∧
     ep_URLSecondaryDefault (api_Endpoints (b_API e'))
       = ep_URLSecondaryDefault (api_Endpoints (b_API e))).
Proof.
  intros Hc ends. unfold SetAPIURL. rewrite Hc. simpl. fold ends.
  destruct (aec_URL ends =? "") eqn:E1; simpl.
  { apply String.eqb_eq in E1. eexists _, _. split; [reflexivity|]. split; [done|].
    intros H. done. }
  destruct (aec_URLSecondary ends =? "") eqn:E2; simpl.
  { apply String.eqb_eq in E2. eexists _, _. split; [reflexivity|]. split; [done|].
    intros _ H. done. }
  apply String.eqb_neq in E1, E2.
  eexists _, _. split; [reflexivity|]. split; [intros [H|H]; done|].
  intros _ _. unfold GetAPIURL, GetSecondaryAPIURL.
  destruct (aec_URL ends =? APIURLNonDefaultMessage),
    (aec_URLSecondary ends =? APIURLNonDefaultMessage); simpl; done.
Qed.

Lemma SetAPIURL_config (e e' : Base) (err : error) :
  SetAPIURL APIURLNonDefaultMessage e = Returns (err, e') → b_Config e' = b_Config e.
Proof.
  unfold SetAPIURL. intros H.
  destruct (b_Config e) as [c|] eqn:Ec; simpl in H; [|discriminate].
  destruct (_ || _); [by injection H as _ <-|].
  destruct (negb _), (negb _); injection H as _ <-; simpl; by rewrite ?Ec.
Qed.

Lemma SetAPICredentialDefaults_endpoints (e e' : Base) :
  SetAPICredentialDefaults e = Returns e' → endpointsView e' = endpointsView e.
Proof.
  unfold SetAPICredentialDefaults, endpointsView. intros H.
  destruct (b_Config e) as [c|] eqn:Ec; simpl in H; [|discriminate].
  injection H as <-. reflexivity.
Qed.

Lemma SetClientProxyAddress_endpoints (addr : string) (e e' : Base) (err : error) :
  SetClientProxyAddress url_Parse addr e = Returns (err, e') →
  endpointsView e' = endpointsView e.
Proof.
  unfold SetClientProxyAddress, endpointsView. intros H.
  destruct (negb _); [|by injection H as _ <-].
  destruct (url_Parse addr) as [proxy [m|]]; simpl in H; [by injection H as _ <-|].
  destruct (b_Requester e); simpl in H; [|discriminate].
  destruct (b_Websocket e); simpl in H; by injection H as _ <-.
Qed.

Lemma SetAPIKeys_endpoints (k s i : string) (e : Base) :
  endpointsView (SetAPIKeys Base64Decode k s i e) = endpointsView e.
Proof.
  unfold SetAPIKeys, endpointsView. simpl.
  destruct (RequiresBase64DecodeSecret _); [|reflexivity].
  destruct (Base64Decode s) as [r [m|]]; reflexivity.
Qed.

Lemma SetupDefaults_steps (now : Z) (e : Base) (exch : ExchangeConfig) :
  SetupDefaults APIURLNonDefaultMessage Base64Decode url_Parse RequiresRateLimiter
    now e exch =
  (e ← setupTimeout exch (setupHead Base64Decode e exch);
   exch ← deref (b_Config e);
   e ← SetHTTPClientUserAgent (ec_HTTPUserAgent exch) e;
   e ← SetHTTPRateLimiter RequiresRateLimiter e;
   e ← SetCurrencyPairFormat e;
   e ← SetAssetTypes e;
   e ← SetFeatureDefaults now e;
   '(_, e) ← SetAPIURL APIURLNonDefaultMessage e;
   e ← SetAPICredentialDefaults e;
   exch ← deref (b_Config e);
   '(_, e) ← SetClientProxyAddress url_Parse (ec_ProxyAddress exch) e;
   e ← SetHTTPRateLimiter RequiresRateLimiter e;
   exch ← deref (b_Config e);
   setupTail e exch).
Proof. reflexivity. Qed.

Lemma setupHead_endpoints (e : Base) (exch : ExchangeConfig) :
  endpointsView (setupHead Base64Decode e exch)
  = (api_Endpoints (b_API e), Some (ac_Endpoints (ec_API exch))).
Proof.
  unfold setupHead. cbv zeta.
  destruct (api_AuthenticatedSupport _); [|reflexivity].
  rewrite SetAPIKeys_endpoints. reflexivity.
Qed.

Lemma SetAPIKeys_config (k s i : string) (e : Base) :
  b_Config (SetAPIKeys Base64Decode k s i e) = b_Config e.
Proof.
  unfold SetAPIKeys. simpl.
  destruct (RequiresBase64DecodeSecret _); [|reflexivity].
  destruct (Base64Decode s) as [r [m|]]; reflexivity.
Qed.

Lemma setupHead_config (e : Base) (exch : ExchangeConfig) :
  b_Config (setupHead Base64Decode e exch) = Some exch.
Proof.
  unfold setupHead. cbv zeta.
  destruct (api_AuthenticatedSupport _); [|reflexivity].
  rewrite SetAPIKeys_config. reflexivity.
Qed.

Lemma setupTimeout_endpoints (exch : ExchangeConfig) (e e' : Base) :
  b_Config e = Some exch →
  setupTimeout exch e = Returns e' → endpointsView e' = endpointsView e.
Proof.
  unfold setupTimeout. intros Hc H. destruct (_ <=? _)%Z.
  - injection H as <-. unfold endpointsView. simpl. by rewrite Hc.
  - by apply SetHTTPClientTimeout_endpoints in H.
Qed.

Lemma setupTail_api (e e' : Base) (exch : ExchangeConfig) (err : error) :
  setupTail e exch = Returns (err, e') → b_API e' = b_API e.
Proof.
  unfold setupTail. cbv zeta. intros H.
  match type of H with
  | (?m ≫= _) = _ => destruct m as [e1|] eqn:E1; simpl in H; [|discriminate]
  end.
  match type of H with
  | (?m ≫= _) = _ => destruct m as [e2|] eqn:E2; simpl in H; [|discriminate]
  end.
  match type of H with
  | (?m ≫= _) = _ => destruct m as [e3|] eqn:E3; simpl in H; [|discriminate]
  end.
  injection H as _ <-.
  assert (b_API e3 = b_API e2) as ->.
  { destruct (fs_Websocket _); [|by injection E3 as <-].
    destruct (ec_Features exch); simpl in E3; [|discriminate].
    destruct (b_Websocket e2); simpl in E3; [|discriminate]. by injection E3 as <-. }
  assert (b_API e2 = b_API e1) as ->.
  { destruct (ts_Futures _); [|by injection E2 as <-].
    destruct (ec_CurrencyPairs exch); simpl in E2; [|discriminate].
    destruct (cps_Futures _); simpl in E2; [|discriminate]. by injection E2 as <-. }
  destruct (ts_Spot _); [|by injection E1 as <-].
  destruct (ec_CurrencyPairs exch); simpl in E1; [|discriminate].
  destruct (cps_Spot _); simpl in E1; [|discriminate]. by injection E1 as <-.
Qed.

(** Peel the first call off a sequence [m ≫= k] that returned. *)
Ltac bind_inv H x E :=
  match type of H with
  | (?m ≫= _) = Returns _ =>
      destruct m as [x|] eqn:E;
      [cbn beta iota delta [mbind outcome_bind] in H|discriminate H]
  end.

Lemma SetupDefaults_endpoints (now : Z) (e F : Base) (exch : ExchangeConfig)
    (err : error) :
  SetupDefaults APIURLNonDefaultMessage Base64Decode url_Parse RequiresRateLimiter
    now e exch = Returns (err, F) →
  ∃ e6 e7 c6 err7,
    b_Config e6 = Some c6 ∧
    ac_Endpoints (ec_API c6) = ac_Endpoints (ec_API exch) ∧
    api_Endpoints (b_API e6) = api_Endpoints (b_API e) ∧
    SetAPIURL APIURLNonDefaultMessage e6 = Returns (err7, e7) ∧
    api_Endpoints (b_API F) = api_Endpoints (b_API e7).
Proof.
  rewrite SetupDefaults_steps. intros H.
  bind_inv H e1 E1. bind_inv H c1 Ec1. bind_inv H e2 E2. bind_inv H e3 E3.
  bind_inv H e4 E4. bind_inv H e5 E5. bind_inv H e6 E6.
  bind_inv H r7 E7. destruct r7 as [err7 e7].
  bind_inv H e8 E8. bind_inv H c8 Ec8. bind_inv H r9 E9. destruct r9 as [err9 e9].
  bind_inv H e10 E10. bind_inv H c10 Ec10.
  apply setupTail_api in H.
  apply SetHTTPRateLimiter_endpoints in E10.
  apply SetClientProxyAddress_endpoints in E9.
  apply SetAPICredentialDefaults_endpoints in E8.
  apply SetFeatureDefaults_endpoints in E6.
  apply SetAssetTypes_endpoints in E5.
  apply SetCurrencyPairFormat_endpoints in E4.
  apply SetHTTPRateLimiter_endpoints in E3.
  apply SetHTTPClientUserAgent_endpoints in E2.
  apply setupTimeout_endpoints in E1; [|apply setupHead_config].
  rewrite E5, E4, E3, E2, E1, setupHead_endpoints in E6.
  rewrite E9, E8 in E10.
  unfold endpointsView in E6, E10.
  destruct (b_Config e6) as [c6|] eqn:Hc6; [|discriminate].
  injection E6 as E6a E6b. injection E10 as E10 _.
  exists e6, e7, c6, err7. rewrite H, E10. done.
Qed.

(** C4 (as amended).  The endpoint step [SetAPIURL] reports a configuration
    error when the primary or the secondary URL of the persisted config is
    empty, and then leaves the adapter's endpoints as they are; when both are
    non-empty it succeeds and each URL is taken from the persisted config
    unless it holds the non-default marker, in which case the adapter's own
    value is kept.  The endpoints of the adapter after [SetupDefaults] are
    those this step produces. *)
Theorem endpoint_resolution (now : Z) (e : Base) (exch : ExchangeConfig) :
  (∀ c, b_Config e = Some c →
     let ends := ac_Endpoints (ec_API c) in
     ∃ err e',
       SetAPIURL APIURLNonDefaultMessage e = Returns (err, e') ∧
       (aec_URL ends = "" ∨ aec_URLSecondary ends = "" →
        err = Some ("exchange " ++ b_Name e ++ ": SetAPIURL error. URL vals are empty")
        ∧ e' = e) ∧
       (aec_URL ends ≠ "" → aec_URLSecondary ends ≠ "" →
        err = None ∧
        GetAPIURL e' = (if aec_URL ends =? APIURLNonDefaultMessage
                        then GetAPIURL e else aec_URL ends) ∧
        GetSecondaryAPIURL e' = (if aec_URLSecondary ends =? APIURLNonDefaultMessage
                                 then GetSecondaryAPIURL e else aec_URLSecondary ends) ∧
        ep_URLDefault (api_Endpoints (b_API e')) = ep_URLDefault (api_Endpoints (b_API e)) ∧
        ep_URLSecondaryDefault (api_Endpoints (b_API e'))
          = ep_URLSecondaryDefault (api_Endpoints (b_API e)))) ∧
  (∀ err F,
     SetupDefaults APIURLNonDefaultMessage Base64Decode url_Parse RequiresRateLimiter
       now e exch = Returns (err, F) →
     let ends := ac_Endpoints (ec_API exch) in
     (aec_URL ends = "" ∨ aec_URLSecondary ends = "" →
      api_Endpoints (b_API F) = api_Endpoints (b_API e)) ∧
     (aec_URL ends ≠ "" → aec_URLSecondary ends ≠ "" →
      GetAPIURL F = (if aec_URL ends =? APIURLNonDefaultMessage
                     then GetAPIURL e else aec_URL ends) ∧
      GetSecondaryAPIURL F = (if aec_URLSecondary ends =? APIURLNonDefaultMessage
                              then GetSecondaryAPIURL e else aec_URLSecondary ends) ∧
      ep_URLDefault (api_Endpoints (b_API F)) = ep_URLDefault (api_Endpoints (b_API e)) ∧
      ep_URLSecondaryDefault (api_Endpoints (b_API F))
        = ep_URLSecondaryDefault (api_Endpoints (b_API e)))).
Proof.
  split; [apply SetAPIURL_spec|].
  intros err F H ends.
  destruct (SetupDefaults_endpoints now e F exch err H)
    as (e6 & e7 & c6 & err7 & Hc6 & Hends & He6 & H7 & HF).
  destruct (SetAPIURL_spec e6 c6 Hc6) as (err' & e' & H7' & Hbad & Hgood).
  rewrite H7 in H7'. injection H7' as <- <-.
  rewrite Hends in Hbad, Hgood. fold ends in Hbad, Hgood.
  unfold GetAPIURL, GetSecondaryAPIURL in *. rewrite HF. split.
  - intros Hb. destruct (Hbad Hb) as [_ ->]. exact He6.
  - intros H1 H2. destruct (Hgood H1 H2) as (_ & -> & -> & -> & ->).
    rewrite He6. done.
Qed.

End Reconciler.

(** C4, the claim as first stated, fails.  With a non-empty primary URL and
    an empty secondary URL [SetupDefaults] returns no error and the primary
    URL - which is not the marker - is not taken from the persisted config;
    and with both URLs empty [SetupDefaults] returns no error either. *)
Lemma SetupDefaults_ignores_empty_urls :
  aec_URL (ac_Endpoints (ec_API Demo.config_primary_only)) = "https://custom.example" ∧
  aec_URLSecondary (ac_Endpoints (ec_API Demo.config_primary_only)) = "" ∧
  returned (Demo.setup 0 Demo.bithumb Demo.config_primary_only)
    (λ r, fst r = None ∧ GetAPIURL (snd r) = "https://api.bithumb.com") ∧
  aec_URL (ac_Endpoints (ec_API (Demo.fresh_config Demo.bithumb))) = "" ∧
  aec_URLSecondary (ac_Endpoints (ec_API (Demo.fresh_config Demo.bithumb))) = "" ∧
  returned (Demo.setup 0 Demo.bithumb (Demo.fresh_config Demo.bithumb))
    (λ r, fst r = None).
Proof. vm_compute. repeat split. Qed.

Lemma endpoint_resolution_witness :
  returned (Demo.setup 0 Demo.bithumb Demo.config_both_urls)
    (λ r, GetAPIURL (snd r) = "https://custom.example" ∧
          GetSecondaryAPIURL (snd r)
            = ep_URLSecondary (api_Endpoints (b_API Demo.bithumb))).
Proof.
  pose proof (proj2 (endpoint_resolution Demo.APIURLNonDefaultMessage Demo.Base64Decode
              Demo.url_Parse Demo.RequiresRateLimiter 0 Demo.bithumb
              Demo.config_both_urls)) as Hs.
  unfold Demo.setup.
  destruct (SetupDefaults _ _ _ _ _ _ _) as [[err F]|] eqn:H;
    [|vm_compute in H; discriminate H].
  specialize (Hs err F eq_refl). cbv zeta in Hs. destruct Hs as [_ Hgood].
  assert (H1 : aec_URL (ac_Endpoints (ec_API Demo.config_both_urls)) ≠ "")
    by (vm_compute; discriminate).
  assert (H2 : aec_URLSecondary (ac_Endpoints (ec_API Demo.config_both_urls)) ≠ "")
    by (vm_compute; discriminate).
  destruct (Hgood H1 H2) as (G1 & G2 & _). clear Hgood H.
  split; [exact G1|exact G2].
Defined.

(** ** Config reconciler: the steps in closed form *)

Lemma cfg_Some (e : Base) (c : ExchangeConfig) : b_Config e = Some c → cfg e = c.
Proof. unfold cfg. by intros ->. Qed.

Lemma cpairs_Some (c : ExchangeConfig) (cp : CurrencyPairsConfig) :
  ec_CurrencyPairs c = Some cp → cpairs c = cp.
Proof. unfold cpairs. by intros ->. Qed.

Lemma features_Some (c : ExchangeConfig) (f : FeaturesConfig) :
  ec_Features c = Some f → features c = f.
Proof. unfold features. by intros ->. Qed.

Lemma initRequester_Some (e : Base) (r : Requester) :
  b_Requester e = Some r → initRequester e = r.
Proof. unfold initRequester. by intros ->. Qed.

Section Closed.

Variable APIURLNonDefaultMessage : string.
Variable Base64Decode : string -> string * error.
Variable url_Parse : string -> string * error.
Variable RequiresRateLimiter : Requester -> bool.

Lemma setupHead_closed (e : Base) (exch : ExchangeConfig) :
  setupHead Base64Decode e exch = after_setupHead Base64Decode e exch.
Proof.
  unfold setupHead, after_setupHead, SetAPIKeys. destruct e as [? ? ? ? ? [] ? ? ? ? ? ? ?].
  cbn. destruct (ac_AuthenticatedSupport (ec_API exch)); [|reflexivity]. cbn.
  destruct (RequiresBase64DecodeSecret _); [|reflexivity]. cbn.
  destruct (Base64Decode _) as [r [m|]]; reflexivity.
Qed.

Lemma checkAndInitRequester_closed (e : Base) :
  checkAndInitRequester e = set_b_Requester (Some (initRequester e)) e.
Proof.
  unfold checkAndInitRequester, initRequester.
  destruct e as [? ? ? ? ? ? ? ? ? ? rq ? ?]; cbn. destruct rq; reflexivity.
Qed.

Lemma SetHTTPClientTimeout_closed (t : Z) (e : Base) :
  SetHTTPClientTimeout t e = Returns (after_SetHTTPClientTimeout t e).
Proof.
  unfold SetHTTPClientTimeout. rewrite checkAndInitRequester_closed. reflexivity.
Qed.

Lemma SetHTTPClientUserAgent_closed (e : Base) :
  SetHTTPClientUserAgent (ec_HTTPUserAgent (cfg e)) e
  = Returns (after_SetHTTPClientUserAgent e).
Proof.
  unfold SetHTTPClientUserAgent. rewrite checkAndInitRequester_closed. reflexivity.
Qed.

Lemma SetHTTPRateLimiter_closed (e : Base) :
  is_Some (b_Config e) →
  SetHTTPRateLimiter RequiresRateLimiter e
  = Returns (after_SetHTTPRateLimiter RequiresRateLimiter e).
Proof.
  intros [c Hc]. unfold SetHTTPRateLimiter, after_SetHTTPRateLimiter.
  rewrite checkAndInitRequester_closed, (cfg_Some e c Hc).
  destruct e as [? ? ? ? ? ? ? ? ? ? rq ? cf]. cbn in Hc. subst cf.
  destruct c as [? ? ? ? ? lim ? ? ? ? ? ?]. cbn.
  match goal with |- context [RequiresRateLimiter ?r] => generalize r; intros r0 end.
  destruct (RequiresRateLimiter r0); [|reflexivity]. cbn.
  destruct r0 as [? ? ? [] []].
  destruct lim as [[[] []]|]; reflexivity.
Qed.

Lemma SetCurrencyPairFormat_closed (e : Base) :
  is_Some (b_Config e) →
  SetCurrencyPairFormat e = Returns (after_SetCurrencyPairFormat e).
Proof.
  intros [c Hc].
  unfold SetCurrencyPairFormat, after_SetCurrencyPairFormat, fill, copy_format, cpairs.
  rewrite (cfg_Some e c Hc), Hc. cbn.
  destruct (ec_CurrencyPairs c) as [[rf cf at_ lu sp fu]|]; cbn;
    destruct (ts_Spot _), (cp_UseGlobalPairFormat _); cbn;
    try (destruct sp as [[srf scf sen sav]|]; cbn);
    try (destruct rf, cf; cbn);
    try (destruct srf, scf; cbn);
    try (destruct (cp_RequestFormat (b_CurrencyPairs e)),
           (cp_ConfigFormat (b_CurrencyPairs e)));
    try (destruct (ap_RequestFormat (cp_Spot (b_CurrencyPairs e))),
           (ap_ConfigFormat (cp_Spot (b_CurrencyPairs e))));
    reflexivity.
Qed.

Lemma SetAssetTypes_closed (e : Base) :
  is_Some (b_Config e) → is_Some (ec_CurrencyPairs (cfg e)) →
  SetAssetTypes e = Returns (after_SetAssetTypes e).
Proof.
  intros [c Hc]. rewrite (cfg_Some e c Hc). intros [cp Hcp].
  unfold SetAssetTypes, after_SetAssetTypes.
  rewrite (cfg_Some e c Hc), (cpairs_Some c cp Hcp), Hc.
  cbn [mbind outcome_bind deref]. rewrite Hcp. cbn [mbind outcome_bind deref].
  cbv zeta. destruct cp as [rf cf old lu sp fu]. cbn [cps_AssetTypes].
  set (joined := AssetTypes_JoinToString _ _).
  destruct (old =? "") eqn:E1; [reflexivity|].
  destruct (old =? joined) eqn:E2; cbn [negb andb].
  - apply String.eqb_eq in E2. rewrite <- E2.
    destruct e as [? ? ? ? ? ? ? ? ? ? ? ? cf0], c as [? ? ? ? ? ? ? ? cp0 ? ? ?].
    cbn in Hc, Hcp. subst cf0 cp0. reflexivity.
  - destruct (IsAssetTypeSupported e AssetTypeFutures); reflexivity.
Qed.

Lemma SetFeatureDefaults_closed (now : Z) (e : Base) :
  is_Some (b_Config e) → is_Some (ec_Features (cfg e)) →
  is_Some (ec_CurrencyPairs (cfg e)) →
  SetFeatureDefaults now e = Returns (after_SetFeatureDefaults now e).
Proof.
  intros [c Hc]. rewrite (cfg_Some e c Hc). intros [f Hf] [cp Hcp].
  unfold SetFeatureDefaults, after_SetFeatureDefaults.
  rewrite (cfg_Some e c Hc), (cpairs_Some c cp Hcp), (features_Some c f Hf), Hc.
  cbn. rewrite Hf.
  destruct f as [[rest [auto tb] ws tr] en]. cbn.
  destruct e as [? ? ? ? ? ? ? ? [[erest [eauto etb] ews ewc etr] een] ? ? ? ?].
  cbn in *. subst. destruct c; cbn in *. subst. destruct cp. cbn.
  destruct eauto, auto, erest, rest, tb, ews, ws; reflexivity.
Qed.

Lemma SetAPIURL_closed (e : Base) :
  is_Some (b_Config e) →
  ∃ err, SetAPIURL APIURLNonDefaultMessage e
         = Returns (err, after_SetAPIURL APIURLNonDefaultMessage e).
Proof.
  intros [c Hc]. unfold SetAPIURL, after_SetAPIURL.
  rewrite (cfg_Some e c Hc), Hc. cbn.
  destruct e as [? ? ? ? ? [? ? [] ? ?] ? ? ? ? ? ? ?]. cbn.
  destruct (_ || _); cbn; [by eexists|].
  destruct (_ =? APIURLNonDefaultMessage), (_ =? APIURLNonDefaultMessage);
    by eexists.
Qed.

Lemma validator_reconciled (own v : APICredentialsValidator) :
  (let v := if negb (Bool.eqb (RequiresKey v) (RequiresKey own))
            then set_RequiresKey (RequiresKey own) v else v in
   let v := if negb (Bool.eqb (RequiresSecret v) (RequiresSecret own))
            then set_RequiresSecret (RequiresSecret own) v else v in
   let v := if negb (Bool.eqb (RequiresBase64DecodeSecret v)
                       (RequiresBase64DecodeSecret own))
            then set_RequiresBase64DecodeSecret (RequiresBase64DecodeSecret own) v
            else v in
   let v := if negb (Bool.eqb (RequiresClientID v) (RequiresClientID own))
            then set_RequiresClientID (RequiresClientID own) v else v in
   if negb (Bool.eqb (RequiresPEM v) (RequiresPEM own))
   then set_RequiresPEM (RequiresPEM own) v else v) = own.
Proof.
  destruct own as [p k s i b], v as [p' k' s' i' b']. cbn.
  destruct k, k'; cbn; destruct s, s'; cbn; destruct b, b'; cbn;
    destruct i, i'; cbn; destruct p, p'; reflexivity.
Qed.

Lemma SetAPICredentialDefaults_closed (e : Base) :
  is_Some (b_Config e) →
  SetAPICredentialDefaults e = Returns (after_SetAPICredentialDefaults e).
Proof.
  intros [c Hc]. unfold SetAPICredentialDefaults, after_SetAPICredentialDefaults.
  rewrite (cfg_Some e c Hc), Hc. cbn [mbind outcome_bind deref].
  cbv zeta. rewrite validator_reconciled. reflexivity.
Qed.

Lemma SetClientProxyAddress_closed (e : Base) :
  is_Some (b_Requester e) →
  ∃ err, SetClientProxyAddress url_Parse (ec_ProxyAddress (cfg e)) e
         = Returns (err, after_SetClientProxyAddress url_Parse e).
Proof.
  intros [r Hr]. unfold SetClientProxyAddress, after_SetClientProxyAddress.
  rewrite (initRequester_Some e r Hr). generalize (ec_ProxyAddress (cfg e)) as addr.
  intros addr.
  destruct e as [? ? ? ? ? ? ? ? ? ? ? ws ?]; cbn in *. subst.
  destruct (addr =? ""); cbn; [by eexists|].
  destruct (url_Parse addr) as [proxy [m|]]; cbn; [by eexists|].
  destruct ws; by eexists.
Qed.

End Closed.

(** ** Config reconciler: idempotence *)

Section Idempotence.

Variable APIURLNonDefaultMessage : string.
Variable Base64Decode : string -> string * error.
Variable url_Parse : string -> string * error.
Variable RequiresRateLimiter : Requester -> bool.

(** What each closed form keeps or establishes. *)
Lemma after_SetHTTPClientTimeout_cfg (t : Z) (e : Base) :
  b_Config (after_SetHTTPClientTimeout t e) = b_Config e.
Proof. reflexivity. Qed.

Lemma after_SetHTTPClientUserAgent_cfg (e : Base) :
  b_Config (after_SetHTTPClientUserAgent e) = b_Config e.
Proof. reflexivity. Qed.

Lemma after_SetHTTPRateLimiter_ready (e : Base) :
  is_Some (b_Config (after_SetHTTPRateLimiter RequiresRateLimiter e)) ∧
  is_Some (b_Requester (after_SetHTTPRateLimiter RequiresRateLimiter e)) ∧
  ec_Features (cfg (after_SetHTTPRateLimiter RequiresRateLimiter e))
    = ec_Features (cfg e).
Proof. repeat split; by eexists. Qed.

Lemma after_SetCurrencyPairFormat_ready (e : Base) :
  is_Some (b_Config (after_SetCurrencyPairFormat e)) ∧
  is_Some (ec_CurrencyPairs (cfg (after_SetCurrencyPairFormat e))) ∧
  b_Requester (after_SetCurrencyPairFormat e) = b_Requester e ∧
  ec_Features (cfg (after_SetCurrencyPairFormat e)) = ec_Features (cfg e).
Proof. repeat split; by eexists. Qed.

Lemma after_SetAssetTypes_ready (e : Base) :
  is_Some (b_Config (after_SetAssetTypes e)) ∧
  is_Some (ec_CurrencyPairs (cfg (after_SetAssetTypes e))) ∧
  b_Requester (after_SetAssetTypes e) = b_Requester e ∧
  ec_Features (cfg (after_SetAssetTypes e)) = ec_Features (cfg e).
Proof. repeat split; by eexists. Qed.

Lemma after_SetFeatureDefaults_ready (now : Z) (e : Base) :
  is_Some (b_Config (after_SetFeatureDefaults now e)) ∧
  b_Requester (after_SetFeatureDefaults now e) = b_Requester e.
Proof. repeat split; by eexists. Qed.

Lemma after_SetAPIURL_ready (e : Base) :
  b_Config (after_SetAPIURL APIURLNonDefaultMessage e) = b_Config e ∧
  b_Requester (after_SetAPIURL APIURLNonDefaultMessage e) = b_Requester e.
Proof. repeat split. Qed.

Lemma after_SetAPICredentialDefaults_ready (e : Base) :
  is_Some (b_Config (after_SetAPICredentialDefaults e)) ∧
  b_Requester (after_SetAPICredentialDefaults e) = b_Requester e.
Proof. repeat split; by eexists. Qed.

Lemma after_SetClientProxyAddress_cfg (e : Base) :
  b_Config (after_SetClientProxyAddress url_Parse e) = b_Config e.
Proof. reflexivity. Qed.

Lemma deref_cfg (e : Base) :
  is_Some (b_Config e) → deref (b_Config e) = Returns (cfg e).
Proof. intros [c Hc]. by rewrite (cfg_Some e c Hc), Hc. Qed.

(** The call, cut after each step: from the state [x] reached so far, the
    remaining steps return what the remaining closed forms give. *)
Lemma rest_from_10 (x : Base) :
  is_Some (b_Config x) →
  (e ← SetHTTPRateLimiter RequiresRateLimiter x;
   exch ← deref (b_Config e); setupTail e exch)
  = let r := after_SetHTTPRateLimiter RequiresRateLimiter x in setupTail r (cfg r).
Proof.
  intros Hc. rewrite (SetHTTPRateLimiter_closed RequiresRateLimiter x Hc).
  cbn [mbind outcome_bind].
  destruct (after_SetHTTPRateLimiter_ready x) as (Hc' & _ & _).
  by rewrite (deref_cfg _ Hc').
Qed.

Lemma rest_from_9 (x : Base) :
  is_Some (b_Config x) → is_Some (b_Requester x) →
  (exch ← deref (b_Config x);
   '(_, e) ← SetClientProxyAddress url_Parse (ec_ProxyAddress exch) x;
   e ← SetHTTPRateLimiter RequiresRateLimiter e;
   exch ← deref (b_Config e); setupTail e exch)
  = let r := after_SetHTTPRateLimiter RequiresRateLimiter
               (after_SetClientProxyAddress url_Parse x) in
    setupTail r (cfg r).
Proof.
  intros Hc Hr. rewrite (deref_cfg x Hc). cbn [mbind outcome_bind].
  destruct (SetClientProxyAddress_closed url_Parse x Hr) as [err ->].
  cbn [mbind outcome_bind]. apply rest_from_10.
  by rewrite after_SetClientProxyAddress_cfg.
Qed.

Lemma rest_from_8 (x : Base) :
  is_Some (b_Config x) → is_Some (b_Requester x) →
  (e ← SetAPICredentialDefaults x;
   exch ← deref (b_Config e);
   '(_, e) ← SetClientProxyAddress url_Parse (ec_ProxyAddress exch) e;
   e ← SetHTTPRateLimiter RequiresRateLimiter e;
   exch ← deref (b_Config e); setupTail e exch)
  = let r := after_SetHTTPRateLimiter RequiresRateLimiter
               (after_SetClientProxyAddress url_Parse
                  (after_SetAPICredentialDefaults x)) in
    setupTail r (cfg r).
Proof.
  intros Hc Hr. rewrite (SetAPICredentialDefaults_closed x Hc).
  cbn [mbind outcome_bind].
  destruct (after_SetAPICredentialDefaults_ready x) as (Hc' & Hr').
  apply rest_from_9; [exact Hc'|by rewrite Hr'].
Qed.

Lemma rest_from_7 (x : Base) :
  is_Some (b_Config x) → is_Some (b_Requester x) →
  ('(_, e) ← SetAPIURL APIURLNonDefaultMessage x;
   e ← SetAPICredentialDefaults e;
   exch ← deref (b_Config e);
   '(_, e) ← SetClientProxyAddress url_Parse (ec_ProxyAddress exch) e;
   e ← SetHTTPRateLimiter RequiresRateLimiter e;
   exch ← deref (b_Config e); setupTail e exch)
  = let r := after_SetHTTPRateLimiter RequiresRateLimiter
               (after_SetClientProxyAddress url_Parse
                  (after_SetAPICredentialDefaults
                     (after_SetAPIURL APIURLNonDefaultMessage x))) in
    setupTail r (cfg r).
Proof.
  intros Hc Hr. destruct (SetAPIURL_closed APIURLNonDefaultMessage x Hc) as [err ->].
  cbn [mbind outcome_bind].
  destruct (after_SetAPIURL_ready x) as (Hc' & Hr').
  apply rest_from_8; [by rewrite Hc'|by rewrite Hr'].
Qed.

Lemma rest_from_6 (now : Z) (x : Base) :
  is_Some (b_Config x) → is_Some (b_Requester x) →
  is_Some (ec_Features (cfg x)) → is_Some (ec_CurrencyPairs (cfg x)) →
  (e ← SetFeatureDefaults now x;
   '(_, e) ← SetAPIURL APIURLNonDefaultMessage e;
   e ← SetAPICredentialDefaults e;
   exch ← deref (b_Config e);
   '(_, e) ← SetClientProxyAddress url_Parse (ec_ProxyAddress exch) e;
   e ← SetHTTPRateLimiter RequiresRateLimiter e;
   exch ← deref (b_Config e); setupTail e exch)
  = let r := after_SetHTTPRateLimiter RequiresRateLimiter
               (after_SetClientProxyAddress url_Parse
                  (after_SetAPICredentialDefaults
                     (after_SetAPIURL APIURLNonDefaultMessage
                        (after_SetFeatureDefaults now x)))) in
    setupTail r (cfg r).
Proof.
  intros Hc Hr Hf Hp. rewrite (SetFeatureDefaults_closed now x Hc Hf Hp).
  cbn [mbind outcome_bind].
  destruct (after_SetFeatureDefaults_ready now x) as (Hc' & Hr').
  apply rest_from_7; [exact Hc'|by rewrite Hr'].
Qed.

Lemma rest_from_3 (now : Z) (x : Base) :
  is_Some (b_Config x) → is_Some (ec_Features (cfg x)) →
  (e ← SetHTTPRateLimiter RequiresRateLimiter x;
   e ← SetCurrencyPairFormat e;
   e ← SetAssetTypes e;
   e ← SetFeatureDefaults now e;
   '(_, e) ← SetAPIURL APIURLNonDefaultMessage e;
   e ← SetAPICredentialDefaults e;
   exch ← deref (b_Config e);
   '(_, e) ← SetClientProxyAddress url_Parse (ec_ProxyAddress exch) e;
   e ← SetHTTPRateLimiter RequiresRateLimiter e;
   exch ← deref (b_Config e); setupTail e exch)
  = let r := after_SetHTTPRateLimiter RequiresRateLimiter
               (after_SetClientProxyAddress url_Parse
                  (after_SetAPICredentialDefaults
                     (after_SetAPIURL APIURLNonDefaultMessage
                        (after_SetFeatureDefaults now
                           (after_SetAssetTypes
                              (after_SetCurrencyPairFormat
                                 (after_SetHTTPRateLimiter RequiresRateLimiter x))))))) in
    setupTail r (cfg r).
Proof.
  intros Hc Hf. rewrite (SetHTTPRateLimiter_closed RequiresRateLimiter x Hc).
  cbn [mbind outcome_bind].
  destruct (after_SetHTTPRateLimiter_ready x) as (Hc3 & Hr3 & Hf3).
  rewrite <- Hf3 in Hf. clear Hf3 Hc.
  generalize dependent (after_SetHTTPRateLimiter RequiresRateLimiter x). intros x3 **.
  rewrite (SetCurrencyPairFormat_closed x3 Hc3). cbn [mbind outcome_bind].
  destruct (after_SetCurrencyPairFormat_ready x3) as (Hc4 & Hp4 & Hr4 & Hf4).
  rewrite <- Hf4 in Hf. rewrite <- Hr4 in Hr3. clear Hf4 Hr4 Hc3.
  generalize dependent (after_SetCurrencyPairFormat x3). intros x4 **.
  rewrite (SetAssetTypes_closed x4 Hc4 Hp4). cbn [mbind outcome_bind].
  destruct (after_SetAssetTypes_ready x4) as (Hc5 & Hp5 & Hr5 & Hf5).
  rewrite <- Hf5 in Hf. rewrite <- Hr5 in Hr3.
  by apply rest_from_6.
Qed.

Lemma SetupDefaults_closed (now : Z) (e : Base) (exch : ExchangeConfig) :
  is_Some (ec_Features exch) → (0 < ec_HTTPTimeout exch)%Z →
  SetupDefaults APIURLNonDefaultMessage Base64Decode url_Parse RequiresRateLimiter
    now e exch
  = let r := after_reconcile APIURLNonDefaultMessage Base64Decode url_Parse
               RequiresRateLimiter now e exch in
    setupTail r (cfg r).
Proof.
  intros Hf Ht. rewrite SetupDefaults_steps. unfold setupTimeout.
  apply Z.leb_gt in Ht. rewrite Ht. rewrite setupHead_closed.
  rewrite SetHTTPClientTimeout_closed. cbn [mbind outcome_bind].
  assert (Hc : is_Some (b_Config
                          (after_SetHTTPClientTimeout (ec_HTTPTimeout exch)
                             (after_setupHead Base64Decode e exch))))
    by (by eexists).
  rewrite (deref_cfg _ Hc). cbn [mbind outcome_bind].
  rewrite SetHTTPClientUserAgent_closed. cbn [mbind outcome_bind].
  apply rest_from_3; [exact Hc|exact Hf].
Qed.

End Idempotence.
Section Fields.

Variable APIURLNonDefaultMessage : string.
Variable Base64Decode : string -> string * error.
Variable url_Parse : string -> string * error.
Variable RequiresRateLimiter : Requester -> bool.

Lemma after_reconcile_fields (now : Z) (e : Base) (exch : ExchangeConfig) :
  after_reconcile APIURLNonDefaultMessage Base64Decode url_Parse RequiresRateLimiter
    now e exch
  = reconciled APIURLNonDefaultMessage Base64Decode url_Parse RequiresRateLimiter
      now e exch.
Proof.
  vm_compute. reflexivity.
Qed.

Lemma Base_ext (x y : Base) :
  b_Name x = b_Name y → b_Enabled x = b_Enabled y → b_Verbose x = b_Verbose y →
  b_LoadedByConfig x = b_LoadedByConfig y →
  b_APIWithdrawPermissions x = b_APIWithdrawPermissions y →
  b_API x = b_API y → b_BaseCurrencies x = b_BaseCurrencies y →
  b_CurrencyPairs x = b_CurrencyPairs y → b_Features x = b_Features y →
  b_HTTPUserAgent x = b_HTTPUserAgent y → b_Requester x = b_Requester y →
  b_Websocket x = b_Websocket y → b_Config x = b_Config y → x = y.
Proof.
  destruct x, y. cbn. intros. subst. reflexivity.
Qed.

Lemma ExchangeConfig_ext (x y : ExchangeConfig) :
  ec_Name x = ec_Name y → ec_Enabled x = ec_Enabled y → ec_Verbose x = ec_Verbose y →
  ec_HTTPTimeout x = ec_HTTPTimeout y → ec_HTTPUserAgent x = ec_HTTPUserAgent y →
  ec_HTTPRateLimiter x = ec_HTTPRateLimiter y → ec_ProxyAddress x = ec_ProxyAddress y →
  ec_BaseCurrencies x = ec_BaseCurrencies y → ec_CurrencyPairs x = ec_CurrencyPairs y →
  ec_API x = ec_API y → ec_Features x = ec_Features y →
  ec_SupportsAutoPairUpdates x = ec_SupportsAutoPairUpdates y → x = y.
Proof.
  destruct x, y. cbn. intros. subst. reflexivity.
Qed.

(** [SetHTTPRateLimiter] changes nothing when applied to its own result. *)
Lemma limited_settled (r : Requester) (lim : option HTTPRateLimitConfig) :
  limited RequiresRateLimiter (fst (limited RequiresRateLimiter r lim))
    (snd (limited RequiresRateLimiter r lim))
  = limited RequiresRateLimiter r lim.
Proof.
  unfold limited at 2 3 4. cbn [fst snd].
  destruct (RequiresRateLimiter r) eqn:Hr.
  - destruct lim as [[lu la]|]; destruct r as [n u h a un];
      unfold limited, set_rq_UnauthLimit, set_rq_AuthLimit; cbn;
      try rewrite Hr; try reflexivity;
      match goal with
      | |- context [RequiresRateLimiter ?x] => destruct (RequiresRateLimiter x)
      end; reflexivity.
  - unfold limited. rewrite Hr. reflexivity.
Qed.

Lemma limited_client (r : Requester) (lim : option HTTPRateLimitConfig) :
  rq_HTTPClient (fst (limited RequiresRateLimiter r lim)) = rq_HTTPClient r
  ∧ rq_UserAgent (fst (limited RequiresRateLimiter r lim)) = rq_UserAgent r.
Proof.
  unfold limited. cbn [fst].
  destruct (RequiresRateLimiter r); [destruct lim|]; split; reflexivity.
Qed.

Lemma proxied_client (addr : string) (r : Requester) :
  hc_Timeout (rq_HTTPClient (proxied url_Parse addr r)) = hc_Timeout (rq_HTTPClient r)
  ∧ rq_UserAgent (proxied url_Parse addr r) = rq_UserAgent r.
Proof.
  unfold proxied. destruct (proxyApplies url_Parse addr); split; reflexivity.
Qed.

Lemma proxied_settled (addr : string) (r r' : Requester) :
  rq_HTTPClient r' = rq_HTTPClient (proxied url_Parse addr r) →
  proxied url_Parse addr r' = r'.
Proof.
  unfold proxied. destruct (proxyApplies url_Parse addr); [|reflexivity].
  destruct r' as [n u [t p] a un], r as [n0 u0 [t0 p0] a0 un0]. cbn.
  intros [= -> ->]. reflexivity.
Qed.

Lemma timeout_settled (t : Z) (ua : string) (r : Requester) :
  hc_Timeout (rq_HTTPClient r) = t → rq_UserAgent r = ua →
  set_rq_UserAgent ua (set_rq_HTTPClient (set_hc_Timeout t (rq_HTTPClient r)) r) = r.
Proof.
  destruct r as [n u [t0 p] a un]. cbn. intros -> ->. reflexivity.
Qed.

(** The transport settings are stable: a second pass through the timeout,
    user agent, rate limiter and proxy steps gives the same requester and
    the same persisted limits. *)
Lemma transportOf_settled (e F : Base) (exch c : ExchangeConfig) :
  let t := transportOf url_Parse RequiresRateLimiter e exch in
  b_Requester F = Some (fst (fst t)) →
  ec_HTTPRateLimiter c = snd (fst t) →
  ec_HTTPTimeout c = ec_HTTPTimeout exch →
  ec_HTTPUserAgent c = ec_HTTPUserAgent exch →
  ec_ProxyAddress c = ec_ProxyAddress exch →
  fst (transportOf url_Parse RequiresRateLimiter F c) = fst t.
Proof.
  intros t Hr Hl Ht Hu Hp.
  unfold transportOf at 1. cbn [fst]. unfold initRequester.
  rewrite Hr, Hl, Ht, Hu, Hp. subst t. unfold transportOf. cbn [fst snd].
  set (r2 := set_rq_UserAgent _ (set_rq_HTTPClient _ (initRequester e))).
  set (l := limited RequiresRateLimiter r2 (ec_HTTPRateLimiter exch)).
  set (r4 := proxied url_Parse (ec_ProxyAddress exch) (fst l)).
  set (X := limited RequiresRateLimiter r4 (snd l)).
  assert (Hc : rq_HTTPClient (fst X) = rq_HTTPClient r4)
    by apply limited_client.
  assert (Ha : rq_UserAgent (fst X) = ec_HTTPUserAgent exch).
  { subst X. rewrite (proj2 (limited_client _ _)). subst r4.
    rewrite (proj2 (proxied_client _ _)). subst l.
    rewrite (proj2 (limited_client _ _)). reflexivity. }
  assert (Hto : hc_Timeout (rq_HTTPClient (fst X)) = ec_HTTPTimeout exch).
  { rewrite Hc. subst r4. rewrite (proj1 (proxied_client _ _)). subst l.
    rewrite (proj1 (limited_client _ _)). reflexivity. }
  assert (HX : limited RequiresRateLimiter (fst X) (snd X) = X)
    by apply limited_settled.
  rewrite (timeout_settled _ _ _ Hto Ha), HX.
  rewrite (proxied_settled _ (fst l) (fst X) Hc).
  exact HX.
Qed.

Lemma proxiedSocket_settled (addr : string) (b : bool) (v : bool)
    (w : option Websocket) :
  let w' := proxiedSocket url_Parse addr w in
  let g := if b then Websocket_SetEnabled v <$> w' else w' in
  proxiedSocket url_Parse addr g = g.
Proof.
  unfold proxiedSocket. destruct (proxyApplies url_Parse addr), b, w as [[]|];
    reflexivity.
Qed.

(** The credentials and endpoints are stable. *)
Lemma apiOf_settled (e F : Base) (exch c : ExchangeConfig) :
  let a := apiOf APIURLNonDefaultMessage Base64Decode e exch in
  b_API F = a →
  ec_API c = set_ac_CredentialsValidator (api_CredentialsValidator (b_API e))
               (ec_API exch) →
  apiOf APIURLNonDefaultMessage Base64Decode F c = a.
Proof.
  intros a HF Hc. subst a. unfold apiOf at 1. rewrite HF, Hc.
  unfold apiOf. cbn.
  destruct (ac_AuthenticatedSupport (ec_API exch));
    destruct (_ || _ || (aec_URL _ =? _));
    destruct (_ || _ || (aec_URLSecondary _ =? _)); reflexivity.
Qed.

(** The persisted pair section is stable, whatever the clock reads. *)
Lemma pairsOf_settled (now now' : Z) (e F : Base) (exch c : ExchangeConfig) :
  f_Supports (b_Features F) = f_Supports (b_Features e) →
  cp_UseGlobalPairFormat (b_CurrencyPairs F) = cp_UseGlobalPairFormat (b_CurrencyPairs e) →
  cp_RequestFormat (b_CurrencyPairs F) = cp_RequestFormat (b_CurrencyPairs e) →
  cp_ConfigFormat (b_CurrencyPairs F) = cp_ConfigFormat (b_CurrencyPairs e) →
  cp_AssetTypes (b_CurrencyPairs F) = cp_AssetTypes (b_CurrencyPairs e) →
  ap_RequestFormat (cp_Spot (b_CurrencyPairs F))
    = ap_RequestFormat (cp_Spot (b_CurrencyPairs e)) →
  ap_ConfigFormat (cp_Spot (b_CurrencyPairs F))
    = ap_ConfigFormat (cp_Spot (b_CurrencyPairs e)) →
  ec_CurrencyPairs c = Some (pairsOf now e exch) →
  ec_Features c = Some (featuresOf e exch) →
  pairsOf now' F c = pairsOf now e exch.
Proof.
  intros Hs Hg Hrf Hcf Hat Hsr Hsc Hcp Hfe.
  assert (Hcp' : cpairs c = pairsOf now e exch) by (unfold cpairs; by rewrite Hcp).
  assert (Hfe' : features c = featuresOf e exch) by (unfold features; by rewrite Hfe).
  unfold pairsOf at 1. unfold IsAssetTypeSupported at 1.
  rewrite Hs, Hg, Hrf, Hcf, Hat, Hsr, Hsc, Hcp', Hfe'.
  unfold pairsOf, featuresOf.
  cbn [cps_RequestFormat cps_ConfigFormat cps_AssetTypes cps_LastUpdated cps_Spot
       cps_Futures fc_Supports fsc_RESTCapabilities pfc_AutoPairUpdates].
  rewrite String.eqb_refl, Bool.eqb_reflx.
  rewrite andb_false_r. cbn [negb andb].
  destruct (cp_UseGlobalPairFormat (b_CurrencyPairs e));
    destruct (ts_Spot (fs_Trading (f_Supports (b_Features e))));
    destruct (cps_RequestFormat (cpairs exch));
    destruct (cps_ConfigFormat (cpairs exch));
    destruct (cps_Spot (cpairs exch)) as [[[] [] ? ?]|];
    reflexivity.
Qed.

(** When the last block returns, it returns no error and the state [tailOf]. *)
Lemma setupTail_tailOf (e F : Base) (exch : ExchangeConfig) (err : error) :
  setupTail e exch = Returns (err, F) → err = None ∧ F = tailOf e exch.
Proof.
  unfold setupTail, tailOf, cpairs, features.
  destruct e as [nm en vb lbc perm api bc [glob rf cf lu ats [? ? ? ?] [? ? ? ?]]
                   [[rest caps wsup wcaps [tspot tfut tmar tper tidx]] fen] ua rq wsk cfg0].
  destruct (ec_CurrencyPairs exch) as [[? ? ? ? [s|] [f|]]|];
    destruct (ec_Features exch) as [f0|]; destruct wsk as [[]|];
    destruct tspot, tfut, wsup; cbn; try discriminate;
    intros [= <- <-]; split; reflexivity.
Qed.

(** The last block changes nothing when applied to its own result. *)
Lemma setupTail_settled (e F : Base) (exch : ExchangeConfig) (err : error) :
  setupTail e exch = Returns (err, F) → setupTail F exch = Returns (None, F).
Proof.
  unfold setupTail.
  destruct e as [nm en vb lbc perm api bc [glob rf cf lu ats [? ? ? ?] [? ? ? ?]]
                   [[rest caps wsup wcaps [tspot tfut tmar tper tidx]] fen] ua rq wsk cfg0].
  destruct (ec_CurrencyPairs exch) as [[? ? ? ? [s|] [f|]]|];
    destruct (ec_Features exch) as [f0|]; destruct wsk as [[]|];
    destruct tspot, tfut, wsup; cbn; try discriminate;
    intros [= <- <-]; reflexivity.
Qed.

(** A second reconciliation of the finished state against its own
    written-back configuration changes nothing, whatever the clock reads. *)
Lemma reconciled_settled (now now' : Z) (e : Base) (exch : ExchangeConfig) :
  let R := reconciled APIURLNonDefaultMessage Base64Decode url_Parse
             RequiresRateLimiter now e exch in
  reconciled APIURLNonDefaultMessage Base64Decode url_Parse RequiresRateLimiter
    now' (tailOf R (cfg R)) (cfg R)
  = tailOf R (cfg R).
Proof.
  intros R.
  set (F := tailOf R (cfg R)). set (c := cfg R).
  assert (Ht : fst (transportOf url_Parse RequiresRateLimiter F c)
               = fst (transportOf url_Parse RequiresRateLimiter e exch))
    by (apply transportOf_settled; reflexivity).
  apply Base_ext.
  - reflexivity.
  - reflexivity.
  - reflexivity.
  - reflexivity.
  - reflexivity.
  - change (apiOf APIURLNonDefaultMessage Base64Decode F c
            = apiOf APIURLNonDefaultMessage Base64Decode e exch).
    apply apiOf_settled; reflexivity.
  - reflexivity.
  - reflexivity.
  - reflexivity.
  - reflexivity.
  - change (Some (fst (fst (transportOf url_Parse RequiresRateLimiter F c)))
            = Some (fst (fst (transportOf url_Parse RequiresRateLimiter e exch)))).
    by rewrite Ht.
  - apply (proxiedSocket_settled (ec_ProxyAddress exch)
             (fs_Websocket (f_Supports (b_Features e)))
             (fec_Websocket (fc_Enabled (features exch))) (b_Websocket e)).
  - change (b_Config F) with (Some c).
    change (b_Config (reconciled APIURLNonDefaultMessage Base64Decode url_Parse
                        RequiresRateLimiter now' F c))
      with (Some (cfg (reconciled APIURLNonDefaultMessage Base64Decode url_Parse
                         RequiresRateLimiter now' F c))).
    f_equal. apply ExchangeConfig_ext; try reflexivity.
    + change (snd (fst (transportOf url_Parse RequiresRateLimiter F c))
              = snd (fst (transportOf url_Parse RequiresRateLimiter e exch))).
      by rewrite Ht.
    + change (Some (pairsOf now' F c) = Some (pairsOf now e exch)).
      f_equal. apply pairsOf_settled; reflexivity.
Qed.

(** C2 (amended).  For a persisted configuration that already has a Features
    section and a positive HTTP timeout, a run of [SetupDefaults] that
    returns leaves a state on which a second run, given the written-back
    configuration and any clock reading, returns without error and changes
    nothing: the exchange base, and with it the written-back configuration
    it holds, is the same after two runs as after one. *)
Theorem SetupDefaults_idempotent (now now' : Z) (e F : Base) (exch : ExchangeConfig)
    (err : error) :
  is_Some (ec_Features exch) → (0 < ec_HTTPTimeout exch)%Z →
  SetupDefaults APIURLNonDefaultMessage Base64Decode url_Parse RequiresRateLimiter
    now e exch = Returns (err, F) →
  ∃ c, b_Config F = Some c
       ∧ SetupDefaults APIURLNonDefaultMessage Base64Decode url_Parse
           RequiresRateLimiter now' F c = Returns (None, F).
Proof.
  intros Hf Ht H.
  rewrite (SetupDefaults_closed _ _ _ _ _ _ _ Hf Ht) in H. cbv zeta in H.
  rewrite after_reconcile_fields in H.
  set (R := reconciled APIURLNonDefaultMessage Base64Decode url_Parse
              RequiresRateLimiter now e exch) in *.
  pose proof (setupTail_settled _ _ _ _ H) as H2.
  apply setupTail_tailOf in H as [-> ->].
  exists (cfg R). split; [reflexivity|].
  rewrite SetupDefaults_closed; [|by eexists|exact Ht].
  cbv zeta. rewrite after_reconcile_fields.
  pose proof (reconciled_settled now now' e exch) as K.
  cbv zeta in K. fold R in K. rewrite K.
  exact H2.
Qed.

End Fields.
(** ** The claims at concrete adapters *)

(** C2 as stated fails on a first-ever configuration (one without a
    Features section): the first run of [SetupDefaults] on Bithumb's defaults
    writes back a Features section whose ticker-batching flag is off, the
    second run, given the state and the configuration the first one left,
    turns it on.  Both runs return no error; the clock is the same. *)
Lemma SetupDefaults_second_run_differs :
  returned (Demo.setup 0 Demo.bithumb (Demo.fresh_config Demo.bithumb)) (λ r1,
    fst r1 = None ∧ is_Some (writtenBack (snd r1)) ∧
    returned (Demo.setup 0 (snd r1) (cfg (snd r1))) (λ r2,
      fst r2 = None ∧
      Demo.persistedTickerBatching (snd r1) = Some false ∧
      Demo.persistedTickerBatching (snd r2) = Some true ∧
      snd r2 ≠ snd r1)).
Proof.
  vm_compute. split; [reflexivity|]. split; [by eexists|].
  split; [reflexivity|]. split; [reflexivity|]. split; [reflexivity|].
  intros H. discriminate H.
Qed.

Lemma SetupDefaults_idempotent_witness :
  ∃ c, b_Config Demo.settled = Some c
       ∧ Demo.setup 1 Demo.settled c = Returns (None, Demo.settled).
Proof.
  unfold Demo.setup.
  apply (SetupDefaults_idempotent Demo.APIURLNonDefaultMessage Demo.Base64Decode
           Demo.url_Parse Demo.RequiresRateLimiter 0 1 Demo.bithumb Demo.settled
           (Demo.config_with_features Demo.bithumb) None).
  - eexists. reflexivity.
  - reflexivity.
  - vm_compute. reflexivity.
Defined.

(** C3.  [SetFeatureDefaults] at Huobi's defaults (auto pair updates
    supported, ticker batching not) holding a persisted configuration whose
    Features section records ticker batching as unsupported: the call
    returns, and the written-back ticker-batching flag is on, against the
    adapter's own value; the statement that every written-back support flag
    equals the adapter's fails there. *)
Theorem SetFeatureDefaults_huobi_ticker_batching :
  pf_AutoPairUpdates
    (fs_RESTCapabilities (f_Supports (b_Features Demo.huobi_loaded))) = true ∧
  pf_TickerBatching
    (fs_RESTCapabilities (f_Supports (b_Features Demo.huobi_loaded))) = false ∧
  Demo.persistedTickerBatching Demo.huobi_loaded = Some false ∧
  returned (SetFeatureDefaults 0 Demo.huobi_loaded) (λ e',
    Demo.persistedTickerBatching e' = Some true ∧
    f_Supports (b_Features e') = f_Supports (b_Features Demo.huobi_loaded) ∧
    ∀ c f, writtenBack e' = Some c → ec_Features c = Some f →
           ¬ supportsMatch (f_Supports (b_Features e')) f).
Proof.
  vm_compute. repeat split.
  intros c f [= <-] [= <-] H. decompose [and] H. discriminate.
Qed.

(** C6 as stated fails for Huobi: with two enabled pairs and a venue whose
    batch cancellation reports one failed order, [CancelAllOrders] returns an
    overall error and an empty status map after a single venue call; the
    second pair is never attempted. *)
Lemma Huobi_CancelAllOrders_stops_at_first_failure :
  length (GetEnabledPairs Demo.FormatPairs Demo.huobi_live AssetTypeSpot) = 2%nat ∧
  Huobi.CancelAllOrders Demo.FormatPairs Demo.Display Demo.CancelOpenOrdersBatch
    Demo.huobi_live Demo.empty_world Demo.cancel_all
  = (({| OrderStatus := ∅ |}, Some "1 orders failed to cancel"),
     {| w_Tickers := ∅; w_Orderbooks := ∅;
        w_Log := [CallCancelOpenOrdersBatch "42" "BTC"] |}).
Proof. split; vm_compute; reflexivity. Qed.

Lemma CancelAllOrders_best_effort_witness :
  (∃ status,
     fst (Bithumb.CancelAllOrders Demo.FormatPairs Demo.GetOrders Demo.CancelTrade
            Demo.bithumb_live Demo.empty_world Demo.cancel_all)
     = ({| OrderStatus := status |}, None) ∧
     is_Some (status !! "2") ∧ status !! "1" = None ∧ status !! "3" = None) ∧
  Huobi.CancelAllOrders Demo.FormatPairs Demo.Display Demo.CancelOpenOrdersBatch_late
    Demo.huobi_three Demo.empty_world Demo.cancel_all
  = (({| OrderStatus := ∅ |}, Some "2 orders failed to cancel"),
     {| w_Tickers := ∅; w_Orderbooks := ∅;
        w_Log := [CallCancelOpenOrdersBatch "42" "BTC";
                  CallCancelOpenOrdersBatch "42" "ETH"] |}).
Proof.
  split.
  - destruct (proj1 (CancelAllOrders_best_effort Demo.FormatPairs Demo.Display
                       Demo.GetOrders Demo.CancelTrade Demo.CancelOpenOrdersBatch
                       Demo.bithumb_live Demo.huobi_live Demo.empty_world
                       Demo.cancel_all))
      as (status & w2 & Heq & _ & Hdom & _).
    { intros i p _. reflexivity. }
    exists status. rewrite Heq. split; [reflexivity|]. split.
    + apply Hdom. exists "order not found", 1%nat, {| Bithumb.OrderID := "2" |}.
      repeat split.
    + split; apply eq_None_not_Some; intros Hs; apply Hdom in Hs;
        destruct Hs as (msg & i & o & Hi & Ho & Hc); subst; discriminate Hc.
  - apply (proj2 (CancelAllOrders_best_effort Demo.FormatPairs Demo.Display
                    Demo.GetOrders Demo.CancelTrade Demo.CancelOpenOrdersBatch_late
                    Demo.bithumb_live Demo.huobi_three Demo.empty_world
                    Demo.cancel_all)
             [{| p_Delimiter := "-"; p_FirstCurrency := "BTC"; p_SecondCurrency := "" |}]
             {| p_Delimiter := "-"; p_FirstCurrency := "ETH"; p_SecondCurrency := "" |}
             [{| p_Delimiter := "-"; p_FirstCurrency := "LTC"; p_SecondCurrency := "" |}]
             {| Huobi.Data_FailedCount := 2 |}).
    + reflexivity.
    + intros [|i] p Hp; [|destruct i; discriminate Hp].
      injection Hp as <-. eexists. split; [reflexivity|]. simpl. lia.
    + reflexivity.
    + reflexivity.
Defined.

Lemma failed_refresh_leaves_cache_witness :
  (∃ w', Bithumb.UpdateTicker Demo.FormatPairs Demo.GetAllTickers_down Demo.bithumb
           Demo.cached_world Demo.btc_krw AssetTypeSpot
         = ((ticker.zero_Price, Some "timeout"), w')
         ∧ cacheUntouched Demo.cached_world w') ∧
  (∃ w', Huobi.UpdateOrderbook Demo.Display Demo.Step1 Demo.GetDepth_down Demo.huobi
           Demo.cached_world Demo.btc_krw AssetTypeSpot
         = Returns ((orderbook.zero_Base, Some "timeout"), w')
         ∧ cacheUntouched Demo.cached_world w').
Proof.
  destruct (failed_refresh_leaves_cache Demo.FormatPairs Demo.Display Demo.Step1
              Demo.GetAllTickers_down Demo.GetOrderBook_down
              Demo.GetMarketDetailMerged_down Demo.GetDepth_down
              Demo.bithumb Demo.huobi Demo.cached_world Demo.btc_krw AssetTypeSpot
              "timeout") as (H1 & _ & _ & H4).
  split; [apply H1|apply H4]; reflexivity.
Defined.


